(** * The FTrace trace collector (util/trace.cc, util/trace.h, util/status.h)

    A shallow embedding of the trace session engine of [FTraceTracer]:
    [ConfigureFTrace], [EnableEvents], [CollectTrace], [CopyCPUBuffers],
    [CopyCPUBuffer], [StopTrace], [ClearCPUFDs], [WriteString] and the
    destructor.  The member functions are state transformers over the
    object's fields and an explicit model of the operating system (descriptor
    table, files, per-CPU pipes, clock, and a log of the calls made).

    What the operating system answers is not decided by the program; it is
    taken from an environment [Env] whose answers may depend on the whole
    history of calls, so that every theorem is about every environment.

    [CopyFormats] and [CopyFakeFile] are embedded in a part of their own,
    after the session engine.  [CopySystemTopology] (directory iteration
    and regular expressions), [CreateTar] (a shell command), [Trace] and
    [main] are not embedded.

    Console output ([std::cout], [std::cerr]) is not modelled. *)

From Stdlib Require Import String Ascii List ZArith Lia Bool DecimalString.
Import ListNotations.

Open Scope list_scope.
Open Scope Z_scope.
Open Scope string_scope.

(** ** util/status.h *)

Inductive StatusCode : Type :=
| kOk        (* = 0 *)
| kInternal. (* = 13 *)

Record Status : Type := mkStatus { code : StatusCode; message : string }.

Definition InternalError (msg : string) : Status := mkStatus kInternal msg.
Definition OkStatus : Status := mkStatus kOk "".

Definition ok (s : Status) : bool :=
  match code s with kOk => true | kInternal => false end.

(** ** Strings and paths *)

(** [std::to_string(int)]. *)
Definition to_string (z : Z) : string := NilZero.string_of_int (Z.to_int z).

(** [absl::StrCat] of two pieces is [++]; longer calls are nested. *)

Fixpoint ends_with_separator (p : string) : bool :=
  match p with
  | EmptyString => false
  | String c EmptyString => Ascii.eqb c "/"
  | String _ r => ends_with_separator r
  end.

(** [std::filesystem::path::operator/]: an absolute right operand replaces
    the left one; otherwise a separator is added unless the left operand is
    empty or already ends with one. *)
Definition path_join (p q : string) : string :=
  if String.prefix "/" q then q
  else if (p =? "") || ends_with_separator p then p ++ q
  else p ++ "/" ++ q.

Infix "//" := path_join (at level 40, left associativity).

(** [contains m s]: [m] occurs in [s] as a contiguous substring. *)
Fixpoint contains (m s : string) : bool :=
  String.prefix m s ||
  match s with
  | EmptyString => false
  | String _ r => contains m r
  end.

(** ** The operating system *)

Definition EBADF : Z := 9.
Definition EAGAIN : Z := 11.

(** What one [read(2)] returns: [RBytes d] is a return value of
    [length d] (0 for the empty string) with the bytes [d] stored in the
    buffer, [RFail e] is a return value of -1 with [errno = e]. *)
Inductive ReadResult : Type :=
| RBytes (d : string)
| RFail (errno : Z).

Inductive OFlag : Type :=
| O_RDONLY | O_WRONLY | O_NONBLOCK | O_CREAT | O_TRUNC | O_LARGEFILE.

Definition OFlag_eqb (a b : OFlag) : bool :=
  match a, b with
  | O_RDONLY, O_RDONLY | O_WRONLY, O_WRONLY | O_NONBLOCK, O_NONBLOCK
  | O_CREAT, O_CREAT | O_TRUNC, O_TRUNC | O_LARGEFILE, O_LARGEFILE => true
  | _, _ => false
  end.

(** The state bits of a [std::ofstream] that [WriteString] can observe,
    with whether its file buffer is open. *)
Record ofstream : Type := mkOfstream {
  os_path    : string;
  os_is_open : bool;
  os_badbit  : bool;
  os_failbit : bool;
  os_pending : string   (* characters the stream buffer has accepted *)
}.

(** One entry per call the program makes to the outside. *)
Inductive Event : Type :=
| EvWriteString (path data : string) (opened badbit failbit : bool)
| EvOpen (path : string) (flags : list OFlag) (ret : Z)
| EvRead (fd : Z) (count : nat) (res : ReadResult)
| EvWrite (fd : Z) (data : string) (ret : Z)
| EvClose (fd : Z)
| EvNprocs (n : nat)
| EvNow (t : Z)
| EvSleep (ms : Z)
| EvExists (path : string) (b : bool)
| EvMkdirs (path : string) (b : bool).

(** The environment: the answers of the kernel and the file system, each a
    function of the history of calls so far (newest first). *)
Record Env : Type := mkEnv {
  (* std::ofstream: does the file open; how many characters does the stream
     buffer accept; does close() succeed ([None]) or fail after flushing
     only some characters ([Some k]) *)
  env_ofs_open  : list Event -> string -> bool;
  env_ofs_sputn : list Event -> string -> string -> nat;
  env_ofs_close : list Event -> string -> option nat;
  (* open(2) succeeds or not *)
  env_open      : list Event -> string -> list OFlag -> bool;
  (* return value of write(2) on the file at a path *)
  env_write     : list Event -> string -> string -> Z;
  (* get_nprocs() *)
  env_nprocs    : list Event -> nat;
  (* milliseconds gone by since the clock was last read or slept on *)
  env_elapsed   : list Event -> nat;
  (* std::filesystem::exists *)
  env_exists    : list Event -> string -> bool;
  (* std::filesystem::create_directories: a directory was made
     ([Some true]), none had to be, the directory is there already
     ([Some false]), or the directory cannot be made and
     std::filesystem::filesystem_error is thrown ([None]) *)
  env_mkdirs    : list Event -> string -> option bool
}.

Record World : Type := mkWorld {
  log   : list Event;               (* newest first *)
  fdtab : list (Z * string);        (* open descriptors and their paths *)
  files : string -> string;         (* contents of files *)
  pipes : string -> list ReadResult;(* what successive reads of a pipe give *)
  clock : Z                         (* milliseconds *)
}.

Definition upd {A : Type} (f : string -> A) (k : string) (v : A) : string -> A :=
  fun k' => if (k' =? k)%string then v else f k'.

Fixpoint fd_lookup (tab : list (Z * string)) (fd : Z) : option string :=
  match tab with
  | [] => None
  | (n, p) :: r => if (n =? fd)%Z then Some p else fd_lookup r fd
  end.

Definition fd_remove (tab : list (Z * string)) (fd : Z) : list (Z * string) :=
  filter (fun e => negb (fst e =? fd)%Z) tab.

(** POSIX: [open] returns the lowest descriptor not currently open. *)
Definition lowest_free (tab : list (Z * string)) : Z :=
  match find (fun n => match fd_lookup tab n with None => true | Some _ => false end)
             (map Z.of_nat (seq 0 (S (length tab)))) with
  | Some n => n
  | None => Z.of_nat (length tab)
  end.

Definition push (e : Event) (w : World) : World :=
  mkWorld (e :: log w) (fdtab w) (files w) (pipes w) (clock w).

(** A read of at most [count] bytes from a pipe.  An exhausted pipe has
    nothing to offer: the non-blocking read fails with [EAGAIN]. *)
Definition pipe_read (count : nat) (script : list ReadResult)
  : ReadResult * list ReadResult :=
  match script with
  | [] => (RFail EAGAIN, [])
  | RFail e :: rest => (RFail e, rest)
  | RBytes d :: rest =>
      if (String.length d <=? count)%nat then (RBytes d, rest)
      else (RBytes (substring 0 count d),
            RBytes (substring count (String.length d - count) d) :: rest)
  end.

(** ** The tracer object (util/trace.h) *)

Record FTraceTracer : Type := mkTracer {
  kernel_trace_root_   : string;
  kernel_devices_root_ : string;
  output_path_         : string;
  buffer_size_         : Z;
  events_              : list string;
  temp_path_           : string;
  is_tracing_          : bool;
  fds_                 : list (Z * Z);
  free_fd_             : Z
}.

(** The constructor; [free_fd_] has no initialiser in the class, its
    indeterminate value is the last argument. *)
Definition FTraceTracer_new (kernel_trace_root kernel_devices_root output_path : string)
    (buffer_size : Z) (events : list string) (indeterminate : Z) : FTraceTracer :=
  mkTracer kernel_trace_root kernel_devices_root output_path buffer_size events
           "" false [] indeterminate.

Definition set_is_tracing (b : bool) (t : FTraceTracer) : FTraceTracer :=
  mkTracer (kernel_trace_root_ t) (kernel_devices_root_ t) (output_path_ t)
           (buffer_size_ t) (events_ t) (temp_path_ t) b (fds_ t) (free_fd_ t).

Definition set_fds (l : list (Z * Z)) (t : FTraceTracer) : FTraceTracer :=
  mkTracer (kernel_trace_root_ t) (kernel_devices_root_ t) (output_path_ t)
           (buffer_size_ t) (events_ t) (temp_path_ t) (is_tracing_ t) l (free_fd_ t).

Definition set_free_fd (fd : Z) (t : FTraceTracer) : FTraceTracer :=
  mkTracer (kernel_trace_root_ t) (kernel_devices_root_ t) (output_path_ t)
           (buffer_size_ t) (events_ t) (temp_path_ t) (is_tracing_ t) (fds_ t) fd.

Definition set_temp_path (p : string) (t : FTraceTracer) : FTraceTracer :=
  mkTracer (kernel_trace_root_ t) (kernel_devices_root_ t) (output_path_ t)
           (buffer_size_ t) (events_ t) p (is_tracing_ t) (fds_ t) (free_fd_ t).

(** ** Member functions as state transformers *)

(** Ways in which a call returns no result: [fds_[i]] outside the vector,
    a scratch buffer of non-positive size, a
    [std::filesystem::filesystem_error] thrown for a path (nothing in the
    program catches it), and a loop bound of the model that was reached
    (shown below never to happen). *)
Inductive Fault : Type :=
| VecIndex (i len : nat)
| ScratchAlloc (n : Z)
| FilesystemError (path : string)
| Fuel.

Inductive Res (A : Type) : Type :=
| Val (a : A) (t : FTraceTracer) (w : World)
| Stuck (f : Fault).

Arguments Val {A} a t w.
Arguments Stuck {A} f.

Definition M (A : Type) : Type := FTraceTracer -> World -> Res A.

Definition ret {A : Type} (a : A) : M A := fun t w => Val a t w.

Definition bind {A B : Type} (m : M A) (f : A -> M B) : M B :=
  fun t w => match m t w with
             | Val a t' w' => f a t' w'
             | Stuck e => Stuck e
             end.

Definition stuck {A : Type} (e : Fault) : M A := fun _ _ => Stuck e.
Definition gets {A : Type} (f : FTraceTracer -> A) : M A := fun t w => Val (f t) t w.
Definition modify (f : FTraceTracer -> FTraceTracer) : M unit := fun t w => Val tt (f t) w.
Definition world : M World := fun t w => Val w t w.

Notation "x <- m ;; k" := (bind m (fun x => k))
  (at level 61, m at next level, right associativity).
Notation "m ;;; k" := (bind m (fun _ => k))
  (at level 61, right associativity).

Section Tracer.

Variable E : Env.

(** *** System calls *)

Definition sys_open (path : string) (flags : list OFlag) : M Z := fun t w =>
  if env_open E (log w) path flags then
    let fd := lowest_free (fdtab w) in
    let fs := if existsb (OFlag_eqb O_TRUNC) flags
              then upd (files w) path "" else files w in
    Val fd t (mkWorld (EvOpen path flags fd :: log w) ((fd, path) :: fdtab w)
                      fs (pipes w) (clock w))
  else Val (-1)%Z t (push (EvOpen path flags (-1)%Z) w).

Definition sys_close (fd : Z) : M unit := fun t w =>
  Val tt t (mkWorld (EvClose fd :: log w) (fd_remove (fdtab w) fd)
                    (files w) (pipes w) (clock w)).

Definition sys_read (fd : Z) (count : nat) : M ReadResult := fun t w =>
  match fd_lookup (fdtab w) fd with
  | None => Val (RFail EBADF) t (push (EvRead fd count (RFail EBADF)) w)
  | Some p =>
      let '(r, rest) := pipe_read count (pipes w p) in
      Val r t (mkWorld (EvRead fd count r :: log w) (fdtab w) (files w)
                       (upd (pipes w) p rest) (clock w))
  end.

(** [write] appends what the kernel accepts at the end of the file: every
    file written through a descriptor here has that descriptor as its only
    writer since it was truncated. *)
Definition sys_write (fd : Z) (data : string) : M Z := fun t w =>
  match fd_lookup (fdtab w) fd with
  | None => Val (-1)%Z t (push (EvWrite fd data (-1)%Z) w)
  | Some p =>
      let r := env_write E (log w) p data in
      if (0 <=? r)%Z && (r <=? Z.of_nat (String.length data))%Z then
        Val r t (mkWorld (EvWrite fd data r :: log w) (fdtab w)
                         (upd (files w) p (files w p ++ substring 0 (Z.to_nat r) data))
                         (pipes w) (clock w))
      else Val (-1)%Z t (push (EvWrite fd data (-1)%Z) w)
  end.

Definition get_nprocs : M nat := fun t w =>
  let n := env_nprocs E (log w) in Val n t (push (EvNprocs n) w).

(** [absl::Now()], in milliseconds. *)
Definition Now : M Z := fun t w =>
  let c := (clock w + Z.of_nat (env_elapsed E (log w)))%Z in
  Val c t (mkWorld (EvNow c :: log w) (fdtab w) (files w) (pipes w) c).

(** [absl::SleepFor]: at least the requested time goes by. *)
Definition SleepFor (ms : Z) : M unit := fun t w =>
  Val tt t (mkWorld (EvSleep ms :: log w) (fdtab w) (files w) (pipes w)
                    (clock w + ms)%Z).

Definition fs_exists (path : string) : M bool := fun t w =>
  let b := env_exists E (log w) path in Val b t (push (EvExists path b) w).

(** [std::filesystem::create_directories(path)], the overload without
    [error_code]: it returns whether a directory was made, and throws when
    the directory cannot be made. *)
Definition create_directories (path : string) : M bool := fun t w =>
  match env_mkdirs E (log w) path with
  | Some b => Val b t (push (EvMkdirs path b) w)
  | None => Stuck (FilesystemError path)
  end.

(** *** std::ofstream, as far as [WriteString] uses it *)

(** [std::ofstream out(path)]: opens for writing, truncating; when the open
    fails the constructor sets [failbit]. *)
Definition ofstream_ctor (w : World) (path : string) : ofstream * World :=
  if env_ofs_open E (log w) path
  then (mkOfstream path true false false "",
        mkWorld (log w) (fdtab w) (upd (files w) path "") (pipes w) (clock w))
  else (mkOfstream path false false true "", w).

Definition good (out : ofstream) : bool :=
  negb (os_badbit out) && negb (os_failbit out).

(** [out << data]: on a stream that is not good the sentry sets [failbit]
    and nothing is inserted; otherwise the characters go to the stream
    buffer, and [badbit] is set when it accepts fewer than all of them. *)
Definition ofstream_insert (w : World) (out : ofstream) (data : string) : ofstream :=
  if good out then
    let k := Nat.min (env_ofs_sputn E (log w) (os_path out) data) (String.length data) in
    mkOfstream (os_path out) (os_is_open out) (k <? String.length data)%nat
               (os_failbit out) (substring 0 k data)
  else mkOfstream (os_path out) (os_is_open out) (os_badbit out) true (os_pending out).

(** [out.close()]: flushes the buffer and closes the file; when that fails,
    or no file is open, [failbit] is set. *)
Definition ofstream_close (w : World) (out : ofstream) : ofstream * World :=
  if os_is_open out then
    match env_ofs_close E (log w) (os_path out) with
    | None =>
        (mkOfstream (os_path out) false (os_badbit out) (os_failbit out) "",
         mkWorld (log w) (fdtab w) (upd (files w) (os_path out) (os_pending out))
                 (pipes w) (clock w))
    | Some k =>
        (mkOfstream (os_path out) false (os_badbit out) true "",
         mkWorld (log w) (fdtab w)
                 (upd (files w) (os_path out) (substring 0 k (os_pending out)))
                 (pipes w) (clock w))
    end
  else (mkOfstream (os_path out) false (os_badbit out) true (os_pending out), w).

(** [out.bad()]: [badbit] only. *)
Definition bad (out : ofstream) : bool := os_badbit out.

(** *** FTraceTracer::WriteString (static) *)
Definition WriteString (path data : string) : M Status := fun t w =>
  let '(out, w1) := ofstream_ctor w path in
  let out := ofstream_insert w out data in
  let '(out', w2) := ofstream_close w1 out in
  let w3 := push (EvWriteString path data (os_is_open out) (os_badbit out')
                                (os_failbit out')) w2 in
  if bad out' then
    Val (InternalError ("Failed to write to" ++ path)) t w3
  else Val OkStatus t w3.

(** *** FTraceTracer::ClearCPUFDs *)
Fixpoint close_all (l : list (Z * Z)) : M unit :=
  match l with
  | [] => ret tt
  | cpu_fds :: r =>
      sys_close (fst cpu_fds) ;;;
      sys_close (snd cpu_fds) ;;;
      close_all r
  end.

Definition ClearCPUFDs : M unit :=
  l <- gets fds_ ;;
  close_all l ;;;
  modify (set_fds []).

(** *** FTraceTracer::EnableEvents *)

(** The [(unsigned)] cast of the result of [write]. *)
Definition to_unsigned (z : Z) : Z := (z mod 2 ^ 32)%Z.

Fixpoint write_events (fd : Z) (events_path : string) (l : list string)
  : M (option Status) :=
  match l with
  | [] => ret None
  | event :: r =>
      n <- sys_write fd event ;;
      if negb (to_unsigned n =? Z.of_nat (String.length event))%Z then
        sys_close fd ;;;
        ret (Some (InternalError
                     ("Failed to write " ++ event ++ " to " ++ events_path)))
      else write_events fd events_path r
  end.

Definition EnableEvents : M Status :=
  tracing <- gets is_tracing_ ;;
  if tracing then ret (InternalError "Already Tracing") else
  root <- gets kernel_trace_root_ ;;
  let events_path := root // "set_event" in
  fd <- sys_open events_path [O_WRONLY; O_TRUNC] ;;
  if (fd <? 0)%Z then
    ret (InternalError ("Could not open " ++ events_path))
  else
    events <- gets events_ ;;
    r <- write_events fd events_path events ;;
    match r with
    | Some e => ret e
    | None => sys_close fd ;;; ret OkStatus
    end.

(** *** FTraceTracer::ConfigureFTrace *)
Definition ConfigureFTrace : M Status :=
  tracing <- gets is_tracing_ ;;
  if tracing then ret (InternalError "Already Tracing") else
  root <- gets kernel_trace_root_ ;;
  (* Disable tracing. *)
  status <- WriteString (root // "tracing_on") "0" ;;
  if negb (ok status) then ret status else
  (* Hold a reference to the free_buffer file. *)
  fd <- sys_open (root // "free_buffer") [O_RDONLY] ;;
  modify (set_free_fd fd) ;;;
  if (fd <? 0)%Z then ret (InternalError "unable to open free_buffer file") else
  (* Remove all current tracers from tracing. *)
  status <- WriteString (root // "current_tracer") "nop" ;;
  if negb (ok status) then ret status else
  (* Stop tracing if this process ends or if we close the free_buffer file. *)
  status <- WriteString (root // "trace_options") "disable_on_free" ;;
  if negb (ok status) then ret status else
  (* Set buffer size. *)
  size <- gets buffer_size_ ;;
  status <- WriteString (root // "buffer_size_kb") (to_string size) ;;
  if negb (ok status) then ret status else
  (* Enable events to record. *)
  status <- EnableEvents ;;
  if negb (ok status) then ret status else
  ret OkStatus.

(** *** FTraceTracer::CopyCPUBuffer *)

Definition bytes_read_of (r : ReadResult) : Z :=
  match r with RBytes d => Z.of_nat (String.length d) | RFail _ => (-1)%Z end.

Definition errno_is (r : ReadResult) (e : Z) : bool :=
  match r with RBytes _ => false | RFail e' => (e' =? e)%Z end.

Definition data_of (r : ReadResult) : string :=
  match r with RBytes d => d | RFail _ => "" end.

(** The body of [while (true)]; [fuel] bounds the number of reads. *)
Fixpoint drain (fuel : nat) (in_fd out_fd : Z) (size : nat) : M Status :=
  match fuel with
  | O => stuck Fuel
  | S fuel' =>
      r <- sys_read in_fd size ;;
      let bytes_read := bytes_read_of r in
      if (bytes_read =? -1)%Z && negb (errno_is r EAGAIN) then
        ret (InternalError ("Unable to read cpu file " ++ to_string in_fd))
      else if (bytes_read =? -1)%Z || (bytes_read =? 0)%Z then
        ret OkStatus
      else
        sys_write out_fd (data_of r) ;;;
        drain fuel' in_fd out_fd size
  end.

(** Every read that lets the loop go on takes something out of the pipe;
    the weight of a pipe bounds how often that can happen. *)
Fixpoint weight (script : list ReadResult) : nat :=
  match script with
  | [] => 0
  | RBytes d :: r => S (String.length d + weight r)
  | RFail _ :: r => S (weight r)
  end.

Definition pending_weight (w : World) (fd : Z) : nat :=
  match fd_lookup (fdtab w) fd with
  | None => 0
  | Some p => weight (pipes w p)
  end.

Definition CopyCPUBuffer (in_fd out_fd : Z) : M Status :=
  tracing <- gets is_tracing_ ;;
  if negb tracing then ret (InternalError "Not currently in a trace") else
  size <- gets buffer_size_ ;;
  (* std::vector<char> trace_data(buffer_size_); &trace_data.front() *)
  if (size <=? 0)%Z then stuck (ScratchAlloc size) else
  w <- world ;;
  drain (S (pending_weight w in_fd)) in_fd out_fd (Z.to_nat size).

(** *** FTraceTracer::CopyCPUBuffers *)

(** [for (int i = ...; i < cpu_count; i++)] with [n] iterations to go. *)
Fixpoint copy_loop (n i : nat) : M Status :=
  match n with
  | O => ret OkStatus
  | S n' =>
      l <- gets fds_ ;;
      match nth_error l i with
      | None => stuck (VecIndex i (List.length l))
      | Some cpu_fds =>
          status <- CopyCPUBuffer (fst cpu_fds) (snd cpu_fds) ;;
          if negb (ok status) then ret status
          else copy_loop n' (S i)
      end
  end.

Definition CopyCPUBuffers : M Status :=
  tracing <- gets is_tracing_ ;;
  if negb tracing then ret (InternalError "Not currently in a trace") else
  cpu_count <- get_nprocs ;;
  copy_loop cpu_count 0.

(** *** FTraceTracer::StopTrace *)
Definition StopTrace (final_copy : bool) : M Status :=
  tracing <- gets is_tracing_ ;;
  if negb tracing then ret (InternalError "Not currently in a trace") else
  root <- gets kernel_trace_root_ ;;
  let tracing_file_path := root // "tracing_on" in
  status <- WriteString tracing_file_path "0" ;;
  if negb (ok status) then
    free_fd <- gets free_fd_ ;;
    sys_close free_fd ;;;
    modify (set_is_tracing false) ;;;
    ret status
  else
    let finish (status : Status) : M Status :=
      ClearCPUFDs ;;;
      free_fd <- gets free_fd_ ;;
      sys_close free_fd ;;;
      modify (set_is_tracing false) ;;;
      ret status in
    if final_copy then
      status <- CopyCPUBuffers ;;
      if negb (ok status) then
        free_fd <- gets free_fd_ ;;
        sys_close free_fd ;;;
        modify (set_is_tracing false) ;;;
        ret status
      else finish status
    else finish status.

(** *** FTraceTracer::~FTraceTracer *)
Definition FTraceTracer_dtor : M unit :=
  (* Ignore error as we can't recover here. *)
  StopTrace false ;;; ret tt.

(** *** FTraceTracer::CollectTrace *)

(** The loop that opens one pair of descriptors per CPU; [Some] is the
    early [return]. *)
Fixpoint open_streams (n i : nat) (out : string) : M (option Status) :=
  match n with
  | O => ret None
  | S n' =>
      root <- gets kernel_trace_root_ ;;
      let cpuName := "cpu" ++ to_string (Z.of_nat i) in
      let cpuPath := root // "per_cpu" // cpuName // "trace_pipe_raw" in
      let outPath := out // cpuName in
      in_fd <- sys_open cpuPath [O_RDONLY; O_NONBLOCK] ;;
      if (in_fd =? -1)%Z then
        ret (Some (InternalError ("Unable to open " ++ cpuPath)))
      else
        out_fd <- sys_open outPath [O_CREAT; O_WRONLY; O_TRUNC; O_LARGEFILE] ;;
        if (out_fd =? -1)%Z then
          ret (Some (InternalError ("Unable to create " ++ outPath)))
        else
          modify (fun t => set_fds (fds_ t ++ [(in_fd, out_fd)])%list t) ;;;
          open_streams n' (S i) out
  end.

Definition interval : Z := 100.

(** [while (absl::Now() <= start_time + absl::Seconds(capture_seconds))];
    the result is [failedCopyStatus]. *)
Fixpoint capture_loop (fuel : nat) (deadline : Z) : M Status :=
  match fuel with
  | O => stuck Fuel
  | S fuel' =>
      now <- Now ;;
      if (now <=? deadline)%Z then
        status <- CopyCPUBuffers ;;
        if negb (ok status) then ret status
        else SleepFor interval ;;; capture_loop fuel' deadline
      else ret OkStatus
  end.

(** Every turn of the loop sleeps for [interval], so the condition is
    tested at most this often. *)
Definition capture_fuel (capture_seconds : Z) : nat :=
  S (Z.to_nat (10 * capture_seconds)).

(** [CollectTrace] up to the first sleep: [inl] is an early [return],
    [inr] carries [start_time]. *)
Definition CollectTrace_start : M (Status + Z) :=
  tracing <- gets is_tracing_ ;;
  if tracing then ret (inl (InternalError "Already Tracing")) else
  (* Prepare *)
  temp <- gets temp_path_ ;;
  let out := temp // "traces" in
  (* Create directories if they don't exist. *)
  present <- fs_exists out ;;
  made <- (if present then ret true else create_directories out) ;;
  if negb made then
    ret (inl (InternalError ("Unable to create directories for path: " ++ out)))
  else
  cpu_count <- get_nprocs ;;
  ClearCPUFDs ;;;
  r <- open_streams cpu_count 0 out ;;
  match r with
  | Some e => ret (inl e)
  | None =>
      (* Start Trace. *)
      root <- gets kernel_trace_root_ ;;
      status <- WriteString (root // "tracing_on") "1" ;;
      if negb (ok status) then ret (inl status) else
      modify (set_is_tracing true) ;;;
      (* Wait for trace to end. *)
      start_time <- Now ;;
      SleepFor interval ;;;
      ret (inr start_time)
  end.

Definition CollectTrace (capture_seconds : Z) : M Status :=
  r <- CollectTrace_start ;;
  match r with
  | inl e => ret e
  | inr start_time =>
      failedCopyStatus <-
        capture_loop (capture_fuel capture_seconds)
                     (start_time + 1000 * capture_seconds) ;;
      status <- StopTrace true ;;
      if negb (ok failedCopyStatus) then
        (* Merge the failure message from the failed copy and StopTrace,
           if it failed. *)
        ret (InternalError (message failedCopyStatus ++ String "010" (String "010" "")
                              ++ message status))
      else ret status
  end.

End Tracer.

(** * Vocabulary of the properties *)

(** Calls a drain pass makes. *)
Definition drain_event (e : Event) : bool :=
  match e with
  | EvRead _ _ _ | EvWrite _ _ _ | EvNprocs _ => true
  | _ => false
  end.

(** [grows w w']: from [w] to [w'] descriptors and clock are untouched, the
    log got only drain calls, and every file kept what it had, with
    possibly more at its end. *)
Definition grows (w w' : World) : Prop :=
  fdtab w' = fdtab w /\
  clock w' = clock w /\
  (exists new, log w' = (new ++ log w)%list /\ forallb drain_event new = true) /\
  (forall p, exists extra, files w' p = files w p ++ extra).

(** A failed drain: the last call was a read of [in_fd] that returned -1
    with an [errno] other than [EAGAIN], and the status names [in_fd]. *)
Definition read_failure (in_fd : Z) (st : Status) (w' : World) : Prop :=
  exists count e rest,
    log w' = EvRead in_fd count (RFail e) :: rest /\
    e <> EAGAIN /\
    st = InternalError ("Unable to read cpu file " ++ to_string in_fd).

(** The pass failed at the stream of CPU [j]. *)
Definition pass_failure (t : FTraceTracer) (lo hi : nat) (st : Status) (w' : World) : Prop :=
  exists j in_fd out_fd,
    (lo <= j < hi)%nat /\
    nth_error (fds_ t) j = Some (in_fd, out_fd) /\
    read_failure in_fd st w'.



(** How often [close(fd)] occurs in a list of calls. *)
Definition is_close_of (fd : Z) (e : Event) : bool :=
  match e with EvClose n => (n =? fd)%Z | _ => false end.

Definition close_count (fd : Z) (l : list Event) : nat :=
  List.length (filter (is_close_of fd) l).

Definition is_close (e : Event) : bool :=
  match e with EvClose _ => true | _ => false end.

(** The descriptors held in [fds_]. *)
Definition stream_fds (l : list (Z * Z)) : list Z :=
  flat_map (fun cpu_fds => [fst cpu_fds; snd cpu_fds]) l.

(** The parts of a result. *)
Definition res_value {A : Type} (r : Res A) : option A :=
  match r with Val a _ _ => Some a | Stuck _ => None end.

Definition res_tracer {A : Type} (t0 : FTraceTracer) (r : Res A) : FTraceTracer :=
  match r with Val _ t _ => t | Stuck _ => t0 end.

Definition res_world {A : Type} (w0 : World) (r : Res A) : World :=
  match r with Val _ _ w => w | Stuck _ => w0 end.

(** A call without what came back from it, but for [open], whose result
    is the descriptor later calls use. *)
Inductive Call : Type :=
| CWriteString (path data : string)
| COpen (path : string) (flags : list OFlag) (ret : Z)
| CWrite (fd : Z) (data : string)
| CClose (fd : Z)
| COther.

Definition call_of (e : Event) : Call :=
  match e with
  | EvWriteString p d _ _ _ => CWriteString p d
  | EvOpen p fl r => COpen p fl r
  | EvWrite fd d _ => CWrite fd d
  | EvClose fd => CClose fd
  | _ => COther
  end.

(** Whether the program takes a call to have succeeded: [WriteString] by
    [bad()], [open] by the sign of the descriptor, [write] by the count
    returned, cast to [unsigned], being the size asked for. *)
Definition succeeded (e : Event) : bool :=
  match e with
  | EvWriteString _ _ _ badbit _ => negb badbit
  | EvOpen _ _ r => (0 <=? r)%Z
  | EvWrite _ d r => (to_unsigned r =? Z.of_nat (String.length d))%Z
  | _ => true
  end.

(** The steps of configuration in the order the specification lists them,
    (a) to (f), each with the failure it is reported with; [guard_fd] and
    [event_fd] are what the two [open] calls return. *)
Definition config_plan (t : FTraceTracer) (guard_fd event_fd : Z) : list (Call * Status) :=
  let root := kernel_trace_root_ t in
  let failed_write p := InternalError ("Failed to write to" ++ p) in
  [ (CWriteString (root // "tracing_on") "0", failed_write (root // "tracing_on"));
    (COpen (root // "free_buffer") [O_RDONLY] guard_fd,
     InternalError "unable to open free_buffer file");
    (CWriteString (root // "current_tracer") "nop", failed_write (root // "current_tracer"));
    (CWriteString (root // "trace_options") "disable_on_free",
     failed_write (root // "trace_options"));
    (CWriteString (root // "buffer_size_kb") (to_string (buffer_size_ t)),
     failed_write (root // "buffer_size_kb"));
    (COpen (root // "set_event") [O_WRONLY; O_TRUNC] event_fd,
     InternalError ("Could not open " ++ root // "set_event")) ]
  ++ map (fun event =>
            (CWrite event_fd event,
             InternalError ("Failed to write " ++ event ++ " to " ++ root // "set_event")))
         (events_ t).

(** How a run of steps ended: all of [plan] done and successful, or
    stopped right after the first step that failed, with its failure. *)
Definition ran_until_failure (plan : list (Call * Status)) (calls : list Event)
    (st : Status) : Prop :=
  exists done rest,
    plan = (done ++ rest)%list /\
    map call_of calls = map fst done /\
    (ok st = true /\ rest = [] /\ forallb succeeded calls = true
     \/
     exists before step cbefore e,
       done = (before ++ [step])%list /\ calls = (cbefore ++ [e])%list /\
       forallb succeeded cbefore = true /\ succeeded e = false /\
       st = snd step /\ ok st = false).

(** * Concrete machines

    A machine on which every call succeeds, except that the paths in
    [unopenable] cannot be opened; it has [nprocs] CPUs, and [later] CPUs
    once the CPU count has been asked for before. *)

Definition is_nprocs (e : Event) : bool :=
  match e with EvNprocs _ => true | _ => false end.

Definition machine (nprocs later : nat) (unopenable : string -> bool) : Env :=
  mkEnv (fun _ p => negb (unopenable p))
        (fun _ _ d => String.length d)
        (fun _ _ => None)
        (fun _ p _ => negb (unopenable p))
        (fun _ _ d => Z.of_nat (String.length d))
        (fun h => if existsb is_nprocs h then later else nprocs)
        (fun _ => 0%nat)
        (fun _ _ => false)
        (fun _ _ => Some true).

Definition root0 : string := "/sys/kernel/debug/tracing".
Definition cpu0_pipe : string := "/sys/kernel/debug/tracing/per_cpu/cpu0/trace_pipe_raw".
Definition cpu1_pipe : string := "/sys/kernel/debug/tracing/per_cpu/cpu1/trace_pipe_raw".

(** The tracer as [main] builds it with the default flags, once [Trace] has
    chosen the temporary directory. *)
Definition tracer0 : FTraceTracer :=
  set_temp_path "/tmp/trace"
    (FTraceTracer_new root0 "/sys/devices" "/out" 4096
       ["sched:sched_switch"; "sched:sched_wakeup"; "sched:sched_wakeup_new";
        "sched:sched_migrate_task"] (-7)%Z).

(** A process with the three standard descriptors; [script] says what the
    per-CPU pipes hold. *)
Definition world0 (script : string -> list ReadResult) : World :=
  mkWorld [] [(0%Z, "/dev/stdin"); (1%Z, "/dev/stdout"); (2%Z, "/dev/stderr")]
          (fun _ => "") script 0%Z.

(** The same process on a machine where tracing is on. *)
Definition world_tracing_on : World :=
  mkWorld [] [(0%Z, "/dev/stdin"); (1%Z, "/dev/stdout"); (2%Z, "/dev/stderr")]
          (upd (fun _ => "") "/sys/kernel/debug/tracing/tracing_on" "1")
          (fun _ => []) 0%Z.

Definition no_path (p : string) : bool := false.
Definition nothing_pending (p : string) : list ReadResult := [].

Definition EIO : Z := 5.

(** The state a session is in when [CollectTrace] has started the trace on
    machine [E]. *)
Definition started (E : Env) (script : string -> list ReadResult) : Res (Status + Z) :=
  (ConfigureFTrace E ;;; CollectTrace_start E) tracer0 (world0 script).

(** What is left of a run for inspection: the value, the session fields,
    the calls in the order they were made and the open descriptors. *)
Definition observe {A : Type} (r : Res A)
  : option (A * (bool * list (Z * Z) * Z) * list Event * list (Z * string)) :=
  match r with
  | Val a t w => Some (a, (is_tracing_ t, fds_ t, free_fd_ t), rev (log w), fdtab w)
  | Stuck _ => None
  end.

(** The machines and pipe contents of the examples. *)

Definition cpu1_unopenable (p : string) : bool := (p =? cpu1_pipe)%string.
Definition tracing_on_unopenable (p : string) : bool :=
  (p =? "/sys/kernel/debug/tracing/tracing_on")%string.

Definition E_one : Env := machine 1 1 no_path.
Definition E_two : Env := machine 2 2 no_path.
Definition E_hotplug : Env := machine 1 2 no_path.
Definition E_cpu1_unopenable : Env := machine 2 2 cpu1_unopenable.
Definition E_no_control : Env := machine 1 1 tracing_on_unopenable.

Definition cpu0_fails (p : string) : list ReadResult :=
  if (p =? cpu0_pipe)%string then [RFail EIO] else [].
Definition cpu0_fails_twice (p : string) : list ReadResult :=
  if (p =? cpu0_pipe)%string then [RFail EIO; RFail EIO] else [].
Definition cpu1_fails (p : string) : list ReadResult :=
  if (p =? cpu1_pipe)%string then [RFail EIO] else [].

Definition tracer_of (E : Env) (script : string -> list ReadResult) : FTraceTracer :=
  res_tracer tracer0 (started E script).
Definition world_of (E : Env) (script : string -> list ReadResult) : World :=
  res_world (world0 script) (started E script).

(** A whole session on the machine where the pipe of CPU 1 does not open:
    configuration, [CollectTrace], and the destructor on the way out. *)
Definition session_open_fails : Res Status :=
  (ConfigureFTrace E_cpu1_unopenable ;;;
   st <- CollectTrace E_cpu1_unopenable 1 ;;
   FTraceTracer_dtor E_cpu1_unopenable ;;;
   ret st) tracer0 (world0 nothing_pending).

(** The same on the machine where the output file of CPU 1 cannot be
    created. *)
Definition cpu1_file_uncreatable (p : string) : bool := (p =? "/tmp/trace/traces/cpu1")%string.
Definition E_cpu1_uncreatable : Env := machine 2 2 cpu1_file_uncreatable.
Definition session_create_fails : Res Status :=
  (ConfigureFTrace E_cpu1_uncreatable ;;;
   st <- CollectTrace E_cpu1_uncreatable 1 ;;
   FTraceTracer_dtor E_cpu1_uncreatable ;;;
   ret st) tracer0 (world0 nothing_pending).

(** The session in which the drain fails in the capture loop and again in
    the final copy, by its stages. *)
Definition both_fail_configured : Res Status :=
  ConfigureFTrace E_one tracer0 (world0 cpu0_fails_twice).
Definition both_fail_t : FTraceTracer := res_tracer tracer0 both_fail_configured.
Definition both_fail_w : World := res_world (world0 cpu0_fails_twice) both_fail_configured.
Definition both_fail_started : Res (Status + Z) :=
  CollectTrace_start E_one both_fail_t both_fail_w.
Definition both_fail_t1 : FTraceTracer := res_tracer both_fail_t both_fail_started.
Definition both_fail_w1 : World := res_world both_fail_w both_fail_started.
Definition both_fail_loop : Res Status :=
  capture_loop E_one (capture_fuel 1) (0 + 1000 * 1) both_fail_t1 both_fail_w1.
Definition both_fail_t2 : FTraceTracer := res_tracer both_fail_t1 both_fail_loop.
Definition both_fail_w2 : World := res_world both_fail_w1 both_fail_loop.
Definition both_fail_stop : Res Status := StopTrace E_one true both_fail_t2 both_fail_w2.
Definition both_fail_t3 : FTraceTracer := res_tracer both_fail_t2 both_fail_stop.
Definition both_fail_w3 : World := res_world both_fail_w2 both_fail_stop.

(** * The copy of the format files (util/trace.cc)

    [CopyFormats] and [CopyFakeFile] read files through [std::ifstream].
    What the input side answers is a second environment; like the first it
    is a function of the calls logged so far, and of the paths. *)

Record InEnv : Type := mkInEnv {
  (* std::ifstream: does the file open *)
  env_ifs_open   : list Event -> string -> bool;
  (* [out << in.rdbuf()] from a source to a destination: it runs to the end
     of the source ([None]), or a read or an insertion fails after some
     characters ([Some k]) *)
  env_ifs_copied : list Event -> string -> string -> option nat;
  (* does close() of the input succeed *)
  env_ifs_close  : list Event -> string -> bool
}.

Record ifstream : Type := mkIfstream {
  is_path    : string;
  is_is_open : bool;
  is_badbit  : bool;
  is_failbit : bool
}.

(** ** absl::StrSplit with a character delimiter

    Every piece is returned, empty ones as well; the empty string has one
    empty piece. *)
Fixpoint StrSplit (text : string) (delimiter : ascii) : list string :=
  match text with
  | EmptyString => [""]
  | String c r =>
      if Ascii.eqb c delimiter then "" :: StrSplit r delimiter
      else match StrSplit r delimiter with
           | [] => [String c ""]
           | piece :: pieces => String c piece :: pieces
           end
  end.

(** The inner loop of [CopyFormats]: the parts of the event name, appended
    one after the other to an empty path with [operator/=]. *)
Definition event_format_path (event_type : string) : string :=
  fold_left path_join (StrSplit event_type ":"%char) "".

Section Formats.

Variable E : Env.
Variable I : InEnv.

(** *** std::ifstream, as far as [CopyFakeFile] uses it *)

(** [std::ifstream in(src)]: when the open fails the constructor sets
    [failbit]. *)
Definition ifstream_ctor (w : World) (src : string) : ifstream :=
  if env_ifs_open I (log w) src
  then mkIfstream src true false false
  else mkIfstream src false false true.

(** [out << in.rdbuf()]: on a stream that is not good the sentry sets
    [failbit] and nothing is inserted; otherwise characters go from the
    buffer of [in] to the buffer of [out] until the source ends, or a read
    or an insertion fails; [failbit] is set when none was inserted.  A
    buffer with no open file has no characters.  The state of [in] is not
    touched, and [badbit] of [out] is not set. *)
Definition ofstream_insert_rdbuf (w : World) (out : ofstream) (inn : ifstream) : ofstream :=
  if good out then
    let available := if is_is_open inn then files w (is_path inn) else "" in
    let k := match env_ifs_copied I (log w) (is_path inn) (os_path out) with
             | None => String.length available
             | Some k => Nat.min k (String.length available)
             end in
    mkOfstream (os_path out) (os_is_open out) (os_badbit out) (k =? 0)%nat
               (substring 0 k available)
  else mkOfstream (os_path out) (os_is_open out) (os_badbit out) true (os_pending out).

(** [in.close()]: when it fails, or no file is open, [failbit] is set. *)
Definition ifstream_close (w : World) (inn : ifstream) : ifstream :=
  if is_is_open inn && env_ifs_close I (log w) (is_path inn)
  then mkIfstream (is_path inn) false (is_badbit inn) (is_failbit inn)
  else mkIfstream (is_path inn) false (is_badbit inn) true.

(** [in.bad()]: [badbit] only. *)
Definition in_bad (inn : ifstream) : bool := is_badbit inn.

(** *** FTraceTracer::CopyFakeFile (static) *)
Definition CopyFakeFile (src dst : string) : M Status := fun t w =>
  let inn := ifstream_ctor w src in
  let '(out, w1) := ofstream_ctor E w dst in
  let out := ofstream_insert_rdbuf w1 out inn in
  let '(out', w2) := ofstream_close E w1 out in
  let inn' := ifstream_close w2 inn in
  if in_bad inn' || bad out' then
    Val (InternalError ("Failed to copy " ++ src)) t w2
  else Val OkStatus t w2.

(** *** FTraceTracer::CopyFormats *)

(** The loop over [events_]; [Some] is an early [return]. *)
Fixpoint copy_formats_loop (out formats_root : string) (events : list string)
  : M (option Status) :=
  match events with
  | [] => ret None
  | event_type :: rest =>
      let out_path := out // event_format_path event_type in
      created <- create_directories E out_path ;;
      if negb created then
        ret (Some (InternalError ("Unable to create directories for path: " ++ out_path)))
      else
        status <- CopyFakeFile (formats_root // event_format_path event_type // "format")
                               (out_path // "format") ;;
        if negb (ok status) then ret (Some status)
        else copy_formats_loop out formats_root rest
  end.

Definition CopyFormats : M Status :=
  tracing <- gets is_tracing_ ;;
  if tracing then ret (InternalError "Already Tracing") else
  temp <- gets temp_path_ ;;
  root <- gets kernel_trace_root_ ;;
  let out := temp // "formats" in
  let formats_root := root // "events" in
  events <- gets events_ ;;
  r <- copy_formats_loop out formats_root events ;;
  match r with
  | Some e => ret e
  | None =>
      status <- CopyFakeFile (formats_root // "header_page") (out // "header_page") ;;
      if negb (ok status) then ret status else ret OkStatus
  end.

End Formats.

(** * Vocabulary of the further properties *)

(** What a drain takes out of a pipe: the data of the reads up to the first
    one that returns 0 or -1. *)
Fixpoint pending_data (script : list ReadResult) : string :=
  match script with
  | RBytes d :: r =>
      match d with
      | EmptyString => ""
      | String _ _ => d ++ pending_data r
      end
  | _ => ""
  end.

(** What is left in the pipe after that read. *)
Fixpoint after_stop (script : list ReadResult) : list ReadResult :=
  match script with
  | [] => []
  | RBytes d :: r =>
      match d with
      | EmptyString => r
      | String _ _ => after_stop r
      end
  | RFail _ :: r => r
  end.

(** Whether that read is a failure other than [EAGAIN]. *)
Fixpoint stop_is_failure (script : list ReadResult) : bool :=
  match script with
  | [] => false
  | RBytes d :: r =>
      match d with
      | EmptyString => false
      | String _ _ => stop_is_failure r
      end
  | RFail e :: _ => negb (e =? EAGAIN)%Z
  end.

(** The strings of a list one after the other. *)
Definition concat_all (l : list string) : string := fold_right String.append "" l.

(** The paths of the two sides of the stream of CPU [i]. *)
Definition cpu_pipe_path (root : string) (i : nat) : string :=
  root // "per_cpu" // ("cpu" ++ to_string (Z.of_nat i)) // "trace_pipe_raw".

Definition cpu_file_path (out : string) (i : nat) : string :=
  out // ("cpu" ++ to_string (Z.of_nat i)).


(** A pipe of CPU 0 with two records pending. *)
Definition cpu0_has_data (p : string) : list ReadResult :=
  if (p =? cpu0_pipe)%string then [RBytes "sched"; RBytes "viz"] else [].

(** The parts of an event name put together again, with a separator. *)
Fixpoint join_with (sep : string) (parts : list string) : string :=
  match parts with
  | [] => ""
  | part :: rest =>
      match rest with
      | [] => part
      | _ :: _ => part ++ sep ++ join_with sep rest
      end
  end.

Fixpoint has_char (c : ascii) (s : string) : bool :=
  match s with
  | EmptyString => false
  | String a r => Ascii.eqb a c || has_char c r
  end.

(** A part of an event name as the kernel has them: not empty, and without
    colon or slash. *)
Definition plain_part (part : string) : bool :=
  negb (part =? "")%string && negb (has_char ":" part) && negb (has_char "/" part).

(** The directory [CopyFormats] makes for an event, and the call that makes
    it. *)
Definition format_dir (t : FTraceTracer) (event_type : string) : string :=
  temp_path_ t // "formats" // event_format_path event_type.

Definition made_dir (t : FTraceTracer) (event_type : string) : Event :=
  EvMkdirs (format_dir t event_type) true.

(** The calls of [create_directories] among the calls made. *)
Definition is_mkdirs (e : Event) : bool :=
  match e with EvMkdirs _ _ => true | _ => false end.

(** A machine like [machine], on which [create_directories] returns false
    for a directory it has made before. *)
Definition is_mkdir_of (p : string) (e : Event) : bool :=
  match e with
  | EvMkdirs q true => (q =? p)%string
  | _ => false
  end.

Definition E_dirs : Env :=
  mkEnv (fun _ _ => true)
        (fun _ _ d => String.length d)
        (fun _ _ => None)
        (fun _ _ _ => true)
        (fun _ _ d => Z.of_nat (String.length d))
        (fun _ => 1%nat)
        (fun _ => 0%nat)
        (fun h p => existsb (is_mkdir_of p) h)
        (fun h p => Some (negb (existsb (is_mkdir_of p) h))).

(** A machine like [E_one] on which no directory can be made:
    [create_directories] throws. *)
Definition E_no_directories : Env :=
  mkEnv (fun _ _ => true)
        (fun _ _ d => String.length d)
        (fun _ _ => None)
        (fun _ _ _ => true)
        (fun _ _ d => Z.of_nat (String.length d))
        (fun _ => 1%nat)
        (fun _ => 0%nat)
        (fun _ _ => false)
        (fun _ _ => None).

(** Input sides: every file opens and is read to its end; the files in
    [missing] do not open. *)
Definition readable (missing : string -> bool) : InEnv :=
  mkInEnv (fun _ p => negb (missing p)) (fun _ _ _ => None) (fun _ _ => true).

Definition header_page : string := "/sys/kernel/debug/tracing/events/header_page".
Definition header_page_missing (p : string) : bool := (p =? header_page)%string.

(** A process on a machine whose [header_page] has some content. *)
Definition world_formats : World :=
  mkWorld [] [(0%Z, "/dev/stdin"); (1%Z, "/dev/stdout"); (2%Z, "/dev/stderr")]
          (upd (fun _ => "") header_page "field: u64 timestamp;") nothing_pending 0%Z.

(** The default tracer asked for the same event twice. *)
Definition tracer_twice : FTraceTracer :=
  set_temp_path "/tmp/trace"
    (FTraceTracer_new root0 "/sys/devices" "/out" 4096
       ["sched:sched_switch"; "sched:sched_wakeup"; "sched:sched_switch"] (-7)%Z).

(** A machine like [E_one] whose disk is full for the trace files: every
    write under [/tmp/trace/traces] fails. *)
Definition E_disk_full : Env :=
  mkEnv (fun _ _ => true)
        (fun _ _ d => String.length d)
        (fun _ _ => None)
        (fun _ _ _ => true)
        (fun _ q d => if String.prefix "/tmp/trace/traces" q then (-1)%Z
                      else Z.of_nat (String.length d))
        (fun _ => 1%nat)
        (fun _ => 0%nat)
        (fun _ _ => false)
        (fun _ _ => Some true).

(** Both pipes of a machine with two CPUs have records pending. *)
Definition both_have_data (p : string) : list ReadResult :=
  if (p =? cpu0_pipe)%string then [RBytes "sched"; RBytes "viz"]
  else if (p =? cpu1_pipe)%string then [RBytes "trace"]
  else [].

(** * Properties *)

Ltac monad_unfold :=
  unfold bind, gets, ret, modify, world, stuck in *.

(** ** Strings *)

Lemma append_nil_r (s : string) : s ++ "" = s.
Proof. induction s as [|c s IH]; simpl; [reflexivity | now rewrite IH]. Qed.

Lemma append_assoc (a b c : string) : (a ++ b) ++ c = a ++ (b ++ c).
Proof. induction a as [|x a IH]; simpl; [reflexivity | now rewrite IH]. Qed.

Lemma prefix_append (m s : string) : String.prefix m (m ++ s) = true.
Proof.
  induction m as [|c m IH]; simpl.
  - now destruct s.
  - destruct (ascii_dec c c) as [_|n]; [exact IH | now elim n].
Qed.

Lemma contains_of_prefix (m s : string) :
  String.prefix m s = true -> contains m s = true.
Proof. intros H. destruct s; simpl in *; rewrite H; reflexivity. Qed.

Lemma contains_append (pre m post : string) : contains m (pre ++ m ++ post) = true.
Proof.
  induction pre as [|c pre IH]; simpl.
  - apply contains_of_prefix, prefix_append.
  - rewrite IH. apply orb_true_r.
Qed.

Lemma contains_left (m post : string) : contains m (m ++ post) = true.
Proof. exact (contains_append "" m post). Qed.

Lemma contains_right (pre m : string) : contains m (pre ++ m) = true.
Proof.
  rewrite <- (append_nil_r m) at 2. apply contains_append.
Qed.

Lemma length_substring_le (s : string) : forall n m,
  (String.length (substring n m s) <= m)%nat.
Proof.
  induction s as [|c s IH]; intros n m.
  - destruct n, m; simpl; lia.
  - destruct n.
    + destruct m; simpl; [lia|]. specialize (IH 0%nat m). lia.
    + simpl. apply IH.
Qed.

(** ** StopTrace outside a trace *)

Lemma StopTrace_idle (E : Env) (final_copy : bool) (t : FTraceTracer) (w : World) :
  is_tracing_ t = false ->
  StopTrace E final_copy t w = Val (InternalError "Not currently in a trace") t w.
Proof.
  intros H. unfold StopTrace. monad_unfold. rewrite H. reflexivity.
Qed.

(** C8.  [StopTrace] called while [is_tracing_] is false returns the
    state-misuse error (the only error code of [Status] is [kInternal]; the
    message is "Not currently in a trace"), makes no call to the kernel (the
    log is the same) and leaves [is_tracing_], [fds_], [free_fd_] and all the
    rest of the session and of the system as they were. *)
Theorem StopTrace_not_tracing (E : Env) (final_copy : bool) (t : FTraceTracer) (w : World) :
  is_tracing_ t = false ->
  exists st t' w',
    StopTrace E final_copy t w = Val st t' w'
    /\ st = InternalError "Not currently in a trace" /\ ok st = false
    /\ log w' = log w /\ w' = w
    /\ is_tracing_ t' = is_tracing_ t /\ fds_ t' = fds_ t /\ free_fd_ t' = free_fd_ t
    /\ t' = t.
Proof.
  intros H. exists (InternalError "Not currently in a trace"), t, w.
  rewrite StopTrace_idle by exact H. repeat split.
Qed.

(** The destructor after the session has left the tracing state does
    nothing at all. *)
Lemma dtor_not_tracing (E : Env) (t : FTraceTracer) (w : World) :
  is_tracing_ t = false -> FTraceTracer_dtor E t w = Val tt t w.
Proof.
  intros H. unfold FTraceTracer_dtor. unfold bind at 1.
  rewrite StopTrace_idle by exact H. reflexivity.
Qed.

(** ** WriteString *)

(** The whole of what [WriteString] does, by the three answers of the
    environment. *)
Lemma WriteString_cases (E : Env) (path data : string) (t : FTraceTracer) (w : World) :
  exists st opened badb failb fs,
    WriteString E path data t w
    = Val st t (mkWorld (EvWriteString path data opened badb failb :: log w)
                        (fdtab w) fs (pipes w) (clock w))
    /\ ok st = negb badb
    /\ (badb = true -> st = InternalError ("Failed to write to" ++ path))
    /\ (badb = false -> st = OkStatus)
    /\ opened = env_ofs_open E (log w) path
    /\ (forall p, p <> path -> fs p = files w p).
Proof.
  unfold WriteString, ofstream_ctor.
  destruct (env_ofs_open E (log w) path) eqn:Ho.
  - unfold ofstream_insert, good; simpl.
    unfold ofstream_close; simpl.
    destruct (env_ofs_close E (log w) path); simpl;
      destruct (Nat.min _ _ <? String.length data)%nat eqn:Hk; simpl;
      unfold push; simpl;
      do 5 eexists; (split; [reflexivity|]); repeat split; try congruence;
      intros p Hp; unfold upd;
      destruct (p =? path)%string eqn:Hq;
      try (apply String.eqb_eq in Hq; contradiction); reflexivity.
  - unfold ofstream_insert, good; simpl. unfold ofstream_close; simpl.
    unfold push; simpl.
    do 5 eexists; (split; [reflexivity|]); repeat split; congruence.
Qed.

(** C6.  When the control file cannot be opened, the stream has [failbit]
    and not [badbit], and [WriteString], which tests [bad()], returns
    [OkStatus] although nothing was written: the file keeps its previous
    content. *)
Theorem WriteString_open_failure_is_ok (E : Env) (path data : string)
    (t : FTraceTracer) (w : World) :
  env_ofs_open E (log w) path = false ->
  WriteString E path data t w
  = Val OkStatus t (push (EvWriteString path data false false true) w)
  /\ files (push (EvWriteString path data false false true) w) = files w.
Proof.
  intros H. unfold WriteString, ofstream_ctor. rewrite H.
  unfold ofstream_insert, good, ofstream_close; simpl. split; reflexivity.
Qed.

(** [WriteString] reports a failure exactly when the file was opened and
    the stream buffer took fewer characters than the string has. *)
Lemma WriteString_fails_iff (E : Env) (path data : string) (t : FTraceTracer) (w : World) :
  forall st t' w', WriteString E path data t w = Val st t' w' ->
  (ok st = false <->
   env_ofs_open E (log w) path = true /\
   (env_ofs_sputn E (log w) path data < String.length data)%nat).
Proof.
  intros st t' w'. unfold WriteString, ofstream_ctor.
  destruct (env_ofs_open E (log w) path) eqn:Ho.
  - unfold ofstream_insert, good; simpl. unfold ofstream_close; simpl.
    assert (Hmin : (Nat.min (env_ofs_sputn E (log w) path data)
                            (String.length data) <? String.length data)%nat = true
                   <-> (env_ofs_sputn E (log w) path data < String.length data)%nat).
    { rewrite Nat.ltb_lt. lia. }
    destruct (env_ofs_close E (log w) path); simpl;
      destruct (Nat.min _ _ <? String.length data)%nat eqn:Hk; simpl;
      intros H; inversion H; subst; unfold ok, OkStatus; simpl;
      intuition congruence.
  - unfold ofstream_insert, good; simpl. unfold ofstream_close; simpl.
    intros H; inversion H; subst; unfold ok, OkStatus; simpl. intuition congruence.
Qed.

(** ** What a drain can do to the system *)


Lemma grows_refl (w : World) : grows w w.
Proof.
  repeat split; [exists []; split; reflexivity|].
  intros p; exists ""; now rewrite append_nil_r.
Qed.

Lemma grows_trans (a b c : World) : grows a b -> grows b c -> grows a c.
Proof.
  intros (F1 & C1 & (n1 & L1 & A1) & G1) (F2 & C2 & (n2 & L2 & A2) & G2).
  repeat split; try congruence.
  - exists (n2 ++ n1)%list. split.
    + rewrite L2, L1. now rewrite app_assoc.
    + rewrite forallb_app, A1, A2. reflexivity.
  - intros p. destruct (G1 p) as [x Hx], (G2 p) as [y Hy].
    exists (x ++ y). rewrite Hy, Hx. apply append_assoc.
Qed.

Lemma sys_read_grows (E : Env) (fd : Z) (n : nat) (t : FTraceTracer) (w : World) :
  exists r w', sys_read fd n t w = Val r t w'
    /\ log w' = EvRead fd n r :: log w
    /\ fdtab w' = fdtab w /\ clock w' = clock w /\ files w' = files w.
Proof.
  unfold sys_read. destruct (fd_lookup (fdtab w) fd) as [p|].
  - destruct (pipe_read n (pipes w p)) as [r rest].
    do 2 eexists; repeat split.
  - do 2 eexists; repeat split.
Qed.

Lemma sys_write_grows (E : Env) (fd : Z) (d : string) (t : FTraceTracer) (w : World) :
  exists r w', sys_write E fd d t w = Val r t w'
    /\ log w' = EvWrite fd d r :: log w
    /\ fdtab w' = fdtab w /\ clock w' = clock w /\ pipes w' = pipes w
    /\ (forall p, exists extra, files w' p = files w p ++ extra).
Proof.
  unfold sys_write. destruct (fd_lookup (fdtab w) fd) as [p|].
  - destruct (_ && _).
    + do 2 eexists; repeat split. simpl. intros q. unfold upd.
      destruct (q =? p)%string eqn:Hq.
      * apply String.eqb_eq in Hq; subst. eexists; reflexivity.
      * exists ""; now rewrite append_nil_r.
    + do 2 eexists; repeat split. intros q; exists ""; now rewrite append_nil_r.
  - do 2 eexists; repeat split. intros q; exists ""; now rewrite append_nil_r.
Qed.


Lemma drain_val (E : Env) (in_fd out_fd : Z) (size : nat) :
  forall fuel t w st t' w',
    drain E fuel in_fd out_fd size t w = Val st t' w' ->
    t' = t /\ grows w w' /\ (ok st = false -> read_failure in_fd st w').
Proof.
  induction fuel as [|fuel IH]; intros t w st t' w' H; simpl in H.
  - discriminate.
  - unfold bind at 1 in H.
    destruct (sys_read_grows E in_fd size t w) as (r & w1 & Hr & L1 & F1 & C1 & Fi1).
    rewrite Hr in H.
    assert (G1 : grows w w1).
    { repeat split; try assumption.
      - exists [EvRead in_fd size r]. split; [now rewrite L1|reflexivity].
      - intros p; exists ""; now rewrite Fi1, append_nil_r. }
    destruct r as [d|e]; simpl in H.
    + destruct (Z.of_nat (String.length d) =? -1)%Z eqn:Hm;
        [apply Z.eqb_eq in Hm; lia|]. simpl in H.
      destruct (Z.of_nat (String.length d) =? 0)%Z.
      * inversion H; subst. split; [reflexivity | split; [exact G1 | discriminate]].
      * unfold bind at 1 in H.
        destruct (sys_write_grows E out_fd d t w1) as (n & w2 & Hw & L2 & F2 & C2 & _ & Fi2).
        rewrite Hw in H. apply IH in H. destruct H as (-> & G & Hf).
        split; [reflexivity | split; [| exact Hf]].
        eapply grows_trans; [exact G1|]. eapply grows_trans; [|exact G].
        unfold grows. repeat split; try assumption.
        exists [EvWrite out_fd d n]. split; [now rewrite L2|reflexivity].
    + destruct (e =? EAGAIN)%Z eqn:He; simpl in H; inversion H; subst.
      * split; [reflexivity | split; [exact G1 | discriminate]].
      * split; [reflexivity | split; [exact G1 |]].
        intros _. exists size, e, (log w).
        repeat split; [exact L1|]. intros ->. now rewrite Z.eqb_refl in He.
Qed.

(** *** The loops of the model end on their own *)

Lemma pipe_read_weight (n : nat) (s : list ReadResult) (d : string) (rest : list ReadResult) :
  pipe_read n s = (RBytes d, rest) -> String.length d <> 0%nat ->
  (weight rest < weight s)%nat.
Proof.
  destruct s as [|[d0|e] r0]; simpl; intros H Hd.
  - discriminate.
  - destruct (String.length d0 <=? n)%nat eqn:Hle.
    + inversion H; subst. lia.
    + inversion H; subst. simpl.
      pose proof (length_substring_le d0 0 n).
      pose proof (length_substring_le d0 n (String.length d0 - n)).
      apply Nat.leb_gt in Hle. lia.
  - discriminate.
Qed.

Lemma drain_total (E : Env) (in_fd out_fd : Z) (size : nat) :
  forall fuel t w,
    (pending_weight w in_fd < fuel)%nat ->
    exists st w', drain E fuel in_fd out_fd size t w = Val st t w'.
Proof.
  induction fuel as [|fuel IH]; intros t w Hlt; [lia|].
  simpl. unfold bind at 1. unfold sys_read, pending_weight in *.
  destruct (fd_lookup (fdtab w) in_fd) as [p|] eqn:Hp.
  - destruct (pipe_read size (pipes w p)) as [r rest] eqn:Hr.
    destruct r as [d|e]; simpl.
    + destruct (Z.of_nat (String.length d) =? -1)%Z eqn:Hm;
        [apply Z.eqb_eq in Hm; lia|]. simpl.
      destruct (Z.of_nat (String.length d) =? 0)%Z eqn:Hz.
      * do 2 eexists; reflexivity.
      * unfold bind at 1.
        match goal with |- context [sys_write E out_fd d t ?w1] =>
          destruct (sys_write_grows E out_fd d t w1) as (n & w2 & Hw & _ & F2 & _ & P2 & _);
          rewrite Hw
        end.
        apply IH. rewrite F2, P2. simpl. rewrite Hp. unfold upd. rewrite String.eqb_refl.
        apply pipe_read_weight in Hr; [lia|].
        apply Z.eqb_neq in Hz. lia.
    + destruct (e =? EAGAIN)%Z; simpl; do 2 eexists; reflexivity.
  - simpl. do 2 eexists; reflexivity.
Qed.

(** ** CopyCPUBuffer *)

Lemma CopyCPUBuffer_val (E : Env) (in_fd out_fd : Z) (t : FTraceTracer) (w : World)
    (st : Status) (t' : FTraceTracer) (w' : World) :
  CopyCPUBuffer E in_fd out_fd t w = Val st t' w' ->
  t' = t /\ grows w w' /\
  (is_tracing_ t = true -> ok st = false -> read_failure in_fd st w').
Proof.
  unfold CopyCPUBuffer. monad_unfold.
  destruct (is_tracing_ t) eqn:Ht; cbn [negb].
  - destruct (buffer_size_ t <=? 0)%Z; [discriminate|].
    intros H. apply drain_val in H. destruct H as (-> & G & Hf).
    split; [reflexivity | split; [exact G | intros _; exact Hf]].
  - intros H; inversion H; subst.
    split; [reflexivity | split; [apply grows_refl | discriminate]].
Qed.

Lemma CopyCPUBuffer_total (E : Env) (in_fd out_fd : Z) (t : FTraceTracer) (w : World) :
  is_tracing_ t = true -> (0 < buffer_size_ t)%Z ->
  exists st w', CopyCPUBuffer E in_fd out_fd t w = Val st t w'.
Proof.
  intros Ht Hb. unfold CopyCPUBuffer. monad_unfold. rewrite Ht. cbn [negb].
  destruct (buffer_size_ t <=? 0)%Z eqn:Hle; [apply Z.leb_le in Hle; lia|].
  apply drain_total. lia.
Qed.

(** ** CopyCPUBuffers *)


Lemma copy_loop_val (E : Env) :
  forall n i t w st t' w',
    copy_loop E n i t w = Val st t' w' ->
    t' = t /\ grows w w' /\
    (is_tracing_ t = true -> ok st = false -> pass_failure t i (i + n) st w').
Proof.
  induction n as [|n IH]; intros i t w st t' w' H; simpl in H.
  - inversion H; subst.
    split; [reflexivity | split; [apply grows_refl | discriminate]].
  - monad_unfold.
    destruct (nth_error (fds_ t) i) as [[a b]|] eqn:Hn; [|discriminate].
    simpl in H.
    destruct (CopyCPUBuffer E a b t w) as [s1 t1 w1|] eqn:Hc; [|discriminate].
    apply CopyCPUBuffer_val in Hc. destruct Hc as (-> & G1 & F1).
    destruct (ok s1) eqn:Hok; simpl in H.
    + apply IH in H. destruct H as (-> & G & F).
      split; [reflexivity | split; [eapply grows_trans; eassumption|]].
      intros Ht Hs. destruct (F Ht Hs) as (j & x & y & Hj & Hnth & Hr).
      exists j, x, y. split; [lia | split; assumption].
    + inversion H; subst.
      split; [reflexivity | split; [exact G1|]].
      intros Ht Hs. exists i, a, b. split; [lia | split; [exact Hn | auto]].
Qed.

Lemma copy_loop_total (E : Env) :
  forall n i t w,
    is_tracing_ t = true -> (0 < buffer_size_ t)%Z ->
    (i + n <= List.length (fds_ t))%nat ->
    exists st w', copy_loop E n i t w = Val st t w'.
Proof.
  induction n as [|n IH]; intros i t w Ht Hb Hlen; simpl.
  - do 2 eexists; reflexivity.
  - monad_unfold.
    destruct (nth_error (fds_ t) i) as [[a b]|] eqn:Hn.
    + simpl.
      destruct (CopyCPUBuffer_total E a b t w Ht Hb) as (s1 & w1 & Hc). rewrite Hc.
      destruct (ok s1); simpl.
      * apply IH; try assumption. lia.
      * do 2 eexists; reflexivity.
    + apply nth_error_None in Hn. lia.
Qed.

(** The loop over [m + n] CPUs is the loop over the first [m], followed,
    when none of them failed, by the loop over the other [n]. *)
Lemma copy_loop_split (E : Env) :
  forall m n i t w,
    copy_loop E (m + n) i t w
    = match copy_loop E m i t w with
      | Val st t' w' => if ok st then copy_loop E n (i + m) t' w' else Val st t' w'
      | Stuck f => Stuck f
      end.
Proof.
  induction m as [|m IH]; intros n i t w; simpl.
  - unfold ret. simpl. now rewrite Nat.add_0_r.
  - monad_unfold.
    destruct (nth_error (fds_ t) i) as [cpu_fds|]; [|reflexivity].
    destruct (CopyCPUBuffer E (fst cpu_fds) (snd cpu_fds) t w) as [s1 t1 w1|]; [|reflexivity].
    destruct (ok s1) eqn:Hok; simpl.
    + rewrite IH. now replace (i + S m)%nat with (S i + m)%nat by lia.
    + now rewrite Hok.
Qed.

Lemma CopyCPUBuffers_eq (E : Env) (t : FTraceTracer) (w : World) :
  is_tracing_ t = true ->
  CopyCPUBuffers E t w
  = copy_loop E (env_nprocs E (log w)) 0 t (push (EvNprocs (env_nprocs E (log w))) w).
Proof.
  intros Ht. unfold CopyCPUBuffers, get_nprocs. monad_unfold. now rewrite Ht.
Qed.

Lemma grows_push (e : Event) (w : World) : drain_event e = true -> grows w (push e w).
Proof.
  intros He. unfold grows, push; simpl. repeat split.
  - exists [e]. split; [reflexivity | simpl; now rewrite He].
  - intros p; exists ""; now rewrite append_nil_r.
Qed.

Lemma CopyCPUBuffers_val (E : Env) (t : FTraceTracer) (w : World)
    (st : Status) (t' : FTraceTracer) (w' : World) :
  CopyCPUBuffers E t w = Val st t' w' ->
  t' = t /\ grows w w' /\
  (is_tracing_ t = true -> ok st = false ->
   pass_failure t 0 (env_nprocs E (log w)) st w').
Proof.
  destruct (is_tracing_ t) eqn:Ht.
  - rewrite CopyCPUBuffers_eq by exact Ht. intros H.
    apply copy_loop_val in H. destruct H as (-> & G & F).
    split; [reflexivity | split].
    + eapply grows_trans; [| exact G]. now apply grows_push.
    + intros _ Hs. apply F; [exact Ht | exact Hs].
  - unfold CopyCPUBuffers. monad_unfold. rewrite Ht. simpl.
    intros H; inversion H; subst.
    split; [reflexivity | split; [apply grows_refl | discriminate]].
Qed.

(** ** A drain that finds no data *)





(** ** ClearCPUFDs and StopTrace *)

Lemma close_all_spec (l : list (Z * Z)) : forall t w,
  close_all l t w
  = Val tt t (mkWorld (rev (map EvClose (stream_fds l)) ++ log w)%list
                      (fold_left fd_remove (stream_fds l) (fdtab w))
                      (files w) (pipes w) (clock w)).
Proof.
  induction l as [|[a b] l IH]; intros t w.
  - destruct w; reflexivity.
  - cbn [close_all]. unfold bind at 1. unfold sys_close at 1.
    unfold bind at 1. unfold sys_close at 1. rewrite IH. simpl.
    f_equal. f_equal. rewrite <- !app_assoc. reflexivity.
Qed.

Lemma ClearCPUFDs_spec (t : FTraceTracer) (w : World) :
  ClearCPUFDs t w
  = Val tt (set_fds [] t)
        (mkWorld (rev (map EvClose (stream_fds (fds_ t))) ++ log w)%list
                 (fold_left fd_remove (stream_fds (fds_ t)) (fdtab w))
                 (files w) (pipes w) (clock w)).
Proof.
  unfold ClearCPUFDs. monad_unfold. now rewrite close_all_spec.
Qed.

Lemma In_close_rev_map (fd : Z) (l : list Z) :
  In (EvClose fd) (rev (map EvClose l)) -> In fd l.
Proof.
  rewrite <- in_rev, in_map_iff. intros (x & Hx & Hin). now inversion Hx; subst.
Qed.

Lemma drain_events_no_close (fd : Z) (new : list Event) :
  forallb drain_event new = true -> ~ In (EvClose fd) new.
Proof.
  intros Hall Hin. rewrite forallb_forall in Hall. apply Hall in Hin. discriminate.
Qed.

(** Every way through [StopTrace] that starts in a trace. *)
Lemma StopTrace_tracing (E : Env) (final_copy : bool) (t : FTraceTracer) (w : World)
    (st : Status) (t' : FTraceTracer) (w' : World) :
  is_tracing_ t = true ->
  StopTrace E final_copy t w = Val st t' w' ->
  is_tracing_ t' = false /\ free_fd_ t' = free_fd_ t /\
  (exists mid, log w' = (EvClose (free_fd_ t) :: mid ++ log w)%list /\
               forall fd, In (EvClose fd) mid -> In fd (stream_fds (fds_ t))) /\
  (forall p, p <> kernel_trace_root_ t // "tracing_on" ->
             exists extra, files w' p = files w p ++ extra).
Proof.
  intros Ht. unfold StopTrace. monad_unfold. rewrite Ht. cbn [negb].
  destruct (WriteString_cases E (kernel_trace_root_ t // "tracing_on") "0" t w)
    as (s1 & o & b1 & f1 & fs & Hw & Hok & _ & _ & _ & Hfs).
  rewrite Hw. rewrite Hok.
  set (ws := EvWriteString (kernel_trace_root_ t // "tracing_on") "0" o b1 f1).
  assert (Hkeep : forall p, p <> kernel_trace_root_ t // "tracing_on" ->
                            exists extra, fs p = files w p ++ extra).
  { intros p Hp. exists "". rewrite append_nil_r. auto. }
  destruct b1; cbn [negb].
  - unfold sys_close. intros H; inversion H; subst; simpl.
    repeat split; try assumption.
    exists [ws]. split; [reflexivity|].
    intros fd [Hx | []]. discriminate.
  - destruct final_copy.
    + match goal with |- context [CopyCPUBuffers E t ?w1] =>
        destruct (CopyCPUBuffers E t w1) as [s2 t2 w2|] eqn:Hc; [|discriminate]
      end.
      apply CopyCPUBuffers_val in Hc.
      destruct Hc as (-> & (Fd & Cl & (new & Lg & Hall) & Fi) & _).
      simpl in Lg, Fi.
      assert (Hkeep2 : forall p, p <> kernel_trace_root_ t // "tracing_on" ->
                                 exists extra, files w2 p = files w p ++ extra).
      { intros p Hp. destruct (Fi p) as [x Hx]. exists x. rewrite Hx. now rewrite Hfs. }
      destruct (ok s2); cbn [negb].
      * rewrite ClearCPUFDs_spec. unfold sys_close.
        intros H; inversion H; subst; simpl.
        repeat split; try assumption.
        exists (rev (map EvClose (stream_fds (fds_ t))) ++ new ++ [ws])%list. split.
        -- rewrite Lg. rewrite <- !app_assoc. reflexivity.
        -- intros fd Hin. apply in_app_or in Hin. destruct Hin as [Hin | Hin].
           ++ now apply In_close_rev_map.
           ++ apply in_app_or in Hin. destruct Hin as [Hin | [Hx | []]].
              ** now apply drain_events_no_close in Hin.
              ** discriminate.
      * unfold sys_close. intros H; inversion H; subst; simpl.
        repeat split; try assumption.
        exists (new ++ [ws])%list. split.
        -- rewrite Lg. rewrite <- !app_assoc. reflexivity.
        -- intros fd Hin. apply in_app_or in Hin. destruct Hin as [Hin | [Hx | []]].
           ++ now apply drain_events_no_close in Hin.
           ++ discriminate.
    + rewrite ClearCPUFDs_spec. unfold sys_close.
      intros H; inversion H; subst; simpl.
      repeat split; try assumption.
      exists (rev (map EvClose (stream_fds (fds_ t))) ++ [ws])%list. split.
      * rewrite <- !app_assoc. reflexivity.
      * intros fd Hin. apply in_app_or in Hin. destruct Hin as [Hin | [Hx | []]].
        -- now apply In_close_rev_map.
        -- discriminate.
Qed.

Lemma CopyCPUBuffers_total (E : Env) (t : FTraceTracer) (w : World) :
  is_tracing_ t = true -> (0 < buffer_size_ t)%Z ->
  (env_nprocs E (log w) <= List.length (fds_ t))%nat ->
  exists st w', CopyCPUBuffers E t w = Val st t w'.
Proof.
  intros Ht Hb Hlen. rewrite CopyCPUBuffers_eq by exact Ht.
  apply copy_loop_total; assumption.
Qed.

Lemma StopTrace_total (E : Env) (final_copy : bool) (t : FTraceTracer) (w : World) :
  is_tracing_ t = true ->
  (final_copy = true ->
   (0 < buffer_size_ t)%Z /\
   forall h, (env_nprocs E h <= List.length (fds_ t))%nat) ->
  exists st t' w', StopTrace E final_copy t w = Val st t' w'.
Proof.
  intros Ht Hfc. unfold StopTrace. monad_unfold. rewrite Ht. cbn [negb].
  destruct (WriteString_cases E (kernel_trace_root_ t // "tracing_on") "0" t w)
    as (s1 & o & b1 & f1 & fs & Hw & Hok & _).
  rewrite Hw. rewrite Hok.
  destruct b1; cbn [negb].
  - unfold sys_close. do 3 eexists; reflexivity.
  - destruct final_copy.
    + destruct (Hfc eq_refl) as [Hb Hn].
      match goal with |- context [CopyCPUBuffers E t ?w1] =>
        destruct (CopyCPUBuffers_total E t w1 Ht Hb (Hn _)) as (s2 & w2 & Hc)
      end.
      rewrite Hc. destruct (ok s2); cbn [negb].
      * rewrite ClearCPUFDs_spec. unfold sys_close. do 3 eexists; reflexivity.
      * unfold sys_close. do 3 eexists; reflexivity.
    + rewrite ClearCPUFDs_spec. unfold sys_close. do 3 eexists; reflexivity.
Qed.

Lemma close_count_app (fd : Z) (a b : list Event) :
  close_count fd (a ++ b) = (close_count fd a + close_count fd b)%nat.
Proof. unfold close_count. now rewrite filter_app, length_app. Qed.

Lemma close_count_none (fd : Z) (l : list Event) :
  ~ In (EvClose fd) l -> close_count fd l = 0%nat.
Proof.
  unfold close_count. induction l as [|e l IH]; intros Hn; simpl; [reflexivity|].
  destruct (is_close_of fd e) eqn:He.
  - exfalso. apply Hn. left. destruct e; try discriminate.
    simpl in He. apply Z.eqb_eq in He. now subst.
  - apply IH. intros Hin. apply Hn. now right.
Qed.

(** Every way through [StopTrace] that starts in a trace and returns
    releases the guard once: with the guard descriptor distinct from the
    stream descriptors, [StopTrace] returns, on whichever of its paths,
    with [is_tracing_] false and exactly one [close(free_fd_)] among the
    calls it made; any later [StopTrace], and the destructor, then return
    without any call at all. *)
Theorem StopTrace_releases_guard_once (E : Env) (final_copy : bool)
    (t : FTraceTracer) (w : World) (st : Status) (t' : FTraceTracer) (w' : World) :
  is_tracing_ t = true ->
  ~ In (free_fd_ t) (stream_fds (fds_ t)) ->
  StopTrace E final_copy t w = Val st t' w' ->
  exists new,
    is_tracing_ t' = false
    /\ log w' = (new ++ log w)%list
    /\ close_count (free_fd_ t) new = 1%nat
    /\ (forall b, StopTrace E b t' w'
                  = Val (InternalError "Not currently in a trace") t' w')
    /\ FTraceTracer_dtor E t' w' = Val tt t' w'.
Proof.
  intros Ht Hdist Hs.
  destruct (StopTrace_tracing E final_copy t w st t' w' Ht Hs)
    as (Ht' & _ & (mid & Lg & Hmid) & _).
  exists (EvClose (free_fd_ t) :: mid)%list.
  split; [exact Ht' | split; [exact Lg | split; [|split]]].
  - change (EvClose (free_fd_ t) :: mid)%list with ([EvClose (free_fd_ t)] ++ mid)%list.
    rewrite close_count_app.
    rewrite (close_count_none _ mid) by (intros Hin; apply Hdist, Hmid, Hin).
    unfold close_count. simpl. now rewrite Z.eqb_refl.
  - intros b. now apply StopTrace_idle.
  - now apply dtor_not_tracing.
Qed.

(** ** The capture loop and the merged failure *)

(** The capture loop returns a failure only as the result of a drain pass
    that failed, and in the state in which that pass ended. *)
Lemma capture_loop_failure_is_a_pass (E : Env) (deadline : Z) :
  forall fuel t w f t' w',
    capture_loop E fuel deadline t w = Val f t' w' -> ok f = false ->
    t' = t /\ exists w0, CopyCPUBuffers E t w0 = Val f t w'.
Proof.
  induction fuel as [|fuel IH]; intros t w f t' w' H Hf; cbn [capture_loop] in H.
  - discriminate.
  - unfold bind at 1 in H. unfold Now at 1 in H.
    destruct (clock w + Z.of_nat (env_elapsed E (log w)) <=? deadline)%Z.
    + unfold bind at 1 in H.
      match type of H with context [CopyCPUBuffers E t ?wn] =>
        destruct (CopyCPUBuffers E t wn) as [s1 t1 w1|] eqn:Hc; [|discriminate]
      end.
      pose proof (CopyCPUBuffers_val E _ _ _ _ _ Hc) as (-> & _ & _).
      destruct (ok s1) eqn:Hok; cbn [negb] in H.
      * unfold bind at 1 in H. unfold SleepFor at 1 in H. now apply IH in H.
      * inversion H; subst. split; [reflexivity|]. eexists. exact Hc.
    + inversion H; subst. discriminate.
Qed.

(** C2.  When the capture loop ended on a failed drain pass (its result
    [failedCopyStatus] is not ok) and the [StopTrace(true)] that follows
    returns a failure too, [CollectTrace] returns an error whose message is
    the message of the drain failure, two newlines, and the message of the
    stop failure: both occur in it. *)
Theorem CollectTrace_reports_both_failures (E : Env) (capture_seconds : Z)
    (t : FTraceTracer) (w : World) (start_time : Z)
    (t1 : FTraceTracer) (w1 : World) (failedCopyStatus : Status)
    (t2 : FTraceTracer) (w2 : World) (status : Status)
    (t3 : FTraceTracer) (w3 : World) :
  CollectTrace_start E t w = Val (inr start_time) t1 w1 ->
  capture_loop E (capture_fuel capture_seconds)
               (start_time + 1000 * capture_seconds) t1 w1
  = Val failedCopyStatus t2 w2 ->
  ok failedCopyStatus = false ->
  StopTrace E true t2 w2 = Val status t3 w3 ->
  ok status = false ->
  exists result,
    CollectTrace E capture_seconds t w = Val result t3 w3
    /\ ok result = false
    /\ message result
       = message failedCopyStatus ++ String "010" (String "010" "") ++ message status
    /\ contains (message failedCopyStatus) (message result) = true
    /\ contains (message status) (message result) = true.
Proof.
  intros Hstart Hloop Hf Hstop _.
  unfold CollectTrace. unfold bind at 1. rewrite Hstart.
  unfold bind at 1. rewrite Hloop. unfold bind at 1. rewrite Hstop.
  rewrite Hf. cbn [negb]. unfold ret.
  eexists. split; [reflexivity|]. cbn [ok code message InternalError].
  split; [reflexivity | split; [reflexivity | split]].
  - apply contains_left.
  - rewrite <- append_assoc. apply contains_right.
Qed.

(** ** Fail-fast draining *)

(** C5.  In a drain pass in which the streams of the CPUs before [i]
    drained without error and the drain of CPU [i] fails in state [w2]:
    the pass returns that failure in state [w2] itself, so nothing is done
    for any later CPU; the capture loop, at whichever turn this happens,
    returns the failure in state [w2] as well, so there is no further pass
    nor sleep; every file has in [w2] what it had when the pass began,
    and still has it after the [StopTrace(true)] that follows (for every
    file but the control file [tracing_on], which [StopTrace] rewrites). *)
Theorem drain_failure_is_fail_fast (E : Env) (t : FTraceTracer) (w : World)
    (i : nat) (in_fd out_fd : Z) (w1 : World) (st : Status) (w2 : World) :
  is_tracing_ t = true ->
  (i < env_nprocs E (log w))%nat ->
  copy_loop E i 0 t (push (EvNprocs (env_nprocs E (log w))) w) = Val OkStatus t w1 ->
  nth_error (fds_ t) i = Some (in_fd, out_fd) ->
  CopyCPUBuffer E in_fd out_fd t w1 = Val st t w2 ->
  ok st = false ->
  CopyCPUBuffers E t w = Val st t w2
  /\ (forall fuel deadline w0 now,
         Now E t w0 = Val now t w -> (now <= deadline)%Z ->
         capture_loop E (S fuel) deadline t w0 = Val st t w2)
  /\ (forall p, exists extra, files w2 p = files w p ++ extra)
  /\ (forall s t3 w3,
         StopTrace E true t w2 = Val s t3 w3 ->
         forall p, p <> kernel_trace_root_ t // "tracing_on" ->
                   exists extra, files w3 p = files w p ++ extra).
Proof.
  intros Ht Hi Hpre Hn Hc Hs.
  assert (Hpass : CopyCPUBuffers E t w = Val st t w2).
  { rewrite CopyCPUBuffers_eq by exact Ht.
    replace (env_nprocs E (log w)) with (i + S (env_nprocs E (log w) - S i))%nat at 1 by lia.
    rewrite copy_loop_split, Hpre. cbn [ok code OkStatus Nat.add].
    cbn [copy_loop]. monad_unfold. rewrite Hn. cbn [fst snd]. rewrite Hc, Hs.
    reflexivity. }
  assert (Hfiles : forall p, exists extra, files w2 p = files w p ++ extra).
  { apply copy_loop_val in Hpre. destruct Hpre as (_ & (_ & _ & _ & F1) & _).
    apply CopyCPUBuffer_val in Hc. destruct Hc as (_ & (_ & _ & _ & F2) & _).
    intros p. destruct (F1 p) as [x Hx], (F2 p) as [y Hy].
    exists (x ++ y). rewrite Hy, Hx. simpl. apply append_assoc. }
  split; [exact Hpass | split; [|split; [exact Hfiles|]]].
  - intros fuel deadline w0 now Hnow Hle.
    cbn [capture_loop]. unfold bind at 1. rewrite Hnow.
    apply Z.leb_le in Hle. rewrite Hle.
    unfold bind at 1. rewrite Hpass, Hs. reflexivity.
  - intros s t3 w3 Hstop p Hp.
    destruct (StopTrace_tracing E true t w2 s t3 w3 Ht Hstop) as (_ & _ & _ & F3).
    destruct (F3 p Hp) as [x Hx], (Hfiles p) as [y Hy].
    exists (y ++ x). rewrite Hx, Hy. apply append_assoc.
Qed.

(** ** The bounds of the model's loops are never reached *)

Lemma CopyCPUBuffer_stuck (E : Env) (in_fd out_fd : Z) (t : FTraceTracer) (w : World)
    (f : Fault) :
  CopyCPUBuffer E in_fd out_fd t w = Stuck f ->
  f = ScratchAlloc (buffer_size_ t) /\ (buffer_size_ t <= 0)%Z.
Proof.
  unfold CopyCPUBuffer. monad_unfold.
  destruct (is_tracing_ t) eqn:Ht; cbn [negb]; [|discriminate].
  destruct (buffer_size_ t <=? 0)%Z eqn:Hle.
  - intros H; inversion H. split; [reflexivity | now apply Z.leb_le].
  - intros H.
    destruct (drain_total E in_fd out_fd (Z.to_nat (buffer_size_ t))
                (S (pending_weight w in_fd)) t w) as (st & w' & Hd); [lia|].
    rewrite Hd in H. discriminate.
Qed.

Lemma copy_loop_stuck (E : Env) :
  forall n i t w f,
    copy_loop E n i t w = Stuck f ->
    (f = ScratchAlloc (buffer_size_ t) /\ (buffer_size_ t <= 0)%Z) \/
    (f = VecIndex (List.length (fds_ t)) (List.length (fds_ t)) /\
     (i <= List.length (fds_ t) -> List.length (fds_ t) < i + n)%nat) \/
    (exists j, f = VecIndex j (List.length (fds_ t)) /\ (List.length (fds_ t) < i)%nat).
Proof.
  induction n as [|n IH]; intros i t w f H; simpl in H.
  - discriminate.
  - monad_unfold.
    destruct (nth_error (fds_ t) i) as [[a b]|] eqn:Hn.
    + simpl in H.
      destruct (CopyCPUBuffer E a b t w) as [s1 t1 w1|f1] eqn:Hc.
      * apply CopyCPUBuffer_val in Hc. destruct Hc as (-> & _ & _).
        destruct (ok s1); simpl in H; [|discriminate].
        apply IH in H. destruct H as [H | [[-> H] | (j & -> & H)]].
        -- now left.
        -- right; left. split; [reflexivity|]. intros Hi.
           assert (i < List.length (fds_ t))%nat
             by (apply nth_error_Some; congruence). lia.
        -- assert (i < List.length (fds_ t))%nat
             by (apply nth_error_Some; congruence). lia.
      * inversion H; subst. left. eapply CopyCPUBuffer_stuck; eassumption.
    + inversion H; subst. apply nth_error_None in Hn.
      destruct (Nat.eq_dec i (List.length (fds_ t))) as [-> | Hne].
      * right; left. split; [reflexivity | lia].
      * right; right. exists i. split; [reflexivity | lia].
Qed.

Lemma CopyCPUBuffers_not_fuel (E : Env) (t : FTraceTracer) (w : World) :
  CopyCPUBuffers E t w <> Stuck Fuel.
Proof.
  destruct (is_tracing_ t) eqn:Ht.
  - rewrite CopyCPUBuffers_eq by exact Ht. intros H.
    apply copy_loop_stuck in H.
    destruct H as [[H _] | [[H _] | (j & H & _)]]; discriminate.
  - unfold CopyCPUBuffers. monad_unfold. rewrite Ht. discriminate.
Qed.

Lemma capture_loop_not_fuel (E : Env) (deadline : Z) :
  forall f t w,
    (deadline - clock w < 100 * Z.of_nat f)%Z ->
    capture_loop E (S f) deadline t w <> Stuck Fuel.
Proof.
  induction f as [|f IH]; intros t w Hlt; cbn [capture_loop]; unfold bind at 1;
    unfold Now at 1;
    destruct (clock w + Z.of_nat (env_elapsed E (log w)) <=? deadline)%Z eqn:Hle;
    try discriminate.
  - apply Z.leb_le in Hle. lia.
  - apply Z.leb_le in Hle. unfold bind at 1.
    match goal with |- context [CopyCPUBuffers E t ?wn] =>
      destruct (CopyCPUBuffers E t wn) as [s1 t1 w1|f1] eqn:Hc
    end.
    + apply CopyCPUBuffers_val in Hc. destruct Hc as (-> & (_ & Hclk & _) & _).
      simpl in Hclk.
      destruct (ok s1); cbn [negb]; [|discriminate].
      unfold bind at 1. unfold SleepFor at 1. apply IH. cbn [clock]. unfold interval. lia.
    + intros H; inversion H; subst. now apply CopyCPUBuffers_not_fuel in Hc.
Qed.

Lemma sys_open_val (E : Env) (path : string) (flags : list OFlag)
    (t : FTraceTracer) (w : World) :
  exists fd w', sys_open E path flags t w = Val fd t w'
    /\ clock w' = clock w
    /\ log w' = EvOpen path flags fd :: log w
    /\ (fd = (-1)%Z /\ fdtab w' = fdtab w /\ files w' = files w
        \/ fd = lowest_free (fdtab w) /\ fdtab w' = (fd, path) :: fdtab w).
Proof.
  unfold sys_open. destruct (env_open E (log w) path flags).
  - do 2 eexists. split; [reflexivity|]. repeat split. right. split; reflexivity.
  - do 2 eexists. split; [reflexivity|]. repeat split. left. repeat split.
Qed.

Lemma open_streams_total (E : Env) (out : string) :
  forall n i t w,
    exists r t' w', open_streams E n i out t w = Val r t' w'
      /\ clock w' = clock w /\ is_tracing_ t' = is_tracing_ t
      /\ kernel_trace_root_ t' = kernel_trace_root_ t.
Proof.
  induction n as [|n IH]; intros i t w; cbn [open_streams].
  - do 3 eexists. split; [reflexivity|]. repeat split.
  - unfold bind at 1. unfold gets at 1. cbv zeta. unfold bind at 1.
    match goal with |- context [sys_open E ?p ?fl t w] =>
      destruct (sys_open_val E p fl t w) as (fd1 & w1 & H1 & C1 & _)
    end.
    rewrite H1.
    destruct (fd1 =? -1)%Z.
    + do 3 eexists. split; [reflexivity|]. repeat split. exact C1.
    + unfold bind at 1.
      match goal with |- context [sys_open E ?p ?fl t w1] =>
        destruct (sys_open_val E p fl t w1) as (fd2 & w2 & H2 & C2 & _)
      end.
      rewrite H2.
      destruct (fd2 =? -1)%Z.
      * do 3 eexists. split; [reflexivity|]. repeat split. congruence.
      * unfold bind at 1. unfold modify at 1.
        match goal with |- context [open_streams E n (S i) out ?t2 w2] =>
          destruct (IH (S i) t2 w2) as (r & t' & w' & H & C & T & K)
        end.
        exists r, t', w'. split; [exact H|]. repeat split; try assumption. congruence.
Qed.

(** [CollectTrace] up to the first sleep returns, or
    [create_directories] throws for the directory of the trace files. *)
Lemma CollectTrace_start_returns_or_throws (E : Env) (t : FTraceTracer) (w : World) :
  match CollectTrace_start E t w with
  | Val r t1 w1 =>
      forall start_time, r = inr start_time ->
        clock w1 = (start_time + 100)%Z /\ is_tracing_ t1 = true
  | Stuck f => f = FilesystemError (temp_path_ t // "traces")
  end.
Proof.
  unfold CollectTrace_start. unfold bind at 1. unfold gets at 1.
  destruct (is_tracing_ t) eqn:Ht.
  { unfold ret. intros s Hs; discriminate. }
  unfold bind at 1. unfold gets at 1. cbv zeta.
  unfold bind at 1. unfold fs_exists at 1.
  unfold bind at 1.
  match goal with |- context [(if ?b then ret true else ?m) t ?w1] =>
    assert (Hmk : (exists made w2, (if b then ret true else m) t w1 = Val made t w2)
                  \/ (if b then ret true else m) t w1
                     = Stuck (FilesystemError (temp_path_ t // "traces")))
  end.
  { destruct (env_exists E (log w) (temp_path_ t // "traces")).
    - left. do 2 eexists; reflexivity.
    - unfold create_directories.
      match goal with |- context [env_mkdirs E ?h ?p] =>
        destruct (env_mkdirs E h p)
      end.
      + left. do 2 eexists; reflexivity.
      + right. reflexivity. }
  destruct Hmk as [(made & w2 & Hmk) | Hmk]; rewrite Hmk; [|reflexivity].
  destruct made; cbn [negb].
  2:{ unfold ret. intros s Hs; discriminate. }
  unfold bind at 1. unfold get_nprocs at 1.
  unfold bind at 1. rewrite ClearCPUFDs_spec.
  unfold bind at 1.
  match goal with |- context [open_streams E ?n 0 ?out ?t3 ?w3] =>
    destruct (open_streams_total E out n 0 t3 w3) as (r & t4 & w4 & Ho & _ & _ & _)
  end.
  rewrite Ho. destruct r as [e|].
  { unfold ret. intros s Hs; discriminate. }
  unfold bind at 1. unfold gets at 1.
  destruct (WriteString_cases E (kernel_trace_root_ t4 // "tracing_on") "1" t4 w4)
    as (s1 & o & b1 & f1 & fs & Hw & Hok & _).
  unfold bind at 1. rewrite Hw, Hok.
  destruct b1; cbn [negb].
  { unfold ret. intros s Hs; discriminate. }
  unfold bind at 1. unfold modify at 1.
  unfold bind at 1. unfold Now at 1.
  unfold bind at 1. unfold SleepFor at 1. unfold ret.
  intros s Hs. inversion Hs; subst. split; reflexivity.
Qed.

Lemma StopTrace_not_fuel (E : Env) (final_copy : bool) (t : FTraceTracer) (w : World) :
  StopTrace E final_copy t w <> Stuck Fuel.
Proof.
  unfold StopTrace. monad_unfold.
  destruct (is_tracing_ t); cbn [negb]; [|discriminate].
  destruct (WriteString_cases E (kernel_trace_root_ t // "tracing_on") "0" t w)
    as (s1 & o & b1 & f1 & fs & Hw & Hok & _).
  rewrite Hw, Hok.
  destruct b1; cbn [negb]; [discriminate|].
  destruct final_copy.
  - match goal with |- context [CopyCPUBuffers E t ?w1] =>
      destruct (CopyCPUBuffers E t w1) as [s2 t2 w2|f2] eqn:Hc
    end.
    + destruct (ok s2); cbn [negb].
      * rewrite ClearCPUFDs_spec. discriminate.
      * discriminate.
    + intros H; inversion H; subst. now apply CopyCPUBuffers_not_fuel in Hc.
  - rewrite ClearCPUFDs_spec. discriminate.
Qed.

(** The bound on the capture loop, and with it every bound of the model,
    is never what ends a run of [CollectTrace]. *)
Lemma CollectTrace_not_fuel (E : Env) (capture_seconds : Z) (t : FTraceTracer) (w : World) :
  CollectTrace E capture_seconds t w <> Stuck Fuel.
Proof.
  unfold CollectTrace. unfold bind at 1.
  pose proof (CollectTrace_start_returns_or_throws E t w) as Hclk.
  destruct (CollectTrace_start E t w) as [r t1 w1|f0] eqn:Hs;
    [|subst f0; discriminate].
  destruct r as [e | start_time]; [discriminate|].
  destruct (Hclk start_time eq_refl) as [Hc _].
  unfold bind at 1. unfold capture_fuel.
  destruct (capture_loop E (S (Z.to_nat (10 * capture_seconds)))
              (start_time + 1000 * capture_seconds) t1 w1) as [f1 t2 w2|f] eqn:Hl.
  - unfold bind at 1.
    destruct (StopTrace E true t2 w2) as [s t3 w3|f] eqn:Hst.
    + destruct (ok f1); discriminate.
    + intros H; inversion H; subst. now apply StopTrace_not_fuel in Hst.
  - intros H; inversion H; subst. revert Hl. apply capture_loop_not_fuel. lia.
Qed.

(** ** Configuration *)

Lemma write_events_spec (E : Env) (fd : Z) (root : string) :
  forall l t w,
  exists r w' calls closing,
    write_events E fd (root // "set_event") l t w = Val r t w'
    /\ log w' = (rev (calls ++ closing) ++ log w)%list
    /\ (r = None /\ closing = [] /\ fdtab w' = fdtab w /\
         map call_of calls = map (CWrite fd) l /\ forallb succeeded calls = true
        \/
        exists before event rest cbefore e,
          l = (before ++ event :: rest)%list /\ calls = (cbefore ++ [e])%list /\
          map call_of calls = map (CWrite fd) (before ++ [event]) /\
          forallb succeeded cbefore = true /\ succeeded e = false /\
          closing = [EvClose fd] /\
          r = Some (InternalError
                      ("Failed to write " ++ event ++ " to " ++ root // "set_event"))).
Proof.
  induction l as [|event l IH]; intros t w; cbn [write_events].
  - exists None, w, [], []. split; [reflexivity | split; [reflexivity|]].
    left. repeat split.
  - unfold bind at 1.
    destruct (sys_write_grows E fd event t w) as (n & w1 & Hw & L1 & F1 & _).
    rewrite Hw.
    destruct (to_unsigned n =? Z.of_nat (String.length event))%Z eqn:Hn; cbn [negb].
    + destruct (IH t w1) as (r & w' & calls & closing & Hr & Lg & Hcase).
      exists r, w', (EvWrite fd event n :: calls)%list, closing.
      split; [exact Hr | split].
      * rewrite Lg, L1. simpl. rewrite <- !app_assoc. reflexivity.
      * destruct Hcase as [(-> & -> & Fd & Hm & Hall)
                          | (before & ev & rest & cbefore & e & -> & -> & Hm & Hall & He & -> & ->)].
        -- left. repeat split; [congruence | simpl; now rewrite Hm | simpl; now rewrite Hn, Hall].
        -- right. exists (event :: before)%list, ev, rest, (EvWrite fd event n :: cbefore)%list, e.
           repeat split; try assumption.
           ++ simpl. now rewrite Hm.
           ++ simpl. now rewrite Hn, Hall.
    + unfold bind at 1. unfold sys_close at 1. unfold ret.
      eexists _, _, [EvWrite fd event n], [EvClose fd].
      split; [reflexivity | split].
      * simpl. now rewrite L1.
      * right. exists [], event, l, [], (EvWrite fd event n).
        repeat split. simpl. exact Hn.
Qed.

Lemma EnableEvents_spec (E : Env) (t : FTraceTracer) (w : World) :
  is_tracing_ t = false ->
  exists st w' calls closing efd,
    EnableEvents E t w = Val st t w'
    /\ log w' = (rev ((EvOpen (kernel_trace_root_ t // "set_event")
                              [O_WRONLY; O_TRUNC] efd :: calls) ++ closing) ++ log w)%list
    /\ ((efd < 0)%Z /\ calls = [] /\ closing = [] /\ fdtab w' = fdtab w /\
        st = InternalError ("Could not open " ++ kernel_trace_root_ t // "set_event")
        \/
        (0 <= efd)%Z /\ closing = [EvClose efd] /\
        (st = OkStatus /\ map call_of calls = map (CWrite efd) (events_ t) /\
         forallb succeeded calls = true
         \/
         exists before event rest cbefore e,
           events_ t = (before ++ event :: rest)%list /\ calls = (cbefore ++ [e])%list /\
           map call_of calls = map (CWrite efd) (before ++ [event]) /\
           forallb succeeded cbefore = true /\ succeeded e = false /\
           st = InternalError ("Failed to write " ++ event ++ " to "
                                 ++ kernel_trace_root_ t // "set_event"))).
Proof.
  intros Ht. unfold EnableEvents.
  unfold bind at 1. unfold gets at 1. rewrite Ht.
  unfold bind at 1. unfold gets at 1. cbv zeta.
  destruct (sys_open_val E (kernel_trace_root_ t // "set_event") [O_WRONLY; O_TRUNC] t w)
    as (efd & w1 & Ho & _ & L1 & Hfd).
  unfold bind at 1. rewrite Ho.
  destruct (efd <? 0)%Z eqn:Hneg.
  - apply Z.ltb_lt in Hneg.
    exists (InternalError ("Could not open " ++ kernel_trace_root_ t // "set_event")),
           w1, [], [], efd.
    split; [reflexivity | split; [now rewrite L1|]].
    left. repeat split; try assumption.
    destruct Hfd as [(_ & Hf & _) | (Hf & _)]; [exact Hf|].
    exfalso. subst efd. unfold lowest_free in Hneg.
    destruct (find _ _) as [x|] eqn:Hfind; [|lia].
    apply find_some in Hfind. destruct Hfind as [Hin _].
    apply in_map_iff in Hin. destruct Hin as (k & <- & _). lia.
  - apply Z.ltb_ge in Hneg.
    unfold bind at 1. unfold gets at 1. unfold bind at 1.
    destruct (write_events_spec E efd (kernel_trace_root_ t) (events_ t) t w1)
      as (r & w2 & calls & closing & Hr & L2 & Hcase).
    rewrite Hr.
    destruct Hcase as [(-> & -> & Fd & Hm & Hall)
                      | (before & ev & rest & cbefore & e & Hev & -> & Hm & Hall & He & -> & ->)].
    + unfold bind at 1. unfold sys_close at 1. unfold ret.
      eexists OkStatus, _, calls, [EvClose efd], efd.
      split; [reflexivity | split].
      * cbn [log]. rewrite L2, L1. rewrite app_nil_r.
        simpl. rewrite !rev_app_distr. simpl. rewrite <- !app_assoc. reflexivity.
      * right. repeat split; try assumption. left. repeat split; assumption.
    + unfold ret.
      eexists _, w2, (cbefore ++ [e])%list, [EvClose efd], efd.
      split; [reflexivity | split].
      * rewrite L2, L1. simpl. rewrite !rev_app_distr. simpl.
        rewrite <- !app_assoc. reflexivity.
      * right. repeat split; try assumption. right.
        exists before, ev, rest, cbefore, e. repeat split; assumption.
Qed.

Ltac write_string_step E path data t w s o b f H :=
  let fs := fresh "fs" in
  let Hok := fresh "Hok" in
  let Hbad := fresh "Hbad" in
  let Hgood := fresh "Hgood" in
  destruct (WriteString_cases E path data t w)
    as (s & o & b & f & fs & H & Hok & Hbad & Hgood & _ & _);
  unfold bind at 1; rewrite H, Hok;
  destruct b; cbn [negb];
  [ rewrite (Hbad eq_refl) in *; clear Hbad Hgood
  | rewrite (Hgood eq_refl) in *; clear Hbad Hgood ].

Ltac stopped_at k cbefore e :=
  match goal with
  | |- ran_until_failure ?plan _ _ =>
      exists (firstn k plan), (skipn k plan);
      split; [symmetry; apply firstn_skipn | split; [reflexivity|]];
      right; exists (firstn (pred k) plan); eexists; exists cbefore, e;
      split; [reflexivity | split; [reflexivity|]]
  end.

(** The order of configuration.  [ConfigureFTrace], called outside a
    trace, makes its calls in the order of the plan: "0" to [tracing_on], the open of [free_buffer], "nop"
    to [current_tracer], "disable_on_free" to [trace_options], the buffer
    size to [buffer_size_kb], the open of [set_event] and one write per
    configured event in the configured order (and at last the close of the
    [set_event] descriptor).  It stops right after the first step it takes
    to have failed ([succeeded] is false: for [WriteString] that is [bad()],
    which misses a file that did not open) and returns that step's failure;
    apart from the steps made, the log has nothing (no write is undone).  When the first write fails no
    descriptor has been opened and [free_fd_] is untouched; when the open of
    [free_buffer] fails [free_fd_] is negative and no descriptor is open
    that was not before. *)
Theorem ConfigureFTrace_in_order (E : Env) (t : FTraceTracer) (w : World) :
  is_tracing_ t = false ->
  exists st t' w' calls closing guard_fd event_fd,
    ConfigureFTrace E t w = Val st t' w'
    /\ log w' = (rev (calls ++ closing) ++ log w)%list
    /\ ran_until_failure (config_plan t guard_fd event_fd) calls st
    /\ (closing = [] \/ closing = [EvClose event_fd] /\ (0 <= event_fd)%Z)
    /\ (List.length calls = 1%nat -> free_fd_ t' = free_fd_ t /\ fdtab w' = fdtab w)
    /\ ((2 <= List.length calls)%nat ->
        free_fd_ t' = guard_fd /\ ((guard_fd < 0)%Z -> fdtab w' = fdtab w))
    /\ is_tracing_ t' = false /\ fds_ t' = fds_ t.
Proof.
  intros Ht. unfold ConfigureFTrace.
  unfold bind at 1. unfold gets at 1. rewrite Ht.
  unfold bind at 1. unfold gets at 1.
  (* (a) tracing_on = 0 *)
  write_string_step E (kernel_trace_root_ t // "tracing_on") "0" t w s1 o1 b1 f1 H1.
  { eexists _, t, _, [EvWriteString _ _ o1 true f1], [], 0%Z, 0%Z.
    split; [reflexivity | split; [reflexivity | split; [|split; [now left|]]]].
    - stopped_at 1%nat (@nil Event) (EvWriteString (kernel_trace_root_ t // "tracing_on") "0" o1 true f1).
      repeat split.
    - repeat split; try assumption; intros; cbn [List.length] in *; lia. }
  (* (b) the guard *)
  match type of H1 with _ = Val _ _ ?w1 => set (wa := w1) in * end.
  destruct (sys_open_val E (kernel_trace_root_ t // "free_buffer") [O_RDONLY] t wa)
    as (gfd & wb & Hg & _ & Lb & Hgfd).
  unfold bind at 1. rewrite Hg.
  unfold bind at 1. unfold modify at 1.
  destruct (gfd <? 0)%Z eqn:Hneg.
  { apply Z.ltb_lt in Hneg.
    eexists _, (set_free_fd gfd t), wb,
      [EvWriteString _ _ o1 false f1; EvOpen _ _ gfd], [], gfd, 0%Z.
    split; [reflexivity | split; [now rewrite Lb | split; [|split; [now left|]]]].
    - stopped_at 2%nat
        [EvWriteString (kernel_trace_root_ t // "tracing_on") "0" o1 false f1]
        (EvOpen (kernel_trace_root_ t // "free_buffer") [O_RDONLY] gfd).
      repeat split. simpl. now apply Z.leb_gt.
    - repeat split; try assumption; try (intros; cbn [List.length] in *; lia).
      intros _. destruct Hgfd as [(_ & Hf & _) | (Hf & _)]; [exact Hf|].
      exfalso. subst gfd. unfold lowest_free in Hneg.
      destruct (find _ _) as [x|] eqn:Hfind; [|lia].
      apply find_some in Hfind. destruct Hfind as [Hin _].
      apply in_map_iff in Hin. destruct Hin as (k & <- & _). lia. }
  assert (Hgok : (0 <=? gfd)%Z = true) by (apply Z.ltb_ge in Hneg; now apply Z.leb_le).
  set (t2 := set_free_fd gfd t).
  (* (c) the no-op tracer *)
  write_string_step E (kernel_trace_root_ t // "current_tracer") "nop" t2 wb s3 o3 b3 f3 H3.
  { eexists _, t2, _,
      [EvWriteString _ _ o1 false f1; EvOpen _ _ gfd; EvWriteString _ _ o3 true f3],
      [], gfd, 0%Z.
    split; [reflexivity | split; [cbn [log push]; now rewrite Lb | split; [|split; [now left|]]]].
    - stopped_at 3%nat
        [EvWriteString (kernel_trace_root_ t // "tracing_on") "0" o1 false f1;
         EvOpen (kernel_trace_root_ t // "free_buffer") [O_RDONLY] gfd]
        (EvWriteString (kernel_trace_root_ t // "current_tracer") "nop" o3 true f3).
      repeat split. simpl. now rewrite Hgok.
    - repeat split; try assumption; try (intros; cbn [List.length] in *; lia). }
  match type of H3 with _ = Val _ _ ?w1 => set (wc := w1) in * end.
  (* (d) disable on free *)
  write_string_step E (kernel_trace_root_ t // "trace_options") "disable_on_free"
                    t2 wc s4 o4 b4 f4 H4.
  { eexists _, t2, _,
      [EvWriteString _ _ o1 false f1; EvOpen _ _ gfd; EvWriteString _ _ o3 false f3;
       EvWriteString _ _ o4 true f4],
      [], gfd, 0%Z.
    split; [reflexivity | split; [subst wc; cbn [log]; now rewrite Lb | split; [|split; [now left|]]]].
    - stopped_at 4%nat
        [EvWriteString (kernel_trace_root_ t // "tracing_on") "0" o1 false f1;
         EvOpen (kernel_trace_root_ t // "free_buffer") [O_RDONLY] gfd;
         EvWriteString (kernel_trace_root_ t // "current_tracer") "nop" o3 false f3]
        (EvWriteString (kernel_trace_root_ t // "trace_options") "disable_on_free" o4 true f4).
      repeat split. simpl. now rewrite Hgok.
    - repeat split; try assumption; try (intros; cbn [List.length] in *; lia). }
  match type of H4 with _ = Val _ _ ?w1 => set (wd := w1) in * end.
  (* (e) buffer size *)
  unfold bind at 1. unfold gets at 1.
  write_string_step E (kernel_trace_root_ t // "buffer_size_kb")
                    (to_string (buffer_size_ t2)) t2 wd s5 o5 b5 f5 H5.
  { eexists _, t2, _,
      [EvWriteString _ _ o1 false f1; EvOpen _ _ gfd; EvWriteString _ _ o3 false f3;
       EvWriteString _ _ o4 false f4; EvWriteString _ _ o5 true f5],
      [], gfd, 0%Z.
    split; [reflexivity | split; [subst wd wc; cbn [log]; now rewrite Lb | split; [|split; [now left|]]]].
    - stopped_at 5%nat
        [EvWriteString (kernel_trace_root_ t // "tracing_on") "0" o1 false f1;
         EvOpen (kernel_trace_root_ t // "free_buffer") [O_RDONLY] gfd;
         EvWriteString (kernel_trace_root_ t // "current_tracer") "nop" o3 false f3;
         EvWriteString (kernel_trace_root_ t // "trace_options") "disable_on_free" o4 false f4]
        (EvWriteString (kernel_trace_root_ t // "buffer_size_kb")
                       (to_string (buffer_size_ t)) o5 true f5).
      repeat split. simpl. now rewrite Hgok.
    - repeat split; try assumption; try (intros; cbn [List.length] in *; lia). }
  match type of H5 with _ = Val _ _ ?w1 => set (we := w1) in * end.
  (* (f) the events *)
  destruct (EnableEvents_spec E t2 we Ht)
    as (st & w' & calls & closing & efd & He & Le & Hcase).
  unfold bind at 1. rewrite He.
  set (five := [EvWriteString (kernel_trace_root_ t // "tracing_on") "0" o1 false f1;
                EvOpen (kernel_trace_root_ t // "free_buffer") [O_RDONLY] gfd;
                EvWriteString (kernel_trace_root_ t // "current_tracer") "nop" o3 false f3;
                EvWriteString (kernel_trace_root_ t // "trace_options") "disable_on_free"
                              o4 false f4;
                EvWriteString (kernel_trace_root_ t // "buffer_size_kb")
                              (to_string (buffer_size_ t)) o5 false f5]).
  set (eo := EvOpen (kernel_trace_root_ t // "set_event") [O_WRONLY; O_TRUNC] efd).
  assert (Hlog : log w' = (rev ((five ++ eo :: calls) ++ closing) ++ log w)%list).
  { rewrite Le. subst we wd wc. cbn [log]. rewrite Lb. subst wa. cbn [log].
    subst five eo. cbn [kernel_trace_root_ t2 set_free_fd buffer_size_].
    rewrite !rev_app_distr. simpl. rewrite <- !app_assoc. reflexivity. }
  assert (Hfive : forallb succeeded five = true) by (simpl; now rewrite Hgok).
  assert (Hrest : free_fd_ t2 = gfd /\ ((gfd < 0)%Z -> fdtab w' = fdtab w))
    by (split; [reflexivity | intros Hlt; apply Z.leb_le in Hgok; lia]).
  exists (if ok st then OkStatus else st), t2, w', (five ++ eo :: calls)%list, closing, gfd, efd.
  split; [now destruct (ok st) | split; [exact Hlog|]].
  assert (Hlen : (2 <= List.length (five ++ eo :: calls))%nat)
    by (rewrite length_app; simpl; lia).
  change (events_ t2) with (events_ t) in Hcase.
  change (kernel_trace_root_ t2) with (kernel_trace_root_ t) in Hcase.
  destruct Hcase as [(Hefd & -> & -> & Fd & ->)
                    | (Hefd & -> & [(-> & Hm & Hall)
                                   | (before & ev & rest & cbefore & e & Hev & -> & Hm & Hall & Hf & ->)])].
  - (* set_event does not open *)
    cbn [ok code InternalError].
    split; [|split; [now left | split; [simpl; lia | split; [intros _; exact Hrest | now split]]]].
    stopped_at 6%nat five eo. repeat split; try assumption.
    simpl. now apply Z.leb_gt.
  - (* all events written *)
    cbn [ok code OkStatus].
    split; [|split; [right; now split | split; [intros; lia | split; [intros _; exact Hrest | now split]]]].
    exists (config_plan t gfd efd), []. split; [now rewrite app_nil_r | split].
    + unfold config_plan. rewrite !map_app, map_map. cbn [map fst five call_of eo].
      simpl. now rewrite Hm.
    + left. repeat split. rewrite forallb_app, Hfive. simpl.
      apply Z.leb_le in Hefd. now rewrite Hefd, Hall.
  - (* the write of an event fails *)
    cbn [ok code InternalError].
    split; [|split; [right; now split | split; [intros; lia | split; [intros _; exact Hrest | now split]]]].
    set (step := fun event : string =>
                   (CWrite efd event,
                    InternalError ("Failed to write " ++ event ++ " to "
                                     ++ kernel_trace_root_ t // "set_event"))).
    exists (firstn 6 (config_plan t gfd efd) ++ map step (before ++ [ev]))%list,
           (map step rest).
    split; [|split].
    + unfold config_plan. rewrite Hev.
      cbn [firstn app]. rewrite !map_app. cbn [map]. rewrite <- !app_assoc. reflexivity.
    + rewrite !map_app, map_map. cbn [map fst firstn config_plan app five call_of eo].
      simpl. rewrite Hm.
      rewrite map_app. reflexivity.
    + right.
      exists (firstn 6 (config_plan t gfd efd) ++ map step before)%list, (step ev),
             (five ++ eo :: cbefore)%list, e.
      split; [rewrite map_app, <- app_assoc; reflexivity|].
      split; [rewrite <- app_assoc; reflexivity|].
      split; [|split; [exact Hf | split; reflexivity]].
      rewrite forallb_app, Hfive. simpl.
      apply Z.leb_le in Hefd. now rewrite Hefd, Hall.
Qed.

(** ** The CPU count of a pass and the bounds of [fds_] *)

(** C10, as the code has it.  While tracing, a pass loops up to the CPU
    count it asks for itself, whatever the number of pairs in [fds_].  No
    access [fds_[i]] of the pass is out of bounds exactly when that count
    does not exceed the number of pairs, or the drain of one of the
    existing streams fails (the pass then returns before it reaches the end
    of the vector).  An access out of bounds, when there is one, is at the
    index just past the last pair; with a count within the number of pairs
    the pass returns. *)
Theorem CopyCPUBuffers_bounds (E : Env) (t : FTraceTracer) (w : World) :
  is_tracing_ t = true -> (0 < buffer_size_ t)%Z ->
  let count := env_nprocs E (log w) in
  let len := List.length (fds_ t) in
  CopyCPUBuffers E t w = copy_loop E count 0 t (push (EvNprocs count) w)
  /\ ((forall i l, CopyCPUBuffers E t w <> Stuck (VecIndex i l)) <->
      ((count <= len)%nat \/
       exists st w', copy_loop E len 0 t (push (EvNprocs count) w) = Val st t w'
                     /\ ok st = false))
  /\ (forall f, CopyCPUBuffers E t w = Stuck f ->
                f = VecIndex len len /\ (len < count)%nat)
  /\ ((count <= len)%nat -> exists st w', CopyCPUBuffers E t w = Val st t w').
Proof.
  intros Ht Hb count len.
  pose proof (CopyCPUBuffers_eq E t w Ht) as Heq. fold count in Heq.
  split; [exact Heq|]. rewrite Heq.
  set (w0 := push (EvNprocs count) w).
  destruct (copy_loop_total E len 0 t w0 Ht Hb) as (s1 & w1 & Hpre); [simpl; lia|].
  destruct (Nat.le_gt_cases count len) as [Hle | Hgt].
  - destruct (copy_loop_total E count 0 t w0 Ht Hb) as (s & w' & Hv); [simpl; lia|].
    rewrite Hv. split; [|split].
    + split; [intros _; now left | intros _ i l; discriminate].
    + intros f Hf; discriminate.
    + intros _. now exists s, w'.
  - assert (Hsp : copy_loop E count 0 t w0
                  = if ok s1 then copy_loop E (S (count - S len)) (0 + len) t w1
                    else Val s1 t w1).
    { replace (copy_loop E count 0 t w0)
        with (copy_loop E (len + S (count - S len)) 0 t w0) by (f_equal; lia).
      now rewrite copy_loop_split, Hpre. }
    rewrite Hsp.
    destruct (ok s1) eqn:Hok.
    + assert (Hoob : copy_loop E (S (count - S len)) (0 + len) t w1
                     = Stuck (VecIndex len len)).
      { cbn [copy_loop Nat.add]. monad_unfold.
        assert (Hn : nth_error (fds_ t) len = None) by (apply nth_error_None; lia).
        now rewrite Hn. }
      rewrite Hoob. split; [|split].
      * split.
        -- intros H. now elim (H len len).
        -- intros [Hc | (st & w' & Hst & Hf)]; [lia|].
           rewrite Hpre in Hst. inversion Hst; subst. congruence.
      * intros f Hf. inversion Hf; subst. split; [reflexivity | lia].
      * intros Hc. lia.
    + split; [|split].
      * split; [|intros _ i l; discriminate].
        intros _. right. now exists s1, w1.
      * intros f Hf; discriminate.
      * intros Hc. lia.
Qed.

(** ** What a drain error is tagged with *)

(** C7, as the code has it.  While tracing, a read that returns -1 with an
    [errno] other than [EAGAIN] ends the drain with the error "Unable to
    read cpu file <in_fd>", where [in_fd] is the number of the descriptor
    read; and whenever a pass returns an error, it is this error for the
    read descriptor [in_fd] of the pair [fds_[i]] of some CPU [i] below the
    CPU count, whose read was the last call made. *)
Theorem read_error_names_descriptor (E : Env) (t : FTraceTracer) :
  is_tracing_ t = true ->
  (forall fuel in_fd out_fd size w e w1,
      sys_read in_fd size t w = Val (RFail e) t w1 -> e <> EAGAIN ->
      drain E (S fuel) in_fd out_fd size t w
      = Val (InternalError ("Unable to read cpu file " ++ to_string in_fd)) t w1)
  /\ (forall w st t' w',
      CopyCPUBuffers E t w = Val st t' w' -> ok st = false ->
      t' = t /\
      exists i in_fd out_fd count e rest,
        (i < env_nprocs E (log w))%nat /\
        nth_error (fds_ t) i = Some (in_fd, out_fd) /\
        log w' = EvRead in_fd count (RFail e) :: rest /\
        e <> EAGAIN /\
        st = InternalError ("Unable to read cpu file " ++ to_string in_fd)).
Proof.
  intros Ht. split.
  - intros fuel in_fd out_fd size w e w1 Hr He.
    cbn [drain]. unfold bind at 1. rewrite Hr. cbn [bytes_read_of errno_is].
    apply Z.eqb_neq in He. rewrite He. reflexivity.
  - intros w st t' w' Hc Hs.
    apply CopyCPUBuffers_val in Hc. destruct Hc as (-> & _ & Hf).
    split; [reflexivity|].
    destruct (Hf Ht Hs) as (i & a & b & Hi & Hn & count & e & rest & Hl & He & Hst).
    exists i, a, b, count, e, rest. repeat split; try assumption. lia.
Qed.

(** * The theorems at concrete sessions *)

Lemma StopTrace_not_tracing_witness :
  is_tracing_ tracer0 = false /\
  exists st t' w',
    StopTrace E_one true tracer0 (world0 nothing_pending) = Val st t' w'
    /\ st = InternalError "Not currently in a trace" /\ ok st = false
    /\ log w' = log (world0 nothing_pending) /\ w' = world0 nothing_pending
    /\ is_tracing_ t' = is_tracing_ tracer0 /\ fds_ t' = fds_ tracer0
    /\ free_fd_ t' = free_fd_ tracer0
    /\ t' = tracer0.
Proof.
  split; [reflexivity|].
  apply (StopTrace_not_tracing E_one true tracer0 (world0 nothing_pending)).
  reflexivity.
Defined.

Lemma WriteString_open_failure_is_ok_witness :
  env_ofs_open E_no_control (log (world0 nothing_pending))
               "/sys/kernel/debug/tracing/tracing_on" = false /\
  WriteString E_no_control "/sys/kernel/debug/tracing/tracing_on" "0"
              tracer0 (world0 nothing_pending)
  = Val OkStatus tracer0
        (push (EvWriteString "/sys/kernel/debug/tracing/tracing_on" "0" false false true)
              (world0 nothing_pending)).
Proof.
  split; [reflexivity|].
  apply (WriteString_open_failure_is_ok E_no_control
           "/sys/kernel/debug/tracing/tracing_on" "0" tracer0 (world0 nothing_pending)).
  reflexivity.
Defined.

Lemma CollectTrace_reports_both_failures_witness :
  ok (InternalError "Unable to read cpu file 4") = false /\
  exists result,
    CollectTrace E_one 1 both_fail_t both_fail_w = Val result both_fail_t3 both_fail_w3
    /\ ok result = false
    /\ message result
       = message (InternalError "Unable to read cpu file 4")
         ++ String "010" (String "010" "")
         ++ message (InternalError "Unable to read cpu file 4")
    /\ contains (message (InternalError "Unable to read cpu file 4")) (message result) = true
    /\ contains (message (InternalError "Unable to read cpu file 4")) (message result) = true.
Proof.
  split; [reflexivity|].
  apply (CollectTrace_reports_both_failures E_one 1 both_fail_t both_fail_w 0
           both_fail_t1 both_fail_w1 (InternalError "Unable to read cpu file 4")
           both_fail_t2 both_fail_w2 (InternalError "Unable to read cpu file 4")
           both_fail_t3 both_fail_w3).
  - vm_compute. reflexivity.
  - vm_compute. reflexivity.
  - reflexivity.
  - vm_compute. reflexivity.
  - reflexivity.
Defined.


Lemma ConfigureFTrace_in_order_witness :
  is_tracing_ tracer0 = false /\
  exists st t' w' calls closing guard_fd event_fd,
    ConfigureFTrace E_one tracer0 (world0 nothing_pending) = Val st t' w'
    /\ log w' = (rev (calls ++ closing) ++ log (world0 nothing_pending))%list
    /\ ran_until_failure (config_plan tracer0 guard_fd event_fd) calls st
    /\ (closing = [] \/ closing = [EvClose event_fd] /\ (0 <= event_fd)%Z)
    /\ (List.length calls = 1%nat ->
        free_fd_ t' = free_fd_ tracer0 /\ fdtab w' = fdtab (world0 nothing_pending))
    /\ ((2 <= List.length calls)%nat ->
        free_fd_ t' = guard_fd /\
        ((guard_fd < 0)%Z -> fdtab w' = fdtab (world0 nothing_pending)))
    /\ is_tracing_ t' = false /\ fds_ t' = fds_ tracer0.
Proof.
  split; [reflexivity|].
  apply (ConfigureFTrace_in_order E_one tracer0 (world0 nothing_pending)).
  reflexivity.
Defined.

Lemma drain_failure_is_fail_fast_witness :
  is_tracing_ (tracer_of E_two cpu0_fails) = true /\
  ok (InternalError "Unable to read cpu file 4") = false /\
  CopyCPUBuffers E_two (tracer_of E_two cpu0_fails) (world_of E_two cpu0_fails)
  = Val (InternalError "Unable to read cpu file 4") (tracer_of E_two cpu0_fails)
        (res_world (world_of E_two cpu0_fails)
           (CopyCPUBuffer E_two 4 5 (tracer_of E_two cpu0_fails)
              (push (EvNprocs (env_nprocs E_two (log (world_of E_two cpu0_fails))))
                    (world_of E_two cpu0_fails)))).
Proof.
  assert (Ht : is_tracing_ (tracer_of E_two cpu0_fails) = true)
    by (vm_compute; reflexivity).
  assert (Hi : (0 < env_nprocs E_two (log (world_of E_two cpu0_fails)))%nat)
    by (vm_compute; lia).
  assert (Hn : nth_error (fds_ (tracer_of E_two cpu0_fails)) 0 = Some (4, 5)%Z)
    by (vm_compute; reflexivity).
  assert (Hc : CopyCPUBuffer E_two 4 5 (tracer_of E_two cpu0_fails)
                 (push (EvNprocs (env_nprocs E_two (log (world_of E_two cpu0_fails))))
                       (world_of E_two cpu0_fails))
               = Val (InternalError "Unable to read cpu file 4") (tracer_of E_two cpu0_fails)
                     (res_world (world_of E_two cpu0_fails)
                        (CopyCPUBuffer E_two 4 5 (tracer_of E_two cpu0_fails)
                           (push (EvNprocs (env_nprocs E_two (log (world_of E_two cpu0_fails))))
                                 (world_of E_two cpu0_fails)))))
    by (vm_compute; reflexivity).
  split; [exact Ht | split; [reflexivity|]].
  exact (proj1 (drain_failure_is_fail_fast E_two (tracer_of E_two cpu0_fails)
                  (world_of E_two cpu0_fails) 0 4 5 _ _ _ Ht Hi eq_refl Hn Hc eq_refl)).
Defined.

Lemma StopTrace_releases_guard_once_witness :
  is_tracing_ (tracer_of E_hotplug cpu0_fails) = true /\
  ~ In (free_fd_ (tracer_of E_hotplug cpu0_fails))
       (stream_fds (fds_ (tracer_of E_hotplug cpu0_fails))) /\
  exists new,
    is_tracing_ (res_tracer tracer0
                   (StopTrace E_hotplug true (tracer_of E_hotplug cpu0_fails)
                      (world_of E_hotplug cpu0_fails))) = false
    /\ log (res_world (world0 cpu0_fails)
              (StopTrace E_hotplug true (tracer_of E_hotplug cpu0_fails)
                 (world_of E_hotplug cpu0_fails)))
       = (new ++ log (world_of E_hotplug cpu0_fails))%list
    /\ close_count (free_fd_ (tracer_of E_hotplug cpu0_fails)) new = 1%nat.
Proof.
  assert (Ht : is_tracing_ (tracer_of E_hotplug cpu0_fails) = true)
    by (vm_compute; reflexivity).
  assert (Hd : ~ In (free_fd_ (tracer_of E_hotplug cpu0_fails))
                    (stream_fds (fds_ (tracer_of E_hotplug cpu0_fails)))).
  { vm_compute. intros [H | [H | []]]; discriminate. }
  assert (Hs : StopTrace E_hotplug true (tracer_of E_hotplug cpu0_fails)
                 (world_of E_hotplug cpu0_fails)
               = Val (InternalError "Unable to read cpu file 4")
                   (res_tracer tracer0
                      (StopTrace E_hotplug true (tracer_of E_hotplug cpu0_fails)
                         (world_of E_hotplug cpu0_fails)))
                   (res_world (world0 cpu0_fails)
                      (StopTrace E_hotplug true (tracer_of E_hotplug cpu0_fails)
                         (world_of E_hotplug cpu0_fails))))
    by (vm_compute; reflexivity).
  split; [exact Ht | split; [exact Hd|]].
  destruct (StopTrace_releases_guard_once E_hotplug true _ _ _ _ _ Ht Hd Hs)
    as (new & H1 & H2 & H3 & _).
  exists new. split; [exact H1 | split; [exact H2 | exact H3]].
Defined.

Lemma CopyCPUBuffers_bounds_witness :
  is_tracing_ (tracer_of E_hotplug cpu0_fails) = true /\
  (0 < buffer_size_ (tracer_of E_hotplug cpu0_fails))%Z /\
  ((forall i l, CopyCPUBuffers E_hotplug (tracer_of E_hotplug cpu0_fails)
                  (world_of E_hotplug cpu0_fails) <> Stuck (VecIndex i l)) <->
   ((env_nprocs E_hotplug (log (world_of E_hotplug cpu0_fails))
     <= List.length (fds_ (tracer_of E_hotplug cpu0_fails)))%nat \/
    exists st w',
      copy_loop E_hotplug (List.length (fds_ (tracer_of E_hotplug cpu0_fails))) 0
                (tracer_of E_hotplug cpu0_fails)
                (push (EvNprocs (env_nprocs E_hotplug (log (world_of E_hotplug cpu0_fails))))
                      (world_of E_hotplug cpu0_fails))
      = Val st (tracer_of E_hotplug cpu0_fails) w' /\ ok st = false)).
Proof.
  assert (Ht : is_tracing_ (tracer_of E_hotplug cpu0_fails) = true)
    by (vm_compute; reflexivity).
  assert (Hb : (0 < buffer_size_ (tracer_of E_hotplug cpu0_fails))%Z)
    by (vm_compute; reflexivity).
  split; [exact Ht | split; [exact Hb|]].
  exact (proj1 (proj2 (CopyCPUBuffers_bounds E_hotplug (tracer_of E_hotplug cpu0_fails)
                         (world_of E_hotplug cpu0_fails) Ht Hb))).
Defined.

Lemma read_error_names_descriptor_witness :
  is_tracing_ (tracer_of E_two cpu1_fails) = true /\
  exists i in_fd out_fd count e rest,
    (i < env_nprocs E_two (log (world_of E_two cpu1_fails)))%nat /\
    nth_error (fds_ (tracer_of E_two cpu1_fails)) i = Some (in_fd, out_fd) /\
    log (res_world (world_of E_two cpu1_fails)
           (CopyCPUBuffers E_two (tracer_of E_two cpu1_fails) (world_of E_two cpu1_fails)))
    = EvRead in_fd count (RFail e) :: rest /\
    e <> EAGAIN /\
    InternalError "Unable to read cpu file 6"
    = InternalError ("Unable to read cpu file " ++ to_string in_fd).
Proof.
  assert (Ht : is_tracing_ (tracer_of E_two cpu1_fails) = true)
    by (vm_compute; reflexivity).
  assert (Hc : CopyCPUBuffers E_two (tracer_of E_two cpu1_fails) (world_of E_two cpu1_fails)
               = Val (InternalError "Unable to read cpu file 6") (tracer_of E_two cpu1_fails)
                     (res_world (world_of E_two cpu1_fails)
                        (CopyCPUBuffers E_two (tracer_of E_two cpu1_fails)
                           (world_of E_two cpu1_fails))))
    by (vm_compute; reflexivity).
  split; [exact Ht|].
  exact (proj2 (proj2 (read_error_names_descriptor E_two (tracer_of E_two cpu1_fails) Ht)
                  _ _ _ _ Hc eq_refl)).
Defined.

(** ** Where the code departs from the claims *)

(** C1.  On a machine with two CPUs where the pipe of CPU 1 cannot be
    opened, [CollectTrace] returns the open failure at once; when the
    destructor has run as well, the pair of CPU 0 is still in [fds_], its
    two descriptors (4 and 5) and the guard descriptor (3) are still open,
    and the guard has never been closed. *)
Theorem CollectTrace_open_failure_leaks :
  res_value session_open_fails
  = Some (InternalError
            "Unable to open /sys/kernel/debug/tracing/per_cpu/cpu1/trace_pipe_raw")
  /\ is_tracing_ (res_tracer tracer0 session_open_fails) = false
  /\ fds_ (res_tracer tracer0 session_open_fails) = [(4, 5)%Z]
  /\ free_fd_ (res_tracer tracer0 session_open_fails) = 3%Z
  /\ fdtab (res_world (world0 nothing_pending) session_open_fails)
     = [(5%Z, "/tmp/trace/traces/cpu0");
        (4%Z, "/sys/kernel/debug/tracing/per_cpu/cpu0/trace_pipe_raw");
        (3%Z, "/sys/kernel/debug/tracing/free_buffer");
        (0%Z, "/dev/stdin"); (1%Z, "/dev/stdout"); (2%Z, "/dev/stderr")]
  /\ close_count 3 (log (res_world (world0 nothing_pending) session_open_fails)) = 0%nat
  /\ close_count 5 (log (res_world (world0 nothing_pending) session_open_fails)) = 0%nat
  /\ hd_error (log (res_world (world0 nothing_pending) session_open_fails))
     = Some (EvOpen "/sys/kernel/debug/tracing/per_cpu/cpu1/trace_pipe_raw"
                    [O_RDONLY; O_NONBLOCK] (-1)%Z).
Proof. vm_compute. repeat split. Qed.

(** When it is the output file of CPU 1 that cannot be created, the pipe
    of CPU 1 just opened (descriptor 6) stays open as well, and is not even
    in [fds_]. *)
Lemma CollectTrace_create_failure_leaks :
  res_value session_create_fails
  = Some (InternalError "Unable to create /tmp/trace/traces/cpu1")
  /\ fds_ (res_tracer tracer0 session_create_fails) = [(4, 5)%Z]
  /\ fdtab (res_world (world0 nothing_pending) session_create_fails)
     = [(6%Z, "/sys/kernel/debug/tracing/per_cpu/cpu1/trace_pipe_raw");
        (5%Z, "/tmp/trace/traces/cpu0");
        (4%Z, "/sys/kernel/debug/tracing/per_cpu/cpu0/trace_pipe_raw");
        (3%Z, "/sys/kernel/debug/tracing/free_buffer");
        (0%Z, "/dev/stdin"); (1%Z, "/dev/stdout"); (2%Z, "/dev/stderr")].
Proof. vm_compute. repeat split. Qed.

(** C4.  On a machine where [tracing_on] cannot be opened for writing, with
    tracing on ([tracing_on] holds 1), the first sub-step of
    [ConfigureFTrace] fails: the stream does not open, [failbit] is set and
    the file still holds 1.  Configuration is not aborted and that failure
    is not returned: every later sub-step is made, in order, and
    [ConfigureFTrace] returns ok with the guard open.  (Where the file
    opens, the same sub-step leaves 0 in it.) *)
Theorem ConfigureFTrace_continues_after_failed_write :
  env_ofs_open E_no_control (log world_tracing_on) "/sys/kernel/debug/tracing/tracing_on"
  = false
  /\ observe (ConfigureFTrace E_no_control tracer0 world_tracing_on)
     = Some (OkStatus, (false, [], 3%Z),
             [EvWriteString "/sys/kernel/debug/tracing/tracing_on" "0" false false true;
              EvOpen "/sys/kernel/debug/tracing/free_buffer" [O_RDONLY] 3%Z;
              EvWriteString "/sys/kernel/debug/tracing/current_tracer" "nop"
                            true false false;
              EvWriteString "/sys/kernel/debug/tracing/trace_options" "disable_on_free"
                            true false false;
              EvWriteString "/sys/kernel/debug/tracing/buffer_size_kb" "4096"
                            true false false;
              EvOpen "/sys/kernel/debug/tracing/set_event" [O_WRONLY; O_TRUNC] 4%Z;
              EvWrite 4%Z "sched:sched_switch" 18%Z;
              EvWrite 4%Z "sched:sched_wakeup" 18%Z;
              EvWrite 4%Z "sched:sched_wakeup_new" 22%Z;
              EvWrite 4%Z "sched:sched_migrate_task" 24%Z;
              EvClose 4%Z],
             [(3%Z, "/sys/kernel/debug/tracing/free_buffer");
              (0%Z, "/dev/stdin"); (1%Z, "/dev/stdout"); (2%Z, "/dev/stderr")])
  /\ files (res_world world_tracing_on
              (ConfigureFTrace E_no_control tracer0 world_tracing_on))
           "/sys/kernel/debug/tracing/tracing_on" = "1"
  /\ files (res_world world_tracing_on (ConfigureFTrace E_one tracer0 world_tracing_on))
           "/sys/kernel/debug/tracing/tracing_on" = "0".
Proof. vm_compute. repeat split. Qed.

(** On a machine where no directory can be made, [create_directories]
    throws in [CollectTrace] and in [CopyFormats]: neither returns a
    status. *)
Lemma create_directories_throws :
  CollectTrace E_no_directories 1 tracer0 (world0 nothing_pending)
  = Stuck (FilesystemError "/tmp/trace/traces")
  /\ CopyFormats E_no_directories (readable no_path) tracer0 world_formats
     = Stuck (FilesystemError "/tmp/trace/formats/sched/sched_switch").
Proof. vm_compute. split; reflexivity. Qed.


(** C7 as stated fails: on a machine with two CPUs the read of the pipe of
    CPU 1 (index 1, descriptor 6) fails with [EIO]; the error is "Unable to
    read cpu file 6", in which the index 1 does not occur. *)
Lemma read_error_not_tagged_with_cpu_index :
  res_value (CopyCPUBuffers E_two (tracer_of E_two cpu1_fails) (world_of E_two cpu1_fails))
  = Some (InternalError "Unable to read cpu file 6")
  /\ nth_error (fds_ (tracer_of E_two cpu1_fails)) 1 = Some (6, 7)%Z
  /\ fd_lookup (fdtab (world_of E_two cpu1_fails)) 6 = Some cpu1_pipe
  /\ hd_error (log (res_world (world_of E_two cpu1_fails)
                      (CopyCPUBuffers E_two (tracer_of E_two cpu1_fails)
                         (world_of E_two cpu1_fails))))
     = Some (EvRead 6 4096 (RFail EIO))
  /\ contains (to_string 1) "Unable to read cpu file 6" = false
  /\ InternalError "Unable to read cpu file 6"
     <> InternalError ("Unable to read cpu file " ++ to_string 1).
Proof. vm_compute. repeat split. discriminate. Qed.

(** C10 as stated fails: one pair was opened, the CPU count at the time of
    the pass is 2, and yet no access is out of bounds, because the drain of
    CPU 0 fails and the pass returns. *)
Lemma in_bounds_with_more_cpus_than_pairs :
  ~ ((forall i l, CopyCPUBuffers E_hotplug (tracer_of E_hotplug cpu0_fails)
                    (world_of E_hotplug cpu0_fails) <> Stuck (VecIndex i l))
     <->
     (env_nprocs E_hotplug (log (world_of E_hotplug cpu0_fails))
      <= List.length (fds_ (tracer_of E_hotplug cpu0_fails)))%nat).
Proof.
  intros [H _].
  assert (Hin : forall i l, CopyCPUBuffers E_hotplug (tracer_of E_hotplug cpu0_fails)
                              (world_of E_hotplug cpu0_fails) <> Stuck (VecIndex i l)).
  { intros i l. vm_compute. discriminate. }
  apply H in Hin. vm_compute in Hin. lia.
Qed.

(** * Further properties of the session engine *)

(** ** Strings and descriptor tables *)

Lemma substring_all (s : string) : substring 0 (String.length s) s = s.
Proof. induction s as [|c s IH]; simpl; [reflexivity | now rewrite IH]. Qed.

Lemma substring_split (s : string) : forall n,
  (n <= String.length s)%nat ->
  substring 0 n s ++ substring n (String.length s - n) s = s.
Proof.
  induction s as [|c s IH]; intros n Hn.
  - destruct n; reflexivity.
  - destruct n as [|n].
    + simpl. now rewrite substring_all.
    + simpl in *. rewrite IH by lia. reflexivity.
Qed.

Lemma length_substring (s : string) : forall n m,
  (n + m <= String.length s)%nat -> String.length (substring n m s) = m.
Proof.
  induction s as [|c s IH]; intros n m H.
  - simpl in H. destruct n, m; simpl; lia.
  - destruct n as [|n].
    + destruct m as [|m]; simpl; [reflexivity|]. simpl in H. rewrite (IH 0%nat m); lia.
    + simpl in *. apply IH. lia.
Qed.

Lemma upd_same {A : Type} (f : string -> A) (k : string) (v : A) : upd f k v k = v.
Proof. unfold upd. now rewrite String.eqb_refl. Qed.

Lemma upd_other {A : Type} (f : string -> A) (k k' : string) (v : A) :
  k' <> k -> upd f k v k' = f k'.
Proof.
  intros H. unfold upd. destruct (k' =? k)%string eqn:He; [|reflexivity].
  apply String.eqb_eq in He. contradiction.
Qed.

(** ** The bytes a drain copies *)

Lemma drain_copies (E : Env) (in_fd out_fd : Z) (size : nat) (p q : string)
    (t : FTraceTracer) :
  (0 < size)%nat ->
  (forall h d, env_write E h q d = Z.of_nat (String.length d)) ->
  forall fuel w,
    (weight (pipes w p) < fuel)%nat ->
    fd_lookup (fdtab w) in_fd = Some p ->
    fd_lookup (fdtab w) out_fd = Some q ->
    exists st w',
      drain E fuel in_fd out_fd size t w = Val st t w'
      /\ fdtab w' = fdtab w
      /\ files w' q = files w q ++ pending_data (pipes w p)
      /\ (forall q', q' <> q -> files w' q' = files w q')
      /\ pipes w' p = after_stop (pipes w p)
      /\ (forall p', p' <> p -> pipes w' p' = pipes w p')
      /\ ok st = negb (stop_is_failure (pipes w p)).
Proof.
  intros Hsize Hfull.
  induction fuel as [|fuel IH]; intros w Hlt Hp Hq; [lia|].
  cbn [drain]. unfold bind at 1. unfold sys_read. rewrite Hp.
  destruct (pipes w p) as [|[d|e] r] eqn:Hs; cbn [pipe_read].
  - (* nothing in the pipe *)
    cbn [bytes_read_of errno_is]. rewrite Z.eqb_refl. cbn [negb andb orb Z.eqb].
    eexists _, _. split; [reflexivity|]. cbn [fdtab files pipes].
    repeat split; [now rewrite append_nil_r | now rewrite upd_same
                  | intros; now apply upd_other].
  - (* data *)
    assert (Hwrite : forall d0 w1, fd_lookup (fdtab w1) out_fd = Some q ->
              sys_write E out_fd d0 t w1
              = Val (Z.of_nat (String.length d0)) t
                    (mkWorld (EvWrite out_fd d0 (Z.of_nat (String.length d0)) :: log w1)
                             (fdtab w1) (upd (files w1) q (files w1 q ++ d0))
                             (pipes w1) (clock w1))).
    { intros d0 w1 Hq1. unfold sys_write. rewrite Hq1, Hfull.
      replace ((0 <=? Z.of_nat (String.length d0))%Z
               && (Z.of_nat (String.length d0) <=? Z.of_nat (String.length d0))%Z)
        with true by (symmetry; apply andb_true_intro; split; apply Z.leb_le; lia).
      now rewrite Nat2Z.id, substring_all. }
    destruct (String.length d <=? size)%nat eqn:Hle.
    + destruct d as [|c d'].
      * cbn. eexists _, _. split; [reflexivity|]. cbn [fdtab files pipes].
        repeat split; [now rewrite append_nil_r | now rewrite upd_same
                      | intros; now apply upd_other].
      * set (d := String c d') in *.
        cbn [bytes_read_of errno_is data_of andb].
        assert (Hnz : (Z.of_nat (String.length d) =? -1)%Z = false
                      /\ (Z.of_nat (String.length d) =? 0)%Z = false)
          by (split; apply Z.eqb_neq; subst d; simpl; lia).
        destruct Hnz as [-> ->]. cbn [andb orb].
        unfold bind at 1. rewrite Hwrite by exact Hq.
        match goal with |- context [drain E fuel in_fd out_fd size t ?w2] =>
          destruct (IH w2) as (st & w' & Hd & Ft & Fq & Fo & Pp & Po & Hok)
        end.
        { cbn [pipes]. rewrite upd_same. simpl in Hlt. lia. }
        { exact Hp. }
        { exact Hq. }
        cbn [fdtab files pipes] in *. repeat rewrite upd_same in *.
        exists st, w'. split; [exact Hd|].
        repeat split.
        -- exact Ft.
        -- rewrite Fq. subst d. cbn [pending_data]. now rewrite append_assoc.
        -- intros q' Hq'. rewrite Fo by exact Hq'. now apply upd_other.
        -- rewrite Pp. reflexivity.
        -- intros p' Hp'. rewrite Po by exact Hp'. now apply upd_other.
        -- rewrite Hok. reflexivity.
    + apply Nat.leb_gt in Hle.
      set (piece := substring 0 size d).
      set (rem := substring size (String.length d - size) d).
      assert (Lp : String.length piece = size) by (apply length_substring; lia).
      assert (Lr : String.length rem = (String.length d - size)%nat)
        by (apply length_substring; lia).
      assert (Hcat : piece ++ rem = d) by (apply substring_split; lia).
      cbn [bytes_read_of errno_is data_of andb].
      assert (Hnz : (Z.of_nat (String.length piece) =? -1)%Z = false
                    /\ (Z.of_nat (String.length piece) =? 0)%Z = false)
        by (split; apply Z.eqb_neq; lia).
      destruct Hnz as [-> ->]. cbn [andb orb].
      unfold bind at 1. rewrite Hwrite by exact Hq.
      match goal with |- context [drain E fuel in_fd out_fd size t ?w2] =>
        destruct (IH w2) as (st & w' & Hd & Ft & Fq & Fo & Pp & Po & Hok)
      end.
      { cbn [pipes]. rewrite upd_same. cbn [weight]. simpl in Hlt. lia. }
      { exact Hp. }
      { exact Hq. }
      cbn [fdtab files pipes] in *. repeat rewrite upd_same in *.
      assert (Hd' : exists c d', d = String c d')
        by (destruct d; [simpl in Hle; lia | eauto]).
      assert (Hr' : exists c r', rem = String c r')
        by (destruct rem; [simpl in Lr; lia | eauto]).
      destruct Hd' as (c & d' & Hdd), Hr' as (c' & r' & Hrr).
      exists st, w'. split; [exact Hd|].
      repeat split.
      * exact Ft.
      * rewrite Fq. rewrite Hrr. cbn [pending_data]. rewrite <- Hrr.
        rewrite Hdd. cbn [pending_data]. rewrite <- Hdd.
        rewrite append_assoc. f_equal. rewrite <- append_assoc. now rewrite Hcat.
      * intros q' Hq'. rewrite Fo by exact Hq'. now apply upd_other.
      * rewrite Pp, Hrr, Hdd. reflexivity.
      * intros p' Hp'. rewrite Po by exact Hp'. now apply upd_other.
      * rewrite Hok, Hrr, Hdd. reflexivity.
  - (* a failed read *)
    cbn [bytes_read_of errno_is]. rewrite Z.eqb_refl. cbn [andb orb].
    destruct (e =? EAGAIN)%Z eqn:He; cbn [negb];
      (eexists _, _; split; [reflexivity|]; cbn [fdtab files pipes stop_is_failure];
       rewrite ?He;
       repeat split; [now rewrite append_nil_r | now rewrite upd_same
                     | intros; now apply upd_other]).
Qed.

Lemma CopyCPUBuffer_copies (E : Env) (in_fd out_fd : Z) (p q : string)
    (t : FTraceTracer) (w : World) :
  is_tracing_ t = true -> (0 < buffer_size_ t)%Z ->
  fd_lookup (fdtab w) in_fd = Some p ->
  fd_lookup (fdtab w) out_fd = Some q ->
  (forall h d, env_write E h q d = Z.of_nat (String.length d)) ->
  exists st w',
    CopyCPUBuffer E in_fd out_fd t w = Val st t w'
    /\ fdtab w' = fdtab w
    /\ files w' q = files w q ++ pending_data (pipes w p)
    /\ (forall q', q' <> q -> files w' q' = files w q')
    /\ pipes w' p = after_stop (pipes w p)
    /\ (forall p', p' <> p -> pipes w' p' = pipes w p')
    /\ ok st = negb (stop_is_failure (pipes w p)).
Proof.
  intros Ht Hb Hp Hq Hfull.
  unfold CopyCPUBuffer. monad_unfold. rewrite Ht. cbn [negb].
  destruct (buffer_size_ t <=? 0)%Z eqn:Hle; [apply Z.leb_le in Hle; lia|].
  destruct (drain_copies E in_fd out_fd (Z.to_nat (buffer_size_ t)) p q t
              ltac:(lia) Hfull (S (pending_weight w in_fd)) w)
    as (st & w' & Hd & H); try assumption.
  { unfold pending_weight. rewrite Hp. lia. }
  exists st, w'. split; [exact Hd | exact H].
Qed.

(** X1.  While tracing, with [in_fd] open on a pipe and [out_fd] on a file
    whose writes the kernel takes in full, [CopyCPUBuffer] appends to the
    file exactly the data pending in the pipe, byte for byte and in order,
    whatever the size of the scratch buffer; it leaves every other file and
    pipe as it was, takes out of the pipe what it read, and fails exactly
    when the read that ended the drain failed with an error other than
    [EAGAIN]. *)
Theorem CopyCPUBuffer_copies_pending_data (E : Env) (in_fd out_fd : Z) (p q : string)
    (t : FTraceTracer) (w : World) :
  is_tracing_ t = true -> (0 < buffer_size_ t)%Z ->
  fd_lookup (fdtab w) in_fd = Some p ->
  fd_lookup (fdtab w) out_fd = Some q ->
  (forall h d, env_write E h q d = Z.of_nat (String.length d)) ->
  exists st w',
    CopyCPUBuffer E in_fd out_fd t w = Val st t w'
    /\ files w' q = files w q ++ pending_data (pipes w p)
    /\ (forall q', q' <> q -> files w' q' = files w q')
    /\ pipes w' p = after_stop (pipes w p)
    /\ (forall p', p' <> p -> pipes w' p' = pipes w p')
    /\ ok st = negb (stop_is_failure (pipes w p)).
Proof.
  intros Ht Hb Hp Hq Hfull.
  destruct (CopyCPUBuffer_copies E in_fd out_fd p q t w Ht Hb Hp Hq Hfull)
    as (st & w' & Hd & _ & H).
  exists st, w'. split; [exact Hd | exact H].
Qed.

(** ** Descriptor tables *)

Lemma fd_lookup_remove (tab : list (Z * string)) (fd x : Z) :
  fd_lookup (fd_remove tab fd) x = if (x =? fd)%Z then None else fd_lookup tab x.
Proof.
  induction tab as [|[n p] tab IH]; simpl.
  - now destruct (x =? fd)%Z.
  - destruct (n =? fd)%Z eqn:Hn; simpl.
    + rewrite IH. destruct (x =? fd)%Z eqn:Hx; [reflexivity|].
      apply Z.eqb_eq in Hn. subst n.
      rewrite Z.eqb_sym in Hx. now rewrite Hx.
    + destruct (n =? x)%Z eqn:Hnx.
      * apply Z.eqb_eq in Hnx. subst x. now rewrite Hn.
      * exact IH.
Qed.

Lemma fd_lookup_remove_all (l : list Z) : forall (tab : list (Z * string)) (x : Z),
  fd_lookup (fold_left fd_remove l tab) x
  = if existsb (Z.eqb x) l then None else fd_lookup tab x.
Proof.
  induction l as [|fd l IH]; intros tab x; simpl; [reflexivity|].
  rewrite IH, fd_lookup_remove.
  destruct (x =? fd)%Z; simpl; [now destruct (existsb _ l) | reflexivity].
Qed.

Lemma existsb_eqb_In (x : Z) (l : list Z) : existsb (Z.eqb x) l = true <-> In x l.
Proof.
  rewrite existsb_exists. split.
  - intros (y & Hy & He). apply Z.eqb_eq in He. now subst.
  - intros H. exists x. split; [exact H | apply Z.eqb_refl].
Qed.

Lemma fd_remove_fresh (tab : list (Z * string)) (fd : Z) :
  fd_lookup tab fd = None -> fd_remove tab fd = tab.
Proof.
  induction tab as [|[n p] tab IH]; simpl; intros H; [reflexivity|].
  destruct (n =? fd)%Z; [discriminate|]. simpl. now rewrite IH.
Qed.

(** ** What closing leaves open *)

(** X2.  [ClearCPUFDs] empties [fds_] and closes every descriptor held in
    it, first the read side then the write side of each pair in the order
    of the vector, and no other: every other descriptor is open afterwards
    exactly if it was before, and no file or pipe is touched. *)
Theorem ClearCPUFDs_closes_exactly_fds (t : FTraceTracer) (w : World) :
  exists w',
    ClearCPUFDs t w = Val tt (set_fds [] t) w'
    /\ log w' = (rev (map EvClose (stream_fds (fds_ t))) ++ log w)%list
    /\ (forall fd, In fd (stream_fds (fds_ t)) -> fd_lookup (fdtab w') fd = None)
    /\ (forall fd, ~ In fd (stream_fds (fds_ t)) ->
                   fd_lookup (fdtab w') fd = fd_lookup (fdtab w) fd)
    /\ files w' = files w /\ pipes w' = pipes w.
Proof.
  eexists. split; [apply ClearCPUFDs_spec|]. cbn [log fdtab files pipes].
  split; [reflexivity | split; [|split; [|split; reflexivity]]].
  - intros fd Hin. rewrite fd_lookup_remove_all.
    apply existsb_eqb_In in Hin. now rewrite Hin.
  - intros fd Hin. rewrite fd_lookup_remove_all.
    destruct (existsb (Z.eqb fd) (stream_fds (fds_ t))) eqn:He; [|reflexivity].
    apply existsb_eqb_In in He. contradiction.
Qed.

(** The two ways [StopTrace] ends a trace. *)
Lemma StopTrace_outcome (E : Env) (final_copy : bool) (t : FTraceTracer) (w : World)
    (st : Status) (t' : FTraceTracer) (w' : World) :
  is_tracing_ t = true ->
  StopTrace E final_copy t w = Val st t' w' ->
  clock w' = clock w /\
  ((ok st = true /\ t' = set_is_tracing false (set_fds [] t) /\
    fdtab w' = fd_remove (fold_left fd_remove (stream_fds (fds_ t)) (fdtab w)) (free_fd_ t))
   \/
   (ok st = false /\ t' = set_is_tracing false t /\
    fdtab w' = fd_remove (fdtab w) (free_fd_ t))).
Proof.
  intros Ht. unfold StopTrace. monad_unfold. rewrite Ht. cbn [negb].
  destruct (WriteString_cases E (kernel_trace_root_ t // "tracing_on") "0" t w)
    as (s1 & o & b1 & f1 & fs & Hw & Hok & Hbad & Hgood & _).
  rewrite Hw. rewrite Hok.
  destruct b1; cbn [negb].
  - unfold sys_close. intros H; inversion H; subst. split; [reflexivity|]. right.
    rewrite Hok. repeat split.
  - rewrite (Hgood eq_refl) in *.
    destruct final_copy.
    + match goal with |- context [CopyCPUBuffers E t ?w1] =>
        destruct (CopyCPUBuffers E t w1) as [s2 t2 w2|] eqn:Hc; [|discriminate]
      end.
      apply CopyCPUBuffers_val in Hc.
      destruct Hc as (-> & (Fd & Cl & _) & _). cbn [fdtab clock] in Fd, Cl.
      destruct (ok s2) eqn:Hs2; cbn [negb].
      * rewrite ClearCPUFDs_spec. unfold sys_close.
        intros H; inversion H; subst. cbn [clock]. split; [exact Cl|].
        left. cbn [fdtab free_fd_ set_fds].
        rewrite Fd. repeat split. exact Hs2.
      * unfold sys_close. intros H; inversion H; subst. cbn [clock]. split; [exact Cl|].
        right. cbn [fdtab].
        rewrite Fd. repeat split. exact Hs2.
    + rewrite ClearCPUFDs_spec. unfold sys_close.
      intros H; inversion H; subst. split; [reflexivity|]. left. repeat split.
Qed.

(** X3.  When [StopTrace], called in a trace, returns ok, the session is no
    longer tracing, [fds_] is empty, and the guard descriptor and every
    descriptor that was in [fds_] are closed; every other descriptor is
    open exactly if it was before. *)
Theorem StopTrace_ok_closes_streams_and_guard (E : Env) (final_copy : bool)
    (t : FTraceTracer) (w : World) (st : Status) (t' : FTraceTracer) (w' : World) :
  is_tracing_ t = true ->
  StopTrace E final_copy t w = Val st t' w' ->
  ok st = true ->
  is_tracing_ t' = false /\ fds_ t' = [] /\
  (forall fd, In fd (free_fd_ t :: stream_fds (fds_ t)) -> fd_lookup (fdtab w') fd = None) /\
  (forall fd, ~ In fd (free_fd_ t :: stream_fds (fds_ t)) ->
              fd_lookup (fdtab w') fd = fd_lookup (fdtab w) fd).
Proof.
  intros Ht Hs Hok.
  destruct (StopTrace_outcome E final_copy t w st t' w' Ht Hs)
    as (_ & [(_ & -> & Fd) | (Hno & _)]); [|congruence].
  split; [reflexivity | split; [reflexivity|]]. rewrite Fd.
  split; intros fd Hin; rewrite fd_lookup_remove, fd_lookup_remove_all.
  - destruct Hin as [<- | Hin]; [now rewrite Z.eqb_refl|].
    apply existsb_eqb_In in Hin. rewrite Hin. now destruct (fd =? free_fd_ t)%Z.
  - destruct (fd =? free_fd_ t)%Z eqn:He.
    + apply Z.eqb_eq in He. elim Hin. now left.
    + destruct (existsb (Z.eqb fd) (stream_fds (fds_ t))) eqn:Hx; [|reflexivity].
      apply existsb_eqb_In in Hx. elim Hin. now right.
Qed.

(** X4.  When [StopTrace], called in a trace, returns a failure (the write
    of "0" to [tracing_on] or the final copy failed), the session is no
    longer tracing and the guard descriptor is closed, but [fds_] is kept as
    it was and no stream descriptor is closed: every descriptor other than
    the guard is open exactly if it was before. *)
Theorem StopTrace_failure_keeps_streams_open (E : Env) (final_copy : bool)
    (t : FTraceTracer) (w : World) (st : Status) (t' : FTraceTracer) (w' : World) :
  is_tracing_ t = true ->
  StopTrace E final_copy t w = Val st t' w' ->
  ok st = false ->
  is_tracing_ t' = false /\ fds_ t' = fds_ t /\
  fd_lookup (fdtab w') (free_fd_ t) = None /\
  (forall fd, fd <> free_fd_ t -> fd_lookup (fdtab w') fd = fd_lookup (fdtab w) fd).
Proof.
  intros Ht Hs Hok.
  destruct (StopTrace_outcome E final_copy t w st t' w' Ht Hs)
    as (_ & [(Hyes & _) | (_ & -> & Fd)]); [congruence|].
  split; [reflexivity | split; [reflexivity|]]. rewrite Fd. split.
  - rewrite fd_lookup_remove. now rewrite Z.eqb_refl.
  - intros fd Hne. rewrite fd_lookup_remove.
    apply Z.eqb_neq in Hne. now rewrite Hne.
Qed.

Lemma closes_are_no_drain_events (l : list Z) :
  existsb drain_event (rev (map EvClose l)) = false.
Proof.
  induction l as [|fd l IH]; simpl; [reflexivity|].
  rewrite existsb_app, IH. reflexivity.
Qed.

(** X5.  The destructor of a session that is tracing always returns; it
    stops the trace without a final copy: among its calls there is no
    [read], no [write] and no [get_nprocs], the guard descriptor is closed
    and the session is no longer tracing; no file other than [tracing_on]
    is changed. *)
Theorem dtor_stops_without_draining (E : Env) (t : FTraceTracer) (w : World) :
  is_tracing_ t = true ->
  exists t' w' new,
    FTraceTracer_dtor E t w = Val tt t' w'
    /\ is_tracing_ t' = false
    /\ log w' = (new ++ log w)%list
    /\ existsb drain_event new = false
    /\ fd_lookup (fdtab w') (free_fd_ t) = None
    /\ (forall p, p <> kernel_trace_root_ t // "tracing_on" -> files w' p = files w p).
Proof.
  intros Ht. unfold FTraceTracer_dtor, StopTrace. monad_unfold. rewrite Ht. cbn [negb].
  destruct (WriteString_cases E (kernel_trace_root_ t // "tracing_on") "0" t w)
    as (s1 & o & b1 & f1 & fs & Hw & Hok & _ & _ & _ & Hfs).
  rewrite Hw, Hok.
  destruct b1; cbn [negb].
  - unfold sys_close. eexists _, _, [_; _]. split; [reflexivity|].
    cbn [log fdtab files is_tracing_ set_is_tracing].
    repeat split; try assumption.
    rewrite fd_lookup_remove. now rewrite Z.eqb_refl.
  - rewrite ClearCPUFDs_spec. unfold sys_close.
    eexists _, _, (EvClose (free_fd_ t) :: rev (map EvClose (stream_fds (fds_ t))) ++ [_])%list.
    split; [reflexivity|].
    cbn [log fdtab files is_tracing_ set_is_tracing set_fds free_fd_].
    repeat split; try assumption.
    + cbn [app]. rewrite <- app_assoc. reflexivity.
    + cbn [existsb drain_event]. rewrite existsb_app. cbn [existsb drain_event].
      rewrite orb_false_r. apply closes_are_no_drain_events.
    + rewrite fd_lookup_remove. now rewrite Z.eqb_refl.
Qed.

(** ** Fresh descriptors *)

Lemma NoDup_remove_nat (x : nat) (l : list nat) :
  NoDup l -> NoDup (remove Nat.eq_dec x l)
             /\ (List.length l <= S (List.length (remove Nat.eq_dec x l)))%nat.
Proof.
  induction 1 as [|a l Ha Hl [IH1 IH2]]; simpl.
  - split; [constructor | lia].
  - destruct (Nat.eq_dec x a) as [->|Hne].
    + rewrite notin_remove by exact Ha. split; [exact Hl | lia].
    + split; [|simpl; lia].
      constructor; [|exact IH1].
      intros Hin. apply in_remove in Hin. now destruct Hin.
Qed.

Lemma some_descriptor_is_free (tab : list (Z * string)) : forall l : list nat,
  NoDup l -> (List.length tab < List.length l)%nat ->
  exists x, In x l /\ fd_lookup tab (Z.of_nat x) = None.
Proof.
  induction tab as [|[n p] tab IH]; intros l Hnd Hlen.
  - destruct l as [|x l]; [simpl in Hlen; lia|]. exists x. split; [now left | reflexivity].
  - destruct (NoDup_remove_nat (Z.to_nat n) l Hnd) as [Hnd' Hlen'].
    destruct (IH (remove Nat.eq_dec (Z.to_nat n) l) Hnd') as (x & Hin & Hx).
    { simpl in Hlen. lia. }
    apply in_remove in Hin. destruct Hin as [Hin Hne].
    exists x. split; [exact Hin|]. simpl.
    destruct (n =? Z.of_nat x)%Z eqn:He; [|exact Hx].
    apply Z.eqb_eq in He. subst n. rewrite Nat2Z.id in Hne. now elim Hne.
Qed.

(** The descriptor [open] hands out is not negative and was not open. *)
Lemma lowest_free_fresh (tab : list (Z * string)) :
  (0 <= lowest_free tab)%Z /\ fd_lookup tab (lowest_free tab) = None.
Proof.
  unfold lowest_free.
  destruct (find _ _) as [n|] eqn:Hf.
  - apply find_some in Hf. destruct Hf as [Hin Hn].
    apply in_map_iff in Hin. destruct Hin as (k & <- & _).
    split; [lia|]. now destruct (fd_lookup tab (Z.of_nat k)).
  - exfalso.
    destruct (some_descriptor_is_free tab (seq 0 (S (List.length tab))))
      as (x & Hin & Hx).
    { apply seq_NoDup. }
    { rewrite length_seq. lia. }
    assert (Hin' : In (Z.of_nat x) (map Z.of_nat (seq 0 (S (List.length tab)))))
      by (apply in_map; exact Hin).
    pose proof (find_none _ _ Hf _ Hin') as Hn. cbv beta in Hn.
    rewrite Hx in Hn. discriminate.
Qed.

Lemma sys_open_fresh (E : Env) (path : string) (flags : list OFlag)
    (t : FTraceTracer) (w : World) :
  exists fd w', sys_open E path flags t w = Val fd t w'
    /\ log w' = EvOpen path flags fd :: log w
    /\ pipes w' = pipes w /\ clock w' = clock w
    /\ (fd = (-1)%Z /\ fdtab w' = fdtab w /\ files w' = files w
        \/ (0 <= fd)%Z /\ fd_lookup (fdtab w) fd = None
           /\ fdtab w' = (fd, path) :: fdtab w).
Proof.
  unfold sys_open. destruct (env_open E (log w) path flags).
  - do 2 eexists. split; [reflexivity|]. repeat split. right.
    destruct (lowest_free_fresh (fdtab w)) as [H0 H1]. repeat split; assumption.
  - do 2 eexists. split; [reflexivity|]. repeat split. left. repeat split.
Qed.

(** ** Descriptors and content of configuration *)

Lemma write_events_descriptors (E : Env) (fd : Z) (events_path : string) :
  forall l t w,
  exists r w',
    write_events E fd events_path l t w = Val r t w'
    /\ pipes w' = pipes w /\ clock w' = clock w
    /\ fdtab w' = match r with None => fdtab w | Some _ => fd_remove (fdtab w) fd end.
Proof.
  induction l as [|event l IH]; intros t w; cbn [write_events].
  - exists None, w. repeat split.
  - unfold bind at 1.
    destruct (sys_write_grows E fd event t w) as (n & w1 & Hw & _ & F1 & C1 & P1 & _).
    rewrite Hw.
    destruct (to_unsigned n =? Z.of_nat (String.length event))%Z; cbn [negb].
    + destruct (IH t w1) as (r & w' & Hr & P & C & F).
      exists r, w'. split; [exact Hr|]. rewrite P, C, F, P1, C1, F1. repeat split.
    + unfold bind at 1. unfold sys_close at 1. unfold ret.
      eexists _, _. split; [reflexivity|]. cbn [pipes clock fdtab].
      rewrite P1, C1, F1. repeat split.
Qed.

Lemma EnableEvents_restores_table (E : Env) (t : FTraceTracer) (w : World) :
  is_tracing_ t = false ->
  exists st w',
    EnableEvents E t w = Val st t w'
    /\ fdtab w' = fdtab w /\ pipes w' = pipes w /\ clock w' = clock w.
Proof.
  intros Ht. unfold EnableEvents.
  unfold bind at 1. unfold gets at 1. rewrite Ht.
  unfold bind at 1. unfold gets at 1. cbv zeta.
  destruct (sys_open_fresh E (kernel_trace_root_ t // "set_event") [O_WRONLY; O_TRUNC] t w)
    as (efd & w1 & Ho & _ & P1 & C1 & Hfd).
  unfold bind at 1. rewrite Ho.
  destruct Hfd as [(-> & F1 & _) | (Hpos & Hfresh & F1)].
  - cbn. eexists _, _. split; [reflexivity|]. repeat split; assumption.
  - destruct (efd <? 0)%Z eqn:Hneg; [apply Z.ltb_lt in Hneg; lia|].
    unfold bind at 1. unfold gets at 1. unfold bind at 1.
    destruct (write_events_descriptors E efd (kernel_trace_root_ t // "set_event")
                (events_ t) t w1) as (r & w2 & Hr & P2 & C2 & F2).
    rewrite Hr.
    assert (Hback : fd_remove (fdtab w1) efd = fdtab w).
    { rewrite F1. unfold fd_remove. cbn [filter fst]. rewrite Z.eqb_refl. cbn [negb].
      now apply fd_remove_fresh. }
    destruct r as [e|].
    + unfold ret. eexists _, _. split; [reflexivity|].
      rewrite F2, P2, C2, Hback. repeat split; assumption.
    + unfold bind at 1. unfold sys_close at 1. unfold ret.
      eexists _, _. split; [reflexivity|]. cbn [fdtab pipes clock].
      rewrite F2, P2, C2, Hback. repeat split; assumption.
Qed.

(** X6.  [EnableEvents] leaves no descriptor behind: whether it refuses
    because a trace is running, the open of [set_event] fails, a write
    fails or all succeed, it returns with the table of open descriptors as
    it found it and the session object unchanged. *)
Theorem EnableEvents_leaks_no_descriptor (E : Env) (t : FTraceTracer) (w : World) :
  exists st w', EnableEvents E t w = Val st t w' /\ fdtab w' = fdtab w.
Proof.
  destruct (is_tracing_ t) eqn:Ht.
  - exists (InternalError "Already Tracing"), w. split; [|reflexivity].
    unfold EnableEvents. monad_unfold. now rewrite Ht.
  - destruct (EnableEvents_restores_table E t w Ht) as (st & w' & He & F & _).
    exists st, w'. split; assumption.
Qed.

Lemma to_unsigned_small (n : nat) :
  (Z.of_nat n < 2 ^ 32)%Z -> to_unsigned (Z.of_nat n) = Z.of_nat n.
Proof. intros H. unfold to_unsigned. apply Z.mod_small. lia. Qed.

Lemma write_events_content (E : Env) (fd : Z) (events_path q : string) :
  (forall h d, env_write E h q d = Z.of_nat (String.length d)) ->
  forall l t w,
    Forall (fun event => (Z.of_nat (String.length event) < 2 ^ 32)%Z) l ->
    fd_lookup (fdtab w) fd = Some q ->
    exists w',
      write_events E fd events_path l t w = Val None t w'
      /\ fdtab w' = fdtab w
      /\ files w' q = files w q ++ concat_all l
      /\ (forall q', q' <> q -> files w' q' = files w q').
Proof.
  intros Hfull. induction l as [|event l IH]; intros t w Hshort Hq; cbn [write_events].
  - exists w. repeat split. cbn. now rewrite append_nil_r.
  - inversion Hshort as [|? ? Hev Hl]; subst.
    unfold bind at 1. unfold sys_write. rewrite Hq, Hfull.
    replace ((0 <=? Z.of_nat (String.length event))%Z
             && (Z.of_nat (String.length event) <=? Z.of_nat (String.length event))%Z)
      with true by (symmetry; apply andb_true_intro; split; apply Z.leb_le; lia).
    rewrite to_unsigned_small by exact Hev. rewrite Z.eqb_refl. cbn [negb].
    rewrite Nat2Z.id, substring_all.
    match goal with |- context [write_events E fd events_path l t ?w1] =>
      destruct (IH t w1 Hl) as (w' & Hr & F & Fq & Fo)
    end.
    { exact Hq. }
    cbn [fdtab files] in *. rewrite upd_same in Fq.
    exists w'. split; [exact Hr | split; [exact F | split]].
    + rewrite Fq. cbn [concat_all fold_right]. now rewrite append_assoc.
    + intros q' Hq'. rewrite Fo by exact Hq'. now apply upd_other.
Qed.

Lemma EnableEvents_full_write (E : Env) (t : FTraceTracer) (w : World) :
  is_tracing_ t = false ->
  env_open E (log w) (kernel_trace_root_ t // "set_event") [O_WRONLY; O_TRUNC] = true ->
  (forall h d, env_write E h (kernel_trace_root_ t // "set_event") d
               = Z.of_nat (String.length d)) ->
  Forall (fun event => (Z.of_nat (String.length event) < 2 ^ 32)%Z) (events_ t) ->
  exists w',
    EnableEvents E t w = Val OkStatus t w'
    /\ files w' (kernel_trace_root_ t // "set_event") = concat_all (events_ t)
    /\ (forall q, q <> kernel_trace_root_ t // "set_event" -> files w' q = files w q)
    /\ fdtab w' = fdtab w.
Proof.
  intros Ht Hopen Hfull Hshort. unfold EnableEvents.
  unfold bind at 1. unfold gets at 1. rewrite Ht.
  unfold bind at 1. unfold gets at 1. cbv zeta.
  unfold bind at 1. unfold sys_open at 1. rewrite Hopen. cbn [existsb OFlag_eqb orb].
  destruct (lowest_free_fresh (fdtab w)) as [Hpos Hfresh].
  destruct (lowest_free (fdtab w) <? 0)%Z eqn:Hneg; [apply Z.ltb_lt in Hneg; lia|].
  unfold bind at 1. unfold gets at 1. unfold bind at 1.
  match goal with |- context [write_events E ?fd ?ep (events_ t) t ?w1] =>
    destruct (write_events_content E fd ep ep Hfull (events_ t) t w1 Hshort)
      as (w2 & Hr & Ft & Fq & Fo)
  end.
  { cbn [fdtab fd_lookup]. now rewrite Z.eqb_refl. }
  rewrite Hr. unfold bind at 1. unfold sys_close at 1. unfold ret.
  eexists. split; [reflexivity|]. cbn [files fdtab] in *. split; [|split].
  - rewrite Fq, upd_same. reflexivity.
  - intros q Hq. rewrite Fo by exact Hq. now apply upd_other.
  - rewrite Ft. unfold fd_remove. cbn [filter fst]. rewrite Z.eqb_refl. cbn [negb].
    now apply fd_remove_fresh.
Qed.

(** X7.  When [set_event] opens and the kernel takes every write in full,
    [EnableEvents] returns ok and the file holds the configured event
    identifiers one after the other, in the configured order and with
    nothing between them, in place of what it held before; no other file
    is changed.  (An identifier is shorter than 2^32 bytes.) *)
Theorem EnableEvents_writes_events_in_order (E : Env) (t : FTraceTracer) (w : World) :
  is_tracing_ t = false ->
  env_open E (log w) (kernel_trace_root_ t // "set_event") [O_WRONLY; O_TRUNC] = true ->
  (forall h d, env_write E h (kernel_trace_root_ t // "set_event") d
               = Z.of_nat (String.length d)) ->
  Forall (fun event => (Z.of_nat (String.length event) < 2 ^ 32)%Z) (events_ t) ->
  exists w',
    EnableEvents E t w = Val OkStatus t w'
    /\ files w' (kernel_trace_root_ t // "set_event") = concat_all (events_ t)
    /\ (forall q, q <> kernel_trace_root_ t // "set_event" -> files w' q = files w q).
Proof.
  intros Ht Hopen Hfull Hshort.
  destruct (EnableEvents_full_write E t w Ht Hopen Hfull Hshort) as (w' & H1 & H2 & H3 & _).
  exists w'. split; [exact H1 | split; [exact H2 | exact H3]].
Qed.

(** What [ConfigureFTrace] leaves open. *)
Lemma ConfigureFTrace_descriptors (E : Env) (t : FTraceTracer) (w : World)
    (st : Status) (t' : FTraceTracer) (w' : World) :
  is_tracing_ t = false ->
  ConfigureFTrace E t w = Val st t' w' ->
  pipes w' = pipes w /\ clock w' = clock w /\
  ((ok st = false /\ fdtab w' = fdtab w /\ (t' = t \/ t' = set_free_fd (-1) t))
   \/
   exists guard_fd,
     (0 <= guard_fd)%Z /\ fd_lookup (fdtab w) guard_fd = None /\
     t' = set_free_fd guard_fd t /\
     fdtab w' = (guard_fd, kernel_trace_root_ t // "free_buffer") :: fdtab w).
Proof.
  intros Ht. unfold ConfigureFTrace.
  unfold bind at 1. unfold gets at 1. rewrite Ht.
  unfold bind at 1. unfold gets at 1.
  write_string_step E (kernel_trace_root_ t // "tracing_on") "0" t w s1 o1 b1 f1 H1.
  { unfold ret. intros H; inversion H; subst. cbn [pipes clock fdtab].
    split; [reflexivity | split; [reflexivity|]]. left. repeat split. now left. }
  match type of H1 with _ = Val _ _ ?w1 => set (wa := w1) in * end.
  destruct (sys_open_fresh E (kernel_trace_root_ t // "free_buffer") [O_RDONLY] t wa)
    as (gfd & wb & Hg & _ & Pb & Cb & Hgfd).
  unfold bind at 1. rewrite Hg. unfold bind at 1. unfold modify at 1.
  destruct Hgfd as [(-> & Fb & _) | (Hpos & Hfresh & Fb)].
  { cbn. intros H; inversion H; subst.
    rewrite Pb, Cb, Fb. split; [reflexivity | split; [reflexivity|]].
    left. repeat split. now right. }
  destruct (gfd <? 0)%Z eqn:Hneg; [apply Z.ltb_lt in Hneg; lia|].
  set (t2 := set_free_fd gfd t).
  assert (Hright : forall wz, pipes wz = pipes wb -> clock wz = clock wb ->
                     fdtab wz = fdtab wb ->
                     pipes wz = pipes w /\ clock wz = clock w /\
                     ((ok st = false /\ fdtab wz = fdtab w /\ (t2 = t \/ t2 = set_free_fd (-1) t))
                      \/ exists guard_fd,
                          (0 <= guard_fd)%Z /\ fd_lookup (fdtab w) guard_fd = None /\
                          t2 = set_free_fd guard_fd t /\
                          fdtab wz = (guard_fd, kernel_trace_root_ t // "free_buffer")
                                       :: fdtab w)).
  { intros wz Pz Cz Fz. rewrite Pz, Cz, Fz, Pb, Cb, Fb.
    split; [reflexivity | split; [reflexivity|]].
    right. exists gfd. repeat split; assumption. }
  write_string_step E (kernel_trace_root_ t // "current_tracer") "nop" t2 wb s3 o3 b3 f3 H3.
  { unfold ret. intros H; inversion H; subst. now apply Hright. }
  match type of H3 with _ = Val _ _ ?w1 => set (wc := w1) in * end.
  write_string_step E (kernel_trace_root_ t // "trace_options") "disable_on_free"
                    t2 wc s4 o4 b4 f4 H4.
  { unfold ret. intros H; inversion H; subst. now apply Hright. }
  match type of H4 with _ = Val _ _ ?w1 => set (wd := w1) in * end.
  unfold bind at 1. unfold gets at 1.
  write_string_step E (kernel_trace_root_ t // "buffer_size_kb")
                    (to_string (buffer_size_ t2)) t2 wd s5 o5 b5 f5 H5.
  { unfold ret. intros H; inversion H; subst. now apply Hright. }
  match type of H5 with _ = Val _ _ ?w1 => set (we := w1) in * end.
  destruct (EnableEvents_restores_table E t2 we Ht) as (s6 & w6 & He & F6 & P6 & C6).
  unfold bind at 1. rewrite He.
  destruct (ok s6); cbn [negb]; unfold ret; intros H; inversion H; subst;
    apply Hright; assumption.
Qed.

(** ** The descriptors of the streams *)

Lemma fd_lookup_None_keys (tab : list (Z * string)) (fd : Z) :
  fd_lookup tab fd = None <-> ~ In fd (map fst tab).
Proof.
  induction tab as [|[n p] tab IH]; simpl.
  - split; [intros _ [] | reflexivity].
  - destruct (n =? fd)%Z eqn:He.
    + apply Z.eqb_eq in He. split; [discriminate | intros H; elim H; now left].
    + apply Z.eqb_neq in He. rewrite IH. tauto.
Qed.

Lemma fd_lookup_In (tab : list (Z * string)) (k : Z) (v : string) :
  NoDup (map fst tab) -> In (k, v) tab -> fd_lookup tab k = Some v.
Proof.
  induction tab as [|[n p] tab IH]; simpl; intros Hnd Hin; [contradiction|].
  inversion Hnd as [|? ? Hn Hnd']; subst.
  destruct Hin as [Heq | Hin].
  - inversion Heq; subst. now rewrite Z.eqb_refl.
  - destruct (n =? k)%Z eqn:He; [|now apply IH].
    apply Z.eqb_eq in He. subst n. elim Hn.
    change k with (fst (k, v)). now apply in_map.
Qed.

Lemma fd_lookup_app (a b : list (Z * string)) (fd : Z) :
  fd_lookup (a ++ b)%list fd
  = match fd_lookup a fd with Some p => Some p | None => fd_lookup b fd end.
Proof.
  induction a as [|[n p] a IH]; simpl; [reflexivity|].
  now destruct (n =? fd)%Z.
Qed.

Lemma fd_remove_app (a b : list (Z * string)) (fd : Z) :
  fd_remove (a ++ b)%list fd = (fd_remove a fd ++ fd_remove b fd)%list.
Proof. unfold fd_remove. apply filter_app. Qed.

Lemma remove_all_added (L : list Z) : forall (added tab : list (Z * string)),
  (forall fd, In fd (map fst added) -> In fd L) ->
  (forall fd, In fd L -> fd_lookup tab fd = None) ->
  fold_left fd_remove L (added ++ tab)%list = tab.
Proof.
  induction L as [|x L IH]; intros added tab Hsub Hfresh; simpl.
  - destruct added as [|e added]; [reflexivity|].
    elim (Hsub (fst e)). now left.
  - rewrite fd_remove_app, (fd_remove_fresh tab x) by (apply Hfresh; now left).
    apply IH.
    + intros fd Hin. apply in_map_iff in Hin. destruct Hin as ([n p] & <- & Hin).
      unfold fd_remove in Hin. apply filter_In in Hin. destruct Hin as [Hin Hne].
      cbn [fst] in *. apply negb_true_iff, Z.eqb_neq in Hne.
      destruct (Hsub n) as [Hx | HL]; [ | congruence | exact HL].
      change n with (fst (n, p)). now apply in_map.
    + intros fd Hin. apply Hfresh. now right.
Qed.

Lemma set_fds_set_fds (l l' : list (Z * Z)) (t : FTraceTracer) :
  set_fds l (set_fds l' t) = set_fds l t.
Proof. reflexivity. Qed.

(** Everything the loop that opens the streams does to the session. *)
Lemma open_streams_outcome (E : Env) (out : string) :
  forall n i t w,
  exists r w' new added,
    open_streams E n i out t w = Val r (set_fds (fds_ t ++ new)%list t) w'
    /\ fdtab w' = (added ++ fdtab w)%list
    /\ pipes w' = pipes w /\ clock w' = clock w
    /\ (forall fd, In fd (map fst added) -> fd_lookup (fdtab w) fd = None)
    /\ NoDup (map fst added)
    /\ incl (stream_fds new) (map fst added)
    /\ (forall e, r = Some e -> ok e = false)
    /\ (r = None ->
        List.length new = n /\ map fst added = rev (stream_fds new) /\
        forall k a b, nth_error new k = Some (a, b) ->
          In (a, cpu_pipe_path (kernel_trace_root_ t) (i + k)) added /\
          In (b, cpu_file_path out (i + k)) added).
Proof.
  induction n as [|n IH]; intros i t w; cbn [open_streams].
  - exists None, w, [], []. rewrite app_nil_r.
    split; [destruct t; reflexivity|].
    split; [reflexivity | split; [reflexivity | split; [reflexivity|]]].
    split; [intros fd [] | split; [constructor | split; [intros x []|]]].
    split; [discriminate|].
    intros _. split; [reflexivity | split; [reflexivity|]].
    intros k a b H. destruct k; discriminate.
  - unfold bind at 1. unfold gets at 1. cbv zeta. unfold bind at 1.
    fold (cpu_pipe_path (kernel_trace_root_ t) i). fold (cpu_file_path out i).
    destruct (sys_open_fresh E (cpu_pipe_path (kernel_trace_root_ t) i)
                [O_RDONLY; O_NONBLOCK] t w) as (fd1 & w1 & H1 & _ & P1 & C1 & Hfd1).
    rewrite H1.
    destruct Hfd1 as [(-> & F1 & _) | (Hpos1 & Hfresh1 & F1)].
    { cbn. exists (Some (InternalError ("Unable to open "
                                          ++ cpu_pipe_path (kernel_trace_root_ t) i))),
             w1, [], []. rewrite app_nil_r.
      split; [destruct t; reflexivity|].
      repeat split; try assumption; try constructor; try discriminate.
      - intros fd [].
      - intros x [].
      - intros e He. now inversion He. }
    destruct (fd1 =? -1)%Z eqn:He1; [apply Z.eqb_eq in He1; lia|].
    unfold bind at 1.
    destruct (sys_open_fresh E (cpu_file_path out i)
                [O_CREAT; O_WRONLY; O_TRUNC; O_LARGEFILE] t w1)
      as (fd2 & w2 & H2 & _ & P2 & C2 & Hfd2).
    rewrite H2.
    destruct Hfd2 as [(-> & F2 & _) | (Hpos2 & Hfresh2 & F2)].
    { cbn. exists (Some (InternalError ("Unable to create " ++ cpu_file_path out i))),
             w2, [], [(fd1, cpu_pipe_path (kernel_trace_root_ t) i)].
      rewrite app_nil_r.
      split; [destruct t; reflexivity|].
      rewrite F2, F1, P2, P1, C2, C1.
      repeat split; try discriminate.
      - intros fd [<- | []]. exact Hfresh1.
      - constructor; [intros [] | constructor].
      - intros x [].
      - intros e He. now inversion He. }
    destruct (fd2 =? -1)%Z eqn:He2; [apply Z.eqb_eq in He2; lia|].
    unfold bind at 1. unfold modify at 1.
    destruct (IH (S i) (set_fds (fds_ t ++ [(fd1, fd2)])%list t) w2)
      as (r & w' & new & added & Hr & F & P & C & Hfresh & Hnd & Hincl & Hsome & Hnone).
    cbn [fds_ set_fds kernel_trace_root_] in Hr, Hnone.
    rewrite set_fds_set_fds, <- app_assoc in Hr. cbn [app] in Hr.
    rewrite F1 in Hfresh2. cbn [fd_lookup] in Hfresh2.
    destruct (fd1 =? fd2)%Z eqn:H12; [discriminate|]. apply Z.eqb_neq in H12.
    assert (Hfr : forall fd, In fd (map fst added) ->
                    fd <> fd2 /\ fd <> fd1 /\ fd_lookup (fdtab w) fd = None).
    { intros fd Hin. apply Hfresh in Hin. rewrite F2, F1 in Hin. cbn [fd_lookup] in Hin.
      destruct (fd2 =? fd)%Z eqn:Ha; [discriminate|].
      destruct (fd1 =? fd)%Z eqn:Hb; [discriminate|].
      apply Z.eqb_neq in Ha, Hb. repeat split; congruence. }
    exists r, w', ((fd1, fd2) :: new)%list,
      (added ++ [(fd2, cpu_file_path out i); (fd1, cpu_pipe_path (kernel_trace_root_ t) i)])%list.
    split; [exact Hr|].
    split; [rewrite F, F2, F1, <- app_assoc; reflexivity|].
    split; [congruence | split; [congruence|]].
    split; [|split; [|split; [|split; [exact Hsome|]]]].
    + intros fd Hin. rewrite map_app in Hin. apply in_app_or in Hin.
      destruct Hin as [Hin | [<- | [<- | []]]]; [now apply Hfr | exact Hfresh2 | exact Hfresh1].
    + rewrite map_app. cbn [map fst].
      assert (Hnd2 : NoDup [fd2; fd1]).
      { constructor; [intros [Hx | []]; congruence | constructor; [intros [] | constructor]]. }
      clear -Hnd Hnd2 Hfr.
      induction added as [|[k v] added IHa]; cbn [map fst app] in *; [exact Hnd2|].
      inversion Hnd as [|? ? Hk Hnd']; subst.
      constructor.
      * intros Hin. apply in_app_or in Hin. destruct Hin as [Hin | [Hx | [Hx | []]]].
        -- contradiction.
        -- destruct (Hfr k) as (Hk2 & _); [now left | congruence].
        -- destruct (Hfr k) as (_ & Hk1 & _); [now left | congruence].
      * apply IHa; [exact Hnd'|]. intros fd Hin. apply Hfr. now right.
    + intros x Hin. cbn [stream_fds flat_map fst snd app] in Hin.
      rewrite map_app. apply in_or_app.
      destruct Hin as [<- | [<- | Hin]].
      * right. cbn. tauto.
      * right. cbn. tauto.
      * left. now apply Hincl.
    + intros ->. destruct (Hnone eq_refl) as (Hlen & Hkeys & Hpaths).
      split; [cbn [List.length]; lia | split].
      * rewrite map_app, Hkeys. cbn [stream_fds flat_map map fst snd app rev].
        rewrite <- app_assoc. reflexivity.
      * intros k a b Hk. destruct k as [|k].
        -- cbn in Hk. inversion Hk; subst. rewrite Nat.add_0_r.
           split; apply in_or_app; right; cbn; tauto.
        -- cbn [nth_error] in Hk. destruct (Hpaths k a b Hk) as [Ha Hb].
           replace (i + S k)%nat with (S i + k)%nat by lia.
           split; apply in_or_app; left; assumption.
Qed.

(** ** The start of a capture *)

Lemma CollectTrace_start_outcome (E : Env) (t : FTraceTracer) (w : World) :
  is_tracing_ t = false ->
  match CollectTrace_start E t w with
  | Stuck f => f = FilesystemError (temp_path_ t // "traces")
  | Val r t1 w1 =>
       match r with
       | inl e => ok e = false /\ is_tracing_ t1 = false /\ free_fd_ t1 = free_fd_ t
       | inr start_time =>
           exists new added pre,
             t1 = set_is_tracing true (set_fds new t)
             /\ fdtab w1
                = (added ++ fold_left fd_remove (stream_fds (fds_ t)) (fdtab w))%list
             /\ map fst added = rev (stream_fds new)
             /\ NoDup (map fst added)
             /\ (forall fd, In fd (map fst added) ->
                   fd_lookup (fold_left fd_remove (stream_fds (fds_ t)) (fdtab w)) fd = None)
             /\ List.length new = env_nprocs E (pre ++ log w)%list
             /\ (forall k a b, nth_error new k = Some (a, b) ->
                   In (a, cpu_pipe_path (kernel_trace_root_ t) k) added /\
                   In (b, cpu_file_path (temp_path_ t // "traces") k) added)
             /\ clock w1 = (start_time + 100)%Z
       end
  end.
Proof.
  intros Ht. unfold CollectTrace_start. unfold bind at 1. unfold gets at 1. rewrite Ht.
  unfold bind at 1. unfold gets at 1. cbv zeta.
  unfold bind at 1. unfold fs_exists at 1.
  unfold bind at 1.
  match goal with |- context [(if ?b then ret true else ?m) t ?w1] =>
    assert (Hmk : (exists made w2 pre,
                     (if b then ret true else m) t w1 = Val made t w2
                     /\ log w2 = (pre ++ log w)%list /\ fdtab w2 = fdtab w)
                  \/ (if b then ret true else m) t w1
                     = Stuck (FilesystemError (temp_path_ t // "traces")))
  end.
  { destruct (env_exists E (log w) (temp_path_ t // "traces")).
    - left. eexists _, _, [_]. split; [reflexivity|]. split; reflexivity.
    - unfold create_directories.
      match goal with |- context [env_mkdirs E ?h ?p] =>
        destruct (env_mkdirs E h p)
      end.
      + left. eexists _, _, [_; _]. split; [reflexivity|]. split; reflexivity.
      + right. reflexivity. }
  destruct Hmk as [(made & w2 & pre & Hmk & L2 & F2) | Hmk]; rewrite Hmk;
    [|reflexivity].
  destruct made; cbn [negb].
  2:{ unfold ret. cbv beta iota. repeat split. exact Ht. }
  unfold bind at 1. unfold get_nprocs at 1.
  unfold bind at 1. rewrite ClearCPUFDs_spec.
  unfold bind at 1.
  match goal with |- context [open_streams E ?n 0 ?out ?t3 ?w3] =>
    destruct (open_streams_outcome E out n 0 t3 w3)
      as (r & w4 & new & added & Ho & F4 & _ & C4 & Hfresh & Hnd & _ & Hsome & Hnone)
  end.
  rewrite Ho. unfold push in F4, Hfresh. cbn [fds_ set_fds app kernel_trace_root_ fdtab] in *.
  rewrite set_fds_set_fds.
  destruct r as [e|].
  { unfold ret. cbv beta iota.
    cbn [is_tracing_ free_fd_ set_fds].
    split; [now apply Hsome | split; [exact Ht | reflexivity]]. }
  unfold bind at 1. unfold gets at 1.
  destruct (WriteString_cases E (kernel_trace_root_ t // "tracing_on") "1"
              (set_fds new t) w4)
    as (s1 & o & b1 & f1 & fs & Hw & Hok & Hbad & _).
  cbn [kernel_trace_root_ set_fds].
  unfold bind at 1. rewrite Hw, Hok.
  destruct b1; cbn [negb].
  { unfold ret. cbv beta iota.
    split; [now rewrite Hok | split; [exact Ht | reflexivity]]. }
  unfold bind at 1. unfold modify at 1.
  unfold bind at 1. unfold Now at 1.
  unfold bind at 1. unfold SleepFor at 1. unfold ret. cbv beta iota.
  destruct (Hnone eq_refl) as (Hlen & Hkeys & Hpaths).
  exists new, added, pre.
  cbn [fdtab clock]. rewrite F4. rewrite ?F2 in *.
  split; [reflexivity | split; [reflexivity | split; [exact Hkeys | split; [exact Hnd|]]]].
  split; [exact Hfresh | split; [|split; [exact Hpaths | reflexivity]]].
  now rewrite Hlen, L2.
Qed.

Lemma CollectTrace_start_of_Val (E : Env) (capture_seconds : Z) (t : FTraceTracer)
    (w : World) (st : Status) (t' : FTraceTracer) (w' : World) :
  CollectTrace E capture_seconds t w = Val st t' w' ->
  exists r t1 w1, CollectTrace_start E t w = Val r t1 w1.
Proof.
  unfold CollectTrace. unfold bind at 1.
  destruct (CollectTrace_start E t w) as [r t1 w1|f]; [|discriminate].
  intros _. now exists r, t1, w1.
Qed.

(** ** The streams, CPU by CPU *)

(** X8.  When [CollectTrace] has started the trace, [fds_] holds one pair
    per CPU of the count it asked for, in the order of the CPU indices:
    the pair at index [k] is a descriptor open on
    [per_cpu/cpu<k>/trace_pipe_raw] and one open on [traces/cpu<k>].  All
    these descriptors differ from one another, and a descriptor that was
    open before and was not in the old [fds_] (the guard, for one) is not
    among them and is still open on the same file. *)
Theorem streams_are_indexed_by_cpu (E : Env) (t : FTraceTracer) (w : World)
    (start_time : Z) (t1 : FTraceTracer) (w1 : World) :
  is_tracing_ t = false ->
  CollectTrace_start E t w = Val (inr start_time) t1 w1 ->
  (exists pre, List.length (fds_ t1) = env_nprocs E (pre ++ log w)%list)
  /\ NoDup (stream_fds (fds_ t1))
  /\ (forall k a b,
        nth_error (fds_ t1) k = Some (a, b) ->
        fd_lookup (fdtab w1) a = Some (cpu_pipe_path (kernel_trace_root_ t) k) /\
        fd_lookup (fdtab w1) b = Some (cpu_file_path (temp_path_ t // "traces") k))
  /\ (forall fd,
        fd_lookup (fdtab w) fd <> None -> ~ In fd (stream_fds (fds_ t)) ->
        ~ In fd (stream_fds (fds_ t1)) /\
        fd_lookup (fdtab w1) fd = fd_lookup (fdtab w) fd).
Proof.
  intros Ht Hs.
  pose proof (CollectTrace_start_outcome E t w Ht) as Hr. rewrite Hs in Hr.
  destruct Hr as (new & added & pre & -> & F & Hkeys & Hnd & Hfresh & Hlen & Hpaths & _).
  cbn [fds_ set_is_tracing set_fds].
  split; [now exists pre | split; [|split]].
  - rewrite Hkeys in Hnd. apply NoDup_rev in Hnd. now rewrite rev_involutive in Hnd.
  - intros k a b Hk. destruct (Hpaths k a b Hk) as [Ha Hb].
    rewrite F, !fd_lookup_app.
    rewrite (fd_lookup_In added a _ Hnd Ha), (fd_lookup_In added b _ Hnd Hb).
    split; reflexivity.
  - intros fd Hopen Hold.
    assert (Hkept : fd_lookup (fold_left fd_remove (stream_fds (fds_ t)) (fdtab w)) fd
                    = fd_lookup (fdtab w) fd).
    { rewrite fd_lookup_remove_all.
      destruct (existsb (Z.eqb fd) (stream_fds (fds_ t))) eqn:He; [|reflexivity].
      apply existsb_eqb_In in He. contradiction. }
    assert (Hnot : ~ In fd (map fst added)).
    { intros Hin. apply Hfresh in Hin. congruence. }
    split.
    + intros Hin. apply Hnot. rewrite Hkeys. now apply -> in_rev.
    + rewrite F, fd_lookup_app.
      apply fd_lookup_None_keys in Hnot. now rewrite Hnot.
Qed.

(** ** The capture loop and the end of a capture *)

Lemma capture_loop_effect (E : Env) (deadline : Z) :
  forall fuel t w st t' w',
    capture_loop E fuel deadline t w = Val st t' w' ->
    t' = t /\ fdtab w' = fdtab w /\ (ok st = true -> (deadline < clock w')%Z).
Proof.
  induction fuel as [|fuel IH]; intros t w st t' w' H; cbn [capture_loop] in H.
  - discriminate.
  - unfold bind at 1 in H. unfold Now at 1 in H.
    destruct (clock w + Z.of_nat (env_elapsed E (log w)) <=? deadline)%Z eqn:Hle.
    + unfold bind at 1 in H.
      match type of H with context [CopyCPUBuffers E t ?wn] =>
        destruct (CopyCPUBuffers E t wn) as [s1 t1 w1|] eqn:Hc; [|discriminate]
      end.
      apply CopyCPUBuffers_val in Hc. destruct Hc as (-> & (Fd & _) & _).
      cbn [fdtab] in Fd.
      destruct (ok s1) eqn:Hok; cbn [negb] in H.
      * unfold bind at 1 in H. unfold SleepFor at 1 in H.
        apply IH in H. destruct H as (-> & F & Hd). cbn [fdtab] in F.
        split; [reflexivity | split; [congruence | exact Hd]].
      * inversion H; subst. split; [reflexivity | split; [exact Fd | congruence]].
    + inversion H; subst. cbn [fdtab clock].
      split; [reflexivity | split; [reflexivity|]].
      intros _. apply Z.leb_gt in Hle. exact Hle.
Qed.

(** How [CollectTrace] ends once the trace has started. *)
Lemma CollectTrace_after_start (E : Env) (capture_seconds : Z) (t : FTraceTracer)
    (w : World) (start_time : Z) (t1 : FTraceTracer) (w1 : World)
    (st : Status) (t' : FTraceTracer) (w' : World) :
  CollectTrace_start E t w = Val (inr start_time) t1 w1 ->
  is_tracing_ t1 = true ->
  CollectTrace E capture_seconds t w = Val st t' w' ->
  exists failed w2 status,
    capture_loop E (capture_fuel capture_seconds)
                 (start_time + 1000 * capture_seconds) t1 w1 = Val failed t1 w2
    /\ fdtab w2 = fdtab w1
    /\ (ok failed = true -> (start_time + 1000 * capture_seconds < clock w2)%Z)
    /\ StopTrace E true t1 w2 = Val status t' w'
    /\ (ok st = true -> ok failed = true /\ st = status).
Proof.
  intros Hs Ht1. unfold CollectTrace. unfold bind at 1. rewrite Hs.
  unfold bind at 1.
  destruct (capture_loop E (capture_fuel capture_seconds)
              (start_time + 1000 * capture_seconds) t1 w1) as [f t2 w2|] eqn:Hl;
    [|discriminate].
  destruct (capture_loop_effect E _ _ _ _ _ _ _ Hl) as (-> & F & Hd).
  unfold bind at 1.
  destruct (StopTrace E true t1 w2) as [s t3 w3|] eqn:Hst; [|discriminate].
  intros H. exists f, w2, s.
  split; [reflexivity | split; [exact F | split; [exact Hd|]]].
  destruct (ok f) eqn:Hf; cbn [negb] in H; inversion H; subst.
  - split; [exact Hst|]. intros _. split; reflexivity.
  - split; [exact Hst|]. discriminate.
Qed.

(** X9.  [CollectTrace], called outside a trace, never returns with the
    session still tracing, whatever status it returns, and it does not
    change [free_fd_]. *)
Theorem CollectTrace_ends_not_tracing (E : Env) (capture_seconds : Z)
    (t : FTraceTracer) (w : World) (st : Status) (t' : FTraceTracer) (w' : World) :
  is_tracing_ t = false ->
  CollectTrace E capture_seconds t w = Val st t' w' ->
  is_tracing_ t' = false /\ free_fd_ t' = free_fd_ t.
Proof.
  intros Ht Hc.
  destruct (CollectTrace_start_of_Val E capture_seconds t w st t' w' Hc)
    as (r & t1 & w1 & Hs).
  pose proof (CollectTrace_start_outcome E t w Ht) as Hr. rewrite Hs in Hr.
  destruct r as [e | start_time].
  - unfold CollectTrace in Hc. unfold bind at 1 in Hc. rewrite Hs in Hc.
    inversion Hc; subst. destruct Hr as (_ & H1 & H2). split; assumption.
  - destruct Hr as (new & added & pre & Ht1 & _).
    assert (Htr : is_tracing_ t1 = true) by (subst t1; reflexivity).
    destruct (CollectTrace_after_start E capture_seconds t w start_time t1 w1 st t' w'
                Hs Htr Hc) as (f & w2 & s & _ & _ & _ & Hstop & _).
    destruct (StopTrace_tracing E true t1 w2 s t' w' Htr Hstop) as (H1 & H2 & _).
    split; [exact H1|]. rewrite H2. subst t1. reflexivity.
Qed.

(** X10.  A capture that succeeds leaves no descriptor behind: when
    [ConfigureFTrace] on a fresh session and then [CollectTrace] both return
    ok, the table of open descriptors is again what it was before
    [ConfigureFTrace], [fds_] is empty and the session is not tracing. *)
Theorem successful_capture_leaks_no_descriptor (E : Env) (capture_seconds : Z)
    (t : FTraceTracer) (w : World)
    (s1 : Status) (t1 : FTraceTracer) (w1 : World)
    (s2 : Status) (t2 : FTraceTracer) (w2 : World) :
  is_tracing_ t = false -> fds_ t = [] ->
  ConfigureFTrace E t w = Val s1 t1 w1 -> ok s1 = true ->
  CollectTrace E capture_seconds t1 w1 = Val s2 t2 w2 -> ok s2 = true ->
  fdtab w2 = fdtab w /\ fds_ t2 = [] /\ is_tracing_ t2 = false.
Proof.
  intros Ht Hfds Hconf Hok1 Hcoll Hok2.
  destruct (ConfigureFTrace_descriptors E t w s1 t1 w1 Ht Hconf)
    as (_ & _ & [(Hno & _) | (g & Hg0 & Hgfresh & -> & F1)]); [congruence|].
  set (tc := set_free_fd g t) in *.
  assert (Htc : is_tracing_ tc = false) by exact Ht.
  destruct (CollectTrace_start_of_Val E capture_seconds tc w1 s2 t2 w2 Hcoll)
    as (r & ts & ws & Hs).
  pose proof (CollectTrace_start_outcome E tc w1 Htc) as Hr. rewrite Hs in Hr.
  destruct r as [e | start_time].
  { unfold CollectTrace in Hcoll. unfold bind at 1 in Hcoll. rewrite Hs in Hcoll.
    inversion Hcoll; subst. destruct Hr as (He & _). congruence. }
  destruct Hr as (new & added & pre & Hts & Fs & Hkeys & Hnd & Hfresh & _).
  assert (Htr : is_tracing_ ts = true) by (subst ts; reflexivity).
  destruct (CollectTrace_after_start E capture_seconds tc w1 start_time ts ws s2 t2 w2
              Hs Htr Hcoll) as (f & wl & s & _ & Fl & _ & Hstop & Hboth).
  destruct (Hboth Hok2) as (_ & ->).
  destruct (StopTrace_outcome E true ts wl s t2 w2 Htr Hstop)
    as (_ & [(_ & -> & F2) | (Hno & _)]); [|congruence].
  split; [|split; reflexivity].
  rewrite F2, Fl, Fs. subst ts. cbn [fds_ free_fd_ set_is_tracing set_fds tc set_free_fd].
  change (fds_ tc) with (fds_ t) in *. rewrite Hfds in *.
  cbn [stream_fds flat_map fold_left] in *. rewrite F1 in *.
  rewrite remove_all_added.
  - unfold fd_remove. cbn [filter fst]. rewrite Z.eqb_refl. cbn [negb].
    now apply fd_remove_fresh.
  - intros fd Hin. rewrite Hkeys in Hin. now apply in_rev.
  - intros fd Hin. apply Hfresh. rewrite Hkeys. now apply -> in_rev.
Qed.

(** X11.  [CollectTrace] does not end a capture early on success: when it
    returns ok, the clock, read after [start_time] was taken, has passed
    [start_time] plus the capture duration. *)
Theorem CollectTrace_ok_lasts_the_duration (E : Env) (capture_seconds : Z)
    (t : FTraceTracer) (w : World) (start_time : Z) (t1 : FTraceTracer) (w1 : World)
    (st : Status) (t' : FTraceTracer) (w' : World) :
  is_tracing_ t = false ->
  CollectTrace_start E t w = Val (inr start_time) t1 w1 ->
  CollectTrace E capture_seconds t w = Val st t' w' ->
  ok st = true ->
  (start_time + 1000 * capture_seconds < clock w')%Z.
Proof.
  intros Ht Hs Hc Hok.
  pose proof (CollectTrace_start_outcome E t w Ht) as Hr. rewrite Hs in Hr.
  destruct Hr as (new & added & pre & Ht1 & _).
  assert (Htr : is_tracing_ t1 = true) by (subst t1; reflexivity).
  destruct (CollectTrace_after_start E capture_seconds t w start_time t1 w1 st t' w'
              Hs Htr Hc) as (f & w2 & s & _ & _ & Hd & Hstop & Hboth).
  destruct (Hboth Hok) as (Hf & _).
  destruct (StopTrace_outcome E true t1 w2 s t' w' Htr Hstop) as (Hclk & _).
  rewrite Hclk. now apply Hd.
Qed.

(** ** A write that goes through *)

Lemma WriteString_full_write (E : Env) (path data : string)
    (t : FTraceTracer) (w : World) :
  env_ofs_open E (log w) path = true ->
  (String.length data <= env_ofs_sputn E (log w) path data)%nat ->
  env_ofs_close E (log w) path = None ->
  exists w',
    WriteString E path data t w = Val OkStatus t w'
    /\ files w' path = data
    /\ (forall p, p <> path -> files w' p = files w p)
    /\ fdtab w' = fdtab w /\ pipes w' = pipes w.
Proof.
  intros Ho Hp Hc. unfold WriteString, ofstream_ctor. rewrite Ho.
  unfold ofstream_insert, good. cbn [os_badbit os_failbit negb andb os_path os_is_open].
  unfold ofstream_close.
  cbn [os_is_open os_path os_pending os_badbit os_failbit log].
  rewrite Hc. unfold bad. cbn [log os_badbit os_failbit os_is_open].
  rewrite Nat.min_r by exact Hp.
  rewrite Nat.ltb_irrefl.
  eexists. split; [reflexivity|]. unfold push. cbn [files fdtab pipes].
  split; [now rewrite upd_same, substring_all|].
  split; [|split; reflexivity].
  intros p Hne. rewrite !upd_other by exact Hne. reflexivity.
Qed.

(** X12.  When the control file opens, the stream buffer takes the whole
    string and the close succeeds, [WriteString] returns ok and the file
    holds exactly the string, in place of what it held before; no other
    file, no descriptor and no pipe is changed. *)
Theorem WriteString_replaces_content (E : Env) (path data : string)
    (t : FTraceTracer) (w : World) :
  env_ofs_open E (log w) path = true ->
  (String.length data <= env_ofs_sputn E (log w) path data)%nat ->
  env_ofs_close E (log w) path = None ->
  exists w',
    WriteString E path data t w = Val OkStatus t w'
    /\ files w' path = data
    /\ (forall p, p <> path -> files w' p = files w p)
    /\ fdtab w' = fdtab w /\ pipes w' = pipes w.
Proof.
  exact (WriteString_full_write E path data t w).
Qed.

Lemma substring_substring_0 (s : string) (j k : nat) :
  substring 0 j (substring 0 k s) = substring 0 (Nat.min j k) s.
Proof.
  revert j k. induction s as [|c s IH]; intros j k.
  - destruct j, k; reflexivity.
  - destruct j, k; cbn; try reflexivity. now rewrite IH.
Qed.

(** ** The copy of the format files *)

Lemma CopyFakeFile_val (E : Env) (I : InEnv) (src dst : string)
    (t : FTraceTracer) (w : World) :
  exists w',
    CopyFakeFile E I src dst t w = Val OkStatus t w'
    /\ log w' = log w /\ fdtab w' = fdtab w /\ pipes w' = pipes w /\ clock w' = clock w
    /\ (forall p, p <> dst -> files w' p = files w p).
Proof.
  unfold CopyFakeFile, ofstream_ctor.
  destruct (env_ofs_open E (log w) dst) eqn:Ho.
  - unfold ofstream_insert_rdbuf, good.
    cbn [os_badbit os_failbit negb andb os_path os_is_open log].
    unfold ofstream_close. cbn [os_is_open os_path os_pending os_badbit os_failbit log].
    destruct (env_ofs_close E (log w) dst) as [k|];
      unfold ifstream_close, ifstream_ctor, in_bad, bad;
      destruct (env_ifs_open I (log w) src);
      cbn [is_is_open is_path is_badbit andb log os_badbit orb];
      try destruct (env_ifs_close I (log w) src);
      cbn [is_badbit orb];
      (eexists; split; [reflexivity|]; cbn [log fdtab pipes clock files];
       repeat split; intros p Hp; now rewrite !upd_other by exact Hp).
  - unfold ofstream_insert_rdbuf, good.
    cbn [os_badbit os_failbit negb andb os_path os_is_open log].
    unfold ofstream_close. cbn [os_is_open os_path os_pending os_badbit os_failbit log].
    unfold ifstream_close, ifstream_ctor, in_bad, bad.
    destruct (env_ifs_open I (log w) src);
      cbn [is_is_open is_path is_badbit andb log os_badbit orb];
      try destruct (env_ifs_close I (log w) src);
      cbn [is_badbit orb];
      (eexists; split; [reflexivity|]; repeat split).
Qed.

(** X13.  [CopyFakeFile] returns ok in every environment: no operation it
    performs on the two streams sets [badbit], the only bit it tests.  A
    source that does not open, a destination that does not open, a copy that
    stops half way and a close that fails all set [failbit], and none is
    reported. *)
Theorem CopyFakeFile_reports_no_failure (E : Env) (I : InEnv) (src dst : string)
    (t : FTraceTracer) (w : World) :
  exists w', CopyFakeFile E I src dst t w = Val OkStatus t w'.
Proof.
  destruct (CopyFakeFile_val E I src dst t w) as (w' & H & _).
  now exists w'.
Qed.


(** X15.  Whatever goes wrong, a destination that opens is left with the
    first characters of the source, possibly fewer than all of them, and
    with none when the source does not open; the status is ok all the
    same. *)
Theorem CopyFakeFile_leaves_a_prefix (E : Env) (I : InEnv) (src dst : string)
    (t : FTraceTracer) (w : World) :
  src <> dst ->
  env_ofs_open E (log w) dst = true ->
  exists w' k,
    CopyFakeFile E I src dst t w = Val OkStatus t w'
    /\ files w' dst = substring 0 k (files w src)
    /\ (env_ifs_open I (log w) src = false -> files w' dst = "").
Proof.
  intros Hne Ho.
  unfold CopyFakeFile, ofstream_ctor. rewrite Ho.
  unfold ofstream_insert_rdbuf, good, ifstream_ctor.
  cbn [os_badbit os_failbit negb andb os_path os_is_open log is_is_open is_path files].
  unfold ofstream_close. cbn [os_is_open os_path os_pending os_badbit os_failbit log].
  unfold ifstream_close, in_bad, bad.
  destruct (env_ifs_open I (log w) src) eqn:Hi;
    cbn [is_is_open is_path is_badbit andb log os_badbit orb os_pending files].
  - rewrite (upd_other (files w) dst src "") by exact Hne.
    set (k := match env_ifs_copied I (log w) src dst with
              | Some k => Nat.min k (String.length (files w src))
              | None => String.length (files w src)
              end).
    destruct (env_ofs_close E (log w) dst) as [j|];
      cbn [os_badbit orb log is_path is_is_open andb];
      destruct (env_ifs_close I (log w) src); cbn [is_badbit orb].
    1,2: eexists _, (Nat.min j k); (split; [reflexivity|]); cbn [files];
         rewrite upd_same; split; [apply substring_substring_0 | discriminate].
    1,2: eexists _, k; (split; [reflexivity|]); cbn [files]; rewrite upd_same;
         split; [reflexivity | discriminate].
  - assert (Hk : match env_ifs_copied I (log w) src dst with
                 | Some k => Nat.min k (String.length "")
                 | None => String.length ""
                 end = 0%nat).
    { destruct (env_ifs_copied I (log w) src dst); [apply Nat.min_0_r | reflexivity]. }
    rewrite Hk.
    assert (Hempty : forall j, substring 0 j "" = "") by (intros [|j]; reflexivity).
    assert (Hzero : substring 0 0 (files w src) = "") by (now destruct (files w src)).
    destruct (env_ofs_close E (log w) dst) as [j|];
      cbn [os_badbit orb log is_path is_is_open andb is_badbit];
      eexists _, 0%nat; (split; [reflexivity|]); cbn [files]; rewrite upd_same;
      rewrite ?Hempty, Hzero; split; reflexivity.
Qed.

(** ** Event names and directories *)

Lemma StrSplit_plain (c : ascii) (p : string) :
  has_char c p = false -> StrSplit p c = [p].
Proof.
  induction p as [|a r IH]; cbn [has_char StrSplit]; [reflexivity|].
  intros H. apply orb_false_iff in H. destruct H as [Ha Hr].
  rewrite Ha, (IH Hr). reflexivity.
Qed.

Lemma StrSplit_app (c : ascii) (p rest : string) :
  has_char c p = false ->
  StrSplit (p ++ String c rest) c = p :: StrSplit rest c.
Proof.
  induction p as [|a r IH]; cbn [has_char StrSplit append].
  - intros _. now rewrite Ascii.eqb_refl.
  - intros H. apply orb_false_iff in H. destruct H as [Ha Hr].
    rewrite Ha, (IH Hr). reflexivity.
Qed.

Lemma StrSplit_join (c : ascii) (part : string) (parts : list string) :
  forallb (fun p => negb (has_char c p)) (part :: parts) = true ->
  StrSplit (join_with (String c "") (part :: parts)) c = part :: parts.
Proof.
  revert part. induction parts as [|q r IH]; intros part H.
  - cbn [forallb] in H. apply andb_true_iff in H. destruct H as [H _].
    apply negb_true_iff in H. cbn [join_with]. now apply StrSplit_plain.
  - cbn [forallb] in H. apply andb_true_iff in H. destruct H as [H Hr].
    apply negb_true_iff in H.
    change (join_with (String c "") (part :: q :: r))
      with (part ++ String c (join_with (String c "") (q :: r))).
    rewrite (StrSplit_app c part _ H). f_equal. apply IH. exact Hr.
Qed.

Lemma ends_with_separator_app (p q : string) :
  q <> "" -> ends_with_separator (p ++ q) = ends_with_separator q.
Proof.
  intros Hq. induction p as [|c p IH]; [reflexivity|].
  cbn [append ends_with_separator].
  destruct (p ++ q) eqn:Hpq; [|exact IH].
  destruct p; cbn [append] in Hpq; [contradiction | discriminate].
Qed.

Lemma ends_with_separator_plain (q : string) :
  has_char "/" q = false -> ends_with_separator q = false.
Proof.
  induction q as [|c r IH]; [reflexivity|].
  cbn [has_char ends_with_separator]. intros H.
  apply orb_false_iff in H. destruct H as [Hc Hr].
  destruct r; [exact Hc | exact (IH Hr)].
Qed.

Lemma prefix_separator_plain (q : string) :
  has_char "/" q = false -> String.prefix "/" q = false.
Proof.
  destruct q as [|c r]; [reflexivity|].
  cbn [has_char String.prefix]. intros H.
  apply orb_false_iff in H. destruct H as [Hc _].
  destruct (ascii_dec "/" c) as [<-|]; [discriminate | reflexivity].
Qed.

Lemma plain_part_spec (p : string) :
  plain_part p = true ->
  p <> "" /\ has_char ":" p = false /\ has_char "/" p = false.
Proof.
  unfold plain_part. intros H.
  apply andb_true_iff in H. destruct H as [H H3].
  apply andb_true_iff in H. destruct H as [H1 H2].
  apply negb_true_iff in H1, H2, H3. apply String.eqb_neq in H1. auto.
Qed.

Lemma path_join_plain (acc q : string) :
  acc <> "" -> ends_with_separator acc = false -> plain_part q = true ->
  acc // q = acc ++ "/" ++ q
  /\ acc ++ "/" ++ q <> "" /\ ends_with_separator (acc ++ "/" ++ q) = false.
Proof.
  intros Ha He Hq. apply plain_part_spec in Hq. destruct Hq as (Hne & _ & Hs).
  unfold path_join. rewrite (prefix_separator_plain q Hs), He.
  apply String.eqb_neq in Ha. rewrite Ha. cbn [orb].
  split; [reflexivity | split].
  - destruct acc; [apply String.eqb_neq in Ha; contradiction | discriminate].
  - rewrite ends_with_separator_app.
    + change ("/" ++ q) with (String "/" q). cbn [ends_with_separator].
      destruct q; [contradiction | now apply (ends_with_separator_plain (String a q))].
    + discriminate.
Qed.

Lemma fold_path_join_plain (parts : list string) :
  forallb plain_part parts = true ->
  forall acc, acc <> "" -> ends_with_separator acc = false ->
  fold_left path_join parts acc
  = match parts with [] => acc | _ :: _ => acc ++ "/" ++ join_with "/" parts end.
Proof.
  induction parts as [|q r IH]; intros H acc Ha He; [reflexivity|].
  cbn [forallb] in H. apply andb_true_iff in H. destruct H as [Hq Hr].
  cbn [fold_left].
  destruct (path_join_plain acc q Ha He Hq) as (-> & Ha' & He').
  rewrite (IH Hr _ Ha' He').
  destruct r as [|q' r']; [reflexivity|].
  change (join_with "/" (q :: q' :: r')) with (q ++ "/" ++ join_with "/" (q' :: r')).
  now rewrite !append_assoc.
Qed.

(** X16.  An event name made of parts joined by colons, each part plain
    (not empty, without colon or slash), is turned into the relative path
    with the same parts joined by slashes: the format of
    [subsystem:event] is looked for under [events/subsystem/event] and
    copied to [formats/subsystem/event]. *)
Theorem event_format_path_of_parts (parts : list string) :
  forallb plain_part parts = true ->
  event_format_path (join_with ":" parts) = join_with "/" parts.
Proof.
  intros H. unfold event_format_path.
  destruct parts as [|p r]; [reflexivity|].
  rewrite (StrSplit_join ":"%char p r).
  - cbn [forallb] in H. apply andb_true_iff in H. destruct H as [Hp Hr].
    cbn [fold_left].
    pose proof (plain_part_spec p Hp) as (Hne & _ & Hs).
    assert (Hj : "" // p = p).
    { unfold path_join. now rewrite (prefix_separator_plain p Hs). }
    rewrite Hj.
    rewrite (fold_path_join_plain r Hr p Hne (ends_with_separator_plain p Hs)).
    destruct r; reflexivity.
  - clear -H. induction (p :: r) as [|q l IH]; [reflexivity|].
    cbn [forallb] in *. apply andb_true_iff in H. destruct H as [Hq Hl].
    apply plain_part_spec in Hq. destruct Hq as (_ & Hc & _).
    rewrite Hc. cbn [negb andb]. exact (IH Hl).
Qed.

(** The loop of [CopyFormats]: it makes the directories of the events in
    order and stops at the first one that is there already, or that cannot
    be made. *)
Lemma copy_formats_loop_outcome (E : Env) (I : InEnv) (out root : string) :
  forall events t w,
    match copy_formats_loop E I out root events t w with
    | Val r t' w' =>
        t' = t
        /\ match r with
           | None =>
               log w' = (rev (map (fun e => EvMkdirs (out // event_format_path e) true)
                                  events)
                         ++ log w)%list
               /\ (forall done e rest,
                     events = (done ++ e :: rest)%list ->
                     env_mkdirs E
                       (rev (map (fun e => EvMkdirs (out // event_format_path e) true) done)
                        ++ log w)%list
                       (out // event_format_path e) = Some true)
           | Some st =>
               exists done e rest,
                 events = (done ++ e :: rest)%list
                 /\ log w' = (EvMkdirs (out // event_format_path e) false
                              :: rev (map (fun e => EvMkdirs (out // event_format_path e)
                                                             true) done)
                              ++ log w)%list
                 /\ st = InternalError ("Unable to create directories for path: "
                                        ++ out // event_format_path e)
           end
    | Stuck f =>
        exists done e rest,
          events = (done ++ e :: rest)%list
          /\ f = FilesystemError (out // event_format_path e)
          /\ env_mkdirs E
               (rev (map (fun e => EvMkdirs (out // event_format_path e) true) done)
                ++ log w)%list
               (out // event_format_path e) = None
    end.
Proof.
  induction events as [|e0 rest0 IH]; intros t w.
  - cbn [copy_formats_loop]. unfold ret. cbv beta iota.
    split; [reflexivity|]. split; [reflexivity|].
    intros [|? ?] ? ? H; discriminate.
  - cbn [copy_formats_loop]. cbv zeta.
    unfold bind at 1. unfold create_directories at 1.
    destruct (env_mkdirs E (log w) (out // event_format_path e0)) as [[|]|] eqn:Hm;
      cbn [negb].
    + set (w1 := push (EvMkdirs (out // event_format_path e0) true) w).
      destruct (CopyFakeFile_val E I (root // event_format_path e0 // "format")
                  (out // event_format_path e0 // "format") t w1)
        as (w2 & Hc & L2 & _).
      unfold bind at 1. rewrite Hc. cbn [ok OkStatus code negb].
      pose proof (IH t w2) as Hr.
      rewrite L2 in Hr. unfold w1 in Hr. cbn [push log] in Hr.
      destruct (copy_formats_loop E I out root rest0 t w2) as [r t3 w3|f].
      * destruct Hr as (-> & Hr). split; [reflexivity|].
        destruct r as [st|].
        -- destruct Hr as (done & e & rest & -> & Hlog & ->).
           exists (e0 :: done), e, rest. split; [reflexivity|]. split; [|reflexivity].
           rewrite Hlog. cbn [map rev]. rewrite <- app_assoc. reflexivity.
        -- destruct Hr as (Hlog & Hall). split.
           ++ rewrite Hlog. cbn [map rev]. rewrite <- app_assoc. reflexivity.
           ++ intros done e rest Heq. destruct done as [|d done'].
              ** cbn [app] in Heq. inversion Heq; subst. exact Hm.
              ** cbn [app] in Heq. inversion Heq; subst.
                 cbn [map rev]. rewrite <- app_assoc. cbn [app].
                 exact (Hall done' e rest eq_refl).
      * destruct Hr as (done & e & rest & -> & -> & Hnone).
        exists (e0 :: done), e, rest. split; [reflexivity|]. split; [reflexivity|].
        cbn [map rev]. rewrite <- app_assoc. cbn [app]. exact Hnone.
    + unfold ret. cbv beta iota. split; [reflexivity|].
      exists [], e0, rest0. repeat split.
    + exists [], e0, rest0. repeat split. exact Hm.
Qed.

Lemma CopyFormats_outcome (E : Env) (I : InEnv) (t : FTraceTracer) (w : World) :
  is_tracing_ t = false ->
  match CopyFormats E I t w with
  | Val st t' w' =>
      t' = t
      /\ ((ok st = true
           /\ log w' = (rev (map (made_dir t) (events_ t)) ++ log w)%list
           /\ (forall done e rest,
                 events_ t = (done ++ e :: rest)%list ->
                 env_mkdirs E (rev (map (made_dir t) done) ++ log w)%list (format_dir t e)
                 = Some true))
          \/
          exists done e rest,
            events_ t = (done ++ e :: rest)%list
            /\ log w' = (EvMkdirs (format_dir t e) false
                         :: rev (map (made_dir t) done) ++ log w)%list
            /\ st = InternalError ("Unable to create directories for path: "
                                   ++ format_dir t e))
  | Stuck f =>
      exists done e rest,
        events_ t = (done ++ e :: rest)%list
        /\ f = FilesystemError (format_dir t e)
        /\ env_mkdirs E (rev (map (made_dir t) done) ++ log w)%list (format_dir t e) = None
  end.
Proof.
  intros Ht. unfold CopyFormats.
  unfold bind at 1. unfold gets at 1. rewrite Ht.
  unfold bind at 1. unfold gets at 1.
  unfold bind at 1. unfold gets at 1. cbv zeta.
  unfold bind at 1. unfold gets at 1.
  pose proof (copy_formats_loop_outcome E I (temp_path_ t // "formats")
                (kernel_trace_root_ t // "events") (events_ t) t w) as Hr.
  unfold bind at 1.
  destruct (copy_formats_loop E I (temp_path_ t // "formats")
              (kernel_trace_root_ t // "events") (events_ t) t w) as [r t1 w1|f];
    [|exact Hr].
  destruct Hr as (-> & Hr).
  destruct r as [st|].
  - unfold ret. cbv beta iota. split; [reflexivity|]. right. exact Hr.
  - destruct (CopyFakeFile_val E I (kernel_trace_root_ t // "events" // "header_page")
                (temp_path_ t // "formats" // "header_page") t w1)
      as (w2 & Hc & L2 & _).
    unfold bind at 1. rewrite Hc. cbn [ok OkStatus code negb]. unfold ret.
    cbv beta iota. split; [reflexivity|].
    left. destruct Hr as (Hlog & Hall).
    split; [reflexivity | split; [now rewrite L2 | exact Hall]].
Qed.

Lemma filter_mkdirs_made (t : FTraceTracer) (l : list string) :
  filter is_mkdirs (rev (map (made_dir t) l)) = rev (map (made_dir t) l).
Proof.
  apply forallb_filter_id. apply forallb_forall.
  intros x Hx. apply in_rev in Hx. apply in_map_iff in Hx.
  destruct Hx as (e & <- & _). reflexivity.
Qed.

(** X17.  [CopyFormats], outside a trace, calls [create_directories] once
    per event, in the order of [events_], and stops at the first directory
    that is not newly made.  When [create_directories] returns false for it
    (the directory is there already), [CopyFormats] returns the error that
    names it; when it throws (the directory cannot be made), the exception
    leaves [CopyFormats] and no status is returned.  In both cases no
    directory is asked for after that one.  A status other than that error
    is ok, with a directory made for every event: no other failure is
    reported. *)
Theorem CopyFormats_stops_at_first_directory_failure (E : Env) (I : InEnv)
    (t : FTraceTracer) (w : World) :
  is_tracing_ t = false ->
  match CopyFormats E I t w with
  | Val st t' w' =>
      t' = t
      /\ exists new,
           log w' = (new ++ log w)%list
           /\ ((ok st = true
                /\ filter is_mkdirs new = rev (map (made_dir t) (events_ t)))
               \/
               exists done e rest,
                 events_ t = (done ++ e :: rest)%list
                 /\ filter is_mkdirs new
                    = EvMkdirs (format_dir t e) false :: rev (map (made_dir t) done)
                 /\ st = InternalError ("Unable to create directories for path: "
                                        ++ format_dir t e))
  | Stuck f =>
      exists done e rest,
        events_ t = (done ++ e :: rest)%list
        /\ f = FilesystemError (format_dir t e)
        /\ env_mkdirs E (rev (map (made_dir t) done) ++ log w)%list (format_dir t e) = None
  end.
Proof.
  intros Ht.
  pose proof (CopyFormats_outcome E I t w Ht) as H.
  destruct (CopyFormats E I t w) as [st t' w'|f]; [|exact H].
  destruct H as (-> & Hcases). split; [reflexivity|].
  destruct Hcases as [(Hok & Hlog & _) | (done & e & rest & Hev & Hlog & Hst)].
  - exists (rev (map (made_dir t) (events_ t))). split; [exact Hlog|].
    left. split; [exact Hok | apply filter_mkdirs_made].
  - exists (EvMkdirs (format_dir t e) false :: rev (map (made_dir t) done))%list.
    split; [exact Hlog|]. right. exists done, e, rest.
    split; [exact Hev | split; [|exact Hst]].
    cbn [filter is_mkdirs]. now rewrite filter_mkdirs_made.
Qed.

(** X18.  On a file system where [create_directories] returns false for a
    directory it has made before, [CopyFormats] does not succeed when two
    events of [events_] have the same format path, for one when an event is
    listed twice: the directory is made without asking first whether it
    exists.  It returns a status that is not ok, or a [create_directories]
    before that one throws; where none throws, it returns a status that is
    not ok. *)
Theorem CopyFormats_repeated_event_fails (E : Env) (I : InEnv)
    (t : FTraceTracer) (w : World) (before between after : list string)
    (e1 e2 : string) :
  is_tracing_ t = false ->
  (forall h p, In (EvMkdirs p true) h -> env_mkdirs E h p = Some false) ->
  events_ t = (before ++ e1 :: between ++ e2 :: after)%list ->
  event_format_path e1 = event_format_path e2 ->
  match CopyFormats E I t w with
  | Val st t' w' => t' = t /\ ok st = false
  | Stuck f => exists path, f = FilesystemError path
  end
  /\ ((forall h p, env_mkdirs E h p <> None) ->
      exists st w', CopyFormats E I t w = Val st t w' /\ ok st = false).
Proof.
  intros Ht Hfs Hev Hsame.
  pose proof (CopyFormats_outcome E I t w Ht) as H.
  destruct (CopyFormats E I t w) as [st t' w'|f].
  - destruct H as (-> & Hcases).
    assert (Hno : ok st = false).
    { destruct Hcases as [(_ & _ & Hall) | (done & e & rest & _ & _ & ->)]; [|reflexivity].
      exfalso.
      assert (Hsplit : events_ t = ((before ++ e1 :: between) ++ e2 :: after)%list).
      { rewrite Hev, <- app_assoc. reflexivity. }
      specialize (Hall _ _ _ Hsplit).
      rewrite Hfs in Hall; [discriminate|].
      apply in_or_app. left. apply -> in_rev. apply in_map_iff.
      exists e1. split.
      - unfold made_dir, format_dir. now rewrite Hsame.
      - apply in_or_app. right. now left. }
    split; [split; [reflexivity | exact Hno]|].
    intros _. exists st, w'. split; [reflexivity | exact Hno].
  - destruct H as (done & e & rest & _ & -> & Hnone).
    split; [eexists; reflexivity|].
    intros Hnever. exfalso. exact (Hnever _ _ Hnone).
Qed.

(** ** What a configuration that goes through leaves in the control files *)

Lemma append_cancel_l (p a b : string) : p ++ a = p ++ b -> a = b.
Proof.
  induction p as [|c p IH]; cbn [append]; intros H; [exact H|].
  injection H as H. exact (IH H).
Qed.

Lemma path_join_leaf_inj (root x y : string) :
  String.prefix "/" x = false -> String.prefix "/" y = false ->
  root // x = root // y -> x = y.
Proof.
  unfold path_join. intros -> ->.
  destruct ((root =? "")%string || ends_with_separator root); intros H.
  - exact (append_cancel_l _ _ _ H).
  - apply append_cancel_l in H. injection H as H. exact H.
Qed.

Ltac other_leaf :=
  let H := fresh in
  intros H; apply path_join_leaf_inj in H; [discriminate | reflexivity | reflexivity].

(** X19.  On a machine where every open succeeds and every write is taken
    in full, [ConfigureFTrace] returns ok and leaves the control files of
    the tracing directory as follows: [tracing_on] holds 0,
    [current_tracer] holds nop, [trace_options] holds disable_on_free,
    [buffer_size_kb] holds the buffer size in decimal and [set_event] the
    event identifiers; [free_fd_] is a descriptor open on [free_buffer]. *)
Theorem ConfigureFTrace_sets_control_files (E : Env) (t : FTraceTracer) (w : World) :
  is_tracing_ t = false ->
  (forall h p, env_ofs_open E h p = true) ->
  (forall h p d, (String.length d <= env_ofs_sputn E h p d)%nat) ->
  (forall h p, env_ofs_close E h p = None) ->
  (forall h p flags, env_open E h p flags = true) ->
  (forall h p d, env_write E h p d = Z.of_nat (String.length d)) ->
  Forall (fun event => (Z.of_nat (String.length event) < 2 ^ 32)%Z) (events_ t) ->
  exists guard_fd w',
    ConfigureFTrace E t w = Val OkStatus (set_free_fd guard_fd t) w'
    /\ files w' (kernel_trace_root_ t // "tracing_on") = "0"
    /\ files w' (kernel_trace_root_ t // "current_tracer") = "nop"
    /\ files w' (kernel_trace_root_ t // "trace_options") = "disable_on_free"
    /\ files w' (kernel_trace_root_ t // "buffer_size_kb") = to_string (buffer_size_ t)
    /\ files w' (kernel_trace_root_ t // "set_event") = concat_all (events_ t)
    /\ fd_lookup (fdtab w') guard_fd = Some (kernel_trace_root_ t // "free_buffer").
Proof.
  intros Ht Hoo Hos Hoc Hopen Hwrite Hshort.
  set (root := kernel_trace_root_ t).
  unfold ConfigureFTrace.
  unfold bind at 1. unfold gets at 1. rewrite Ht.
  unfold bind at 1. unfold gets at 1. fold root.
  destruct (WriteString_full_write E (root // "tracing_on") "0" t w
              (Hoo _ _) (Hos _ _ _) (Hoc _ _)) as (w1 & H1 & A1 & O1 & F1 & _).
  unfold bind at 1. rewrite H1. cbn [ok OkStatus code negb].
  unfold bind at 1. unfold sys_open at 1. rewrite Hopen. cbn [existsb OFlag_eqb orb].
  destruct (lowest_free_fresh (fdtab w1)) as [Hpos _].
  set (g := lowest_free (fdtab w1)) in *.
  unfold bind at 1. unfold modify at 1.
  destruct (g <? 0)%Z eqn:Hneg; [apply Z.ltb_lt in Hneg; lia|].
  unfold bind at 1.
  match goal with |- context [WriteString E (root // "current_tracer") "nop" ?tt ?ww] =>
    set (t2 := tt); set (w2 := ww)
  end.
  destruct (WriteString_full_write E (root // "current_tracer") "nop" t2 w2
              (Hoo _ _) (Hos _ _ _) (Hoc _ _)) as (w3 & H3 & A3 & O3 & F3 & _).
  rewrite H3. cbn [ok OkStatus code negb].
  destruct (WriteString_full_write E (root // "trace_options") "disable_on_free" t2 w3
              (Hoo _ _) (Hos _ _ _) (Hoc _ _)) as (w4 & H4 & A4 & O4 & F4 & _).
  unfold bind at 1. rewrite H4. cbn [ok OkStatus code negb].
  unfold bind at 1. unfold gets at 1.
  destruct (WriteString_full_write E (root // "buffer_size_kb") (to_string (buffer_size_ t2))
              t2 w4 (Hoo _ _) (Hos _ _ _) (Hoc _ _)) as (w5 & H5 & A5 & O5 & F5 & _).
  unfold bind at 1. rewrite H5. cbn [ok OkStatus code negb].
  destruct (EnableEvents_full_write E t2 w5 Ht (Hopen _ _ _) (fun h d => Hwrite h _ d) Hshort)
    as (w6 & H6 & A6 & O6 & F6).
  unfold bind at 1. rewrite H6. cbn [ok OkStatus code negb]. unfold ret.
  change (kernel_trace_root_ t2) with root in *.
  change (events_ t2) with (events_ t) in *.
  change (buffer_size_ t2) with (buffer_size_ t) in *.
  exists g, w6. split; [reflexivity|].
  assert (W2 : files w2 = files w1) by reflexivity.
  split; [|split; [|split; [|split; [|split]]]].
  - rewrite O6, O5, O4, O3, W2 by other_leaf. exact A1.
  - rewrite O6, O5, O4 by other_leaf. exact A3.
  - rewrite O6, O5 by other_leaf. exact A4.
  - rewrite O6 by other_leaf. exact A5.
  - exact A6.
  - rewrite F6, F5, F4, F3. unfold w2. cbn [fdtab fd_lookup]. now rewrite Z.eqb_refl.
Qed.

(** ** Writes that fail during a drain *)

Lemma drain_discards (E : Env) (in_fd out_fd : Z) (size : nat) (p q : string)
    (t : FTraceTracer) :
  (0 < size)%nat ->
  (forall h d, env_write E h q d = (-1)%Z) ->
  forall fuel w,
    (weight (pipes w p) < fuel)%nat ->
    fd_lookup (fdtab w) in_fd = Some p ->
    fd_lookup (fdtab w) out_fd = Some q ->
    exists st w',
      drain E fuel in_fd out_fd size t w = Val st t w'
      /\ fdtab w' = fdtab w
      /\ files w' = files w
      /\ pipes w' p = after_stop (pipes w p)
      /\ ok st = negb (stop_is_failure (pipes w p)).
Proof.
  intros Hsize Hfail.
  assert (Hwrite : forall d0 w1, fd_lookup (fdtab w1) out_fd = Some q ->
            sys_write E out_fd d0 t w1 = Val (-1)%Z t (push (EvWrite out_fd d0 (-1)%Z) w1)).
  { intros d0 w1 Hq1. unfold sys_write. rewrite Hq1, Hfail. reflexivity. }
  induction fuel as [|fuel IH]; intros w Hlt Hp Hq; [lia|].
  cbn [drain]. unfold bind at 1. unfold sys_read. rewrite Hp.
  destruct (pipes w p) as [|[d|e] r] eqn:Hs; cbn [pipe_read].
  - cbn [bytes_read_of errno_is]. rewrite Z.eqb_refl. cbn [negb andb orb Z.eqb].
    eexists _, _. split; [reflexivity|]. cbn [fdtab files pipes].
    repeat split. now rewrite upd_same.
  - destruct (String.length d <=? size)%nat eqn:Hle.
    + destruct d as [|c d'].
      * cbn. eexists _, _. split; [reflexivity|]. cbn [fdtab files pipes].
        repeat split. now rewrite upd_same.
      * set (d := String c d') in *.
        cbn [bytes_read_of errno_is data_of andb].
        assert (Hnz : (Z.of_nat (String.length d) =? -1)%Z = false
                      /\ (Z.of_nat (String.length d) =? 0)%Z = false)
          by (split; apply Z.eqb_neq; subst d; simpl; lia).
        destruct Hnz as [-> ->]. cbn [andb orb].
        unfold bind at 1. rewrite Hwrite by exact Hq.
        match goal with |- context [drain E fuel in_fd out_fd size t ?w2] =>
          destruct (IH w2) as (st & w' & Hd & Ft & Ff & Pp & Hok)
        end.
        { unfold push. cbn [pipes]. rewrite upd_same. simpl in Hlt. lia. }
        { exact Hp. }
        { exact Hq. }
        unfold push in *. cbn [fdtab files pipes] in *. repeat rewrite upd_same in *.
        exists st, w'. split; [exact Hd|]. repeat split; assumption.
    + apply Nat.leb_gt in Hle.
      set (piece := substring 0 size d).
      set (rem := substring size (String.length d - size) d).
      assert (Lp : String.length piece = size) by (apply length_substring; lia).
      assert (Lr : String.length rem = (String.length d - size)%nat)
        by (apply length_substring; lia).
      cbn [bytes_read_of errno_is data_of andb].
      assert (Hnz : (Z.of_nat (String.length piece) =? -1)%Z = false
                    /\ (Z.of_nat (String.length piece) =? 0)%Z = false)
        by (split; apply Z.eqb_neq; lia).
      destruct Hnz as [-> ->]. cbn [andb orb].
      unfold bind at 1. rewrite Hwrite by exact Hq.
      match goal with |- context [drain E fuel in_fd out_fd size t ?w2] =>
        destruct (IH w2) as (st & w' & Hd & Ft & Ff & Pp & Hok)
      end.
      { unfold push. cbn [pipes]. rewrite upd_same. cbn [weight]. simpl in Hlt. lia. }
      { exact Hp. }
      { exact Hq. }
      unfold push in *. cbn [fdtab files pipes] in *. repeat rewrite upd_same in *.
      assert (Hd' : exists c d', d = String c d')
        by (destruct d; [simpl in Hle; lia | eauto]).
      assert (Hr' : exists c r', rem = String c r')
        by (destruct rem; [simpl in Lr; lia | eauto]).
      destruct Hd' as (c & d' & Hdd), Hr' as (c' & r' & Hrr).
      exists st, w'. split; [exact Hd|].
      repeat split; try assumption.
      * rewrite Pp, Hrr, Hdd. reflexivity.
      * rewrite Hok, Hrr, Hdd. reflexivity.
  - cbn [bytes_read_of errno_is]. rewrite Z.eqb_refl. cbn [andb orb].
    destruct (e =? EAGAIN)%Z eqn:He; cbn [negb];
      (eexists _, _; split; [reflexivity|]; cbn [fdtab files pipes stop_is_failure];
       rewrite ?He; repeat split; now rewrite upd_same).
Qed.

(** X20.  The result of [write] is not looked at: when every write to the
    output file fails, [CopyCPUBuffer] still takes out of the pipe all that
    was pending, changes no file, and returns the status the reads alone
    decide, ok when the drain ended on an empty pipe.  The data is lost and
    nothing reports it. *)
Theorem CopyCPUBuffer_ignores_failed_writes (E : Env) (in_fd out_fd : Z) (p q : string)
    (t : FTraceTracer) (w : World) :
  is_tracing_ t = true -> (0 < buffer_size_ t)%Z ->
  fd_lookup (fdtab w) in_fd = Some p ->
  fd_lookup (fdtab w) out_fd = Some q ->
  (forall h d, env_write E h q d = (-1)%Z) ->
  exists st w',
    CopyCPUBuffer E in_fd out_fd t w = Val st t w'
    /\ files w' = files w
    /\ pipes w' p = after_stop (pipes w p)
    /\ ok st = negb (stop_is_failure (pipes w p)).
Proof.
  intros Ht Hb Hp Hq Hfail.
  unfold CopyCPUBuffer. monad_unfold. rewrite Ht. cbn [negb].
  destruct (buffer_size_ t <=? 0)%Z eqn:Hle; [apply Z.leb_le in Hle; lia|].
  destruct (drain_discards E in_fd out_fd (Z.to_nat (buffer_size_ t)) p q t
              ltac:(lia) Hfail (S (pending_weight w in_fd)) w)
    as (st & w' & Hd & _ & H); try assumption.
  { unfold pending_weight. rewrite Hp. lia. }
  exists st, w'. split; [exact Hd | exact H].
Qed.

(** ** A whole pass *)

Lemma copy_loop_copies (E : Env) (ps qs : nat -> string) (t : FTraceTracer) :
  is_tracing_ t = true -> (0 < buffer_size_ t)%Z ->
  (forall h q d, env_write E h q d = Z.of_nat (String.length d)) ->
  forall n i w,
    (i + n <= List.length (fds_ t))%nat ->
    (forall k a b, (i <= k < i + n)%nat -> nth_error (fds_ t) k = Some (a, b) ->
                   fd_lookup (fdtab w) a = Some (ps k) /\
                   fd_lookup (fdtab w) b = Some (qs k)) ->
    (forall j k, (i <= j < i + n)%nat -> (i <= k < i + n)%nat -> ps j = ps k -> j = k) ->
    (forall j k, (i <= j < i + n)%nat -> (i <= k < i + n)%nat -> qs j = qs k -> j = k) ->
    (forall k, (i <= k < i + n)%nat -> stop_is_failure (pipes w (ps k)) = false) ->
    exists w',
      copy_loop E n i t w = Val OkStatus t w'
      /\ fdtab w' = fdtab w
      /\ (forall k, (i <= k < i + n)%nat ->
                    files w' (qs k) = files w (qs k) ++ pending_data (pipes w (ps k)) /\
                    pipes w' (ps k) = after_stop (pipes w (ps k)))
      /\ (forall q, (forall k, (i <= k < i + n)%nat -> q <> qs k) -> files w' q = files w q)
      /\ (forall p, (forall k, (i <= k < i + n)%nat -> p <> ps k) -> pipes w' p = pipes w p).
Proof.
  intros Ht Hb Hfull.
  induction n as [|n IH]; intros i w Hlen Hfd Hps Hqs Hnf.
  - exists w. cbn [copy_loop]. unfold ret. split; [reflexivity|].
    split; [reflexivity|]. split; [intros k Hk; lia|]. split; reflexivity.
  - cbn [copy_loop]. unfold bind at 1. unfold gets at 1.
    destruct (nth_error (fds_ t) i) as [[a b]|] eqn:Hn.
    2:{ apply nth_error_None in Hn. lia. }
    cbn [fst snd].
    destruct (Hfd i a b ltac:(lia) Hn) as [Ha Hbq].
    destruct (CopyCPUBuffer_copies E a b (ps i) (qs i) t w Ht Hb Ha Hbq (fun h d => Hfull h _ d))
      as (st & w1 & Hc & F1 & Fq & Fo & Pp & Po & Hok).
    rewrite (Hnf i ltac:(lia)) in Hok. cbn [negb] in Hok.
    unfold bind at 1. rewrite Hc. rewrite Hok. cbn [negb].
    destruct (IH (S i) w1) as (w' & Hl & F' & Hk' & Fo' & Po').
    + lia.
    + intros k a' b' Hk Hn'. rewrite F1. apply Hfd; [lia | exact Hn'].
    + intros j k Hj Hk. apply Hps; lia.
    + intros j k Hj Hk. apply Hqs; lia.
    + intros k Hk. rewrite Po.
      * apply Hnf. lia.
      * intros Heq. apply Hps in Heq; lia.
    + exists w'. split; [exact Hl|]. split; [now rewrite F', F1|].
      split; [|split].
      * intros k Hk. destruct (Nat.eq_dec k i) as [->|Hne].
        -- rewrite Fo', Po'.
           ++ split; assumption.
           ++ intros k Hki Heq. apply Hps in Heq; lia.
           ++ intros k Hki Heq. apply Hqs in Heq; lia.
        -- destruct (Hk' k ltac:(lia)) as [Hf Hp'].
           rewrite Hf, Hp', Fo, Po; [split; reflexivity | |].
           ++ intros Heq. apply Hps in Heq; lia.
           ++ intros Heq. apply Hqs in Heq; lia.
      * intros q Hq. rewrite Fo' by (intros k Hk; apply Hq; lia).
        apply Fo. apply Hq. lia.
      * intros p Hp. rewrite Po' by (intros k Hk; apply Hp; lia).
        apply Po. apply Hp. lia.
Qed.

(** X21.  A pass copies every stream to its own file.  While tracing, with
    a pair in [fds_] for every CPU counted, the pairs open on pipes [ps k]
    and files [qs k] that differ from CPU to CPU, writes taken in full and
    no read failing, [CopyCPUBuffers] returns ok, appends to the file of
    each CPU exactly the data pending in the pipe of that CPU, and changes
    no other file. *)
Theorem CopyCPUBuffers_copies_every_stream (E : Env) (ps qs : nat -> string)
    (t : FTraceTracer) (w : World) :
  is_tracing_ t = true -> (0 < buffer_size_ t)%Z ->
  (forall h q d, env_write E h q d = Z.of_nat (String.length d)) ->
  (env_nprocs E (log w) <= List.length (fds_ t))%nat ->
  (forall k a b, (k < env_nprocs E (log w))%nat -> nth_error (fds_ t) k = Some (a, b) ->
                 fd_lookup (fdtab w) a = Some (ps k) /\
                 fd_lookup (fdtab w) b = Some (qs k)) ->
  (forall j k, (j < env_nprocs E (log w))%nat -> (k < env_nprocs E (log w))%nat ->
               ps j = ps k \/ qs j = qs k -> j = k) ->
  (forall k, (k < env_nprocs E (log w))%nat -> stop_is_failure (pipes w (ps k)) = false) ->
  exists w',
    CopyCPUBuffers E t w = Val OkStatus t w'
    /\ (forall k, (k < env_nprocs E (log w))%nat ->
                  files w' (qs k) = files w (qs k) ++ pending_data (pipes w (ps k)) /\
                  pipes w' (ps k) = after_stop (pipes w (ps k)))
    /\ (forall q, (forall k, (k < env_nprocs E (log w))%nat -> q <> qs k) ->
                  files w' q = files w q).
Proof.
  intros Ht Hb Hfull Hlen Hfd Hinj Hnf.
  rewrite (CopyCPUBuffers_eq E t w Ht).
  set (n := env_nprocs E (log w)) in *.
  destruct (copy_loop_copies E ps qs t Ht Hb Hfull n 0%nat (push (EvNprocs n) w))
    as (w' & Hl & _ & Hk & Fo & _).
  - cbn [Nat.add]. exact Hlen.
  - intros k a b Hr Hn. apply Hfd; [lia | exact Hn].
  - intros j k Hj Hk Heq. apply Hinj; [lia | lia | now left].
  - intros j k Hj Hk Heq. apply Hinj; [lia | lia | now right].
  - intros k Hr. apply Hnf. lia.
  - exists w'. split; [exact Hl|]. split.
    + intros k Hr. apply (Hk k). lia.
    + intros q Hq. apply (Fo q). intros k Hr. apply Hq. lia.
Qed.

(** ** The further properties at concrete inputs *)

Lemma CopyCPUBuffer_copies_pending_data_witness :
  is_tracing_ (tracer_of E_one cpu0_has_data) = true /\
  fd_lookup (fdtab (world_of E_one cpu0_has_data)) 4 = Some cpu0_pipe /\
  fd_lookup (fdtab (world_of E_one cpu0_has_data)) 5 = Some "/tmp/trace/traces/cpu0" /\
  exists st w',
    CopyCPUBuffer E_one 4 5 (tracer_of E_one cpu0_has_data) (world_of E_one cpu0_has_data)
    = Val st (tracer_of E_one cpu0_has_data) w'
    /\ files w' "/tmp/trace/traces/cpu0"
       = files (world_of E_one cpu0_has_data) "/tmp/trace/traces/cpu0"
         ++ pending_data (pipes (world_of E_one cpu0_has_data) cpu0_pipe)
    /\ (forall q', q' <> "/tmp/trace/traces/cpu0" ->
                   files w' q' = files (world_of E_one cpu0_has_data) q')
    /\ pipes w' cpu0_pipe = after_stop (pipes (world_of E_one cpu0_has_data) cpu0_pipe)
    /\ (forall p', p' <> cpu0_pipe ->
                   pipes w' p' = pipes (world_of E_one cpu0_has_data) p')
    /\ ok st = negb (stop_is_failure (pipes (world_of E_one cpu0_has_data) cpu0_pipe)).
Proof.
  assert (Ht : is_tracing_ (tracer_of E_one cpu0_has_data) = true)
    by (vm_compute; reflexivity).
  assert (Hb : (0 < buffer_size_ (tracer_of E_one cpu0_has_data))%Z)
    by (vm_compute; reflexivity).
  assert (Hi : fd_lookup (fdtab (world_of E_one cpu0_has_data)) 4 = Some cpu0_pipe)
    by (vm_compute; reflexivity).
  assert (Ho : fd_lookup (fdtab (world_of E_one cpu0_has_data)) 5
               = Some "/tmp/trace/traces/cpu0")
    by (vm_compute; reflexivity).
  split; [exact Ht | split; [exact Hi | split; [exact Ho|]]].
  exact (CopyCPUBuffer_copies_pending_data E_one 4 5 cpu0_pipe "/tmp/trace/traces/cpu0"
           (tracer_of E_one cpu0_has_data) (world_of E_one cpu0_has_data)
           Ht Hb Hi Ho (fun _ _ => eq_refl)).
Defined.

Lemma StopTrace_ok_closes_streams_and_guard_witness :
  is_tracing_ (tracer_of E_one nothing_pending) = true /\
  is_tracing_ (res_tracer tracer0
                 (StopTrace E_one true (tracer_of E_one nothing_pending)
                    (world_of E_one nothing_pending))) = false /\
  fds_ (res_tracer tracer0
          (StopTrace E_one true (tracer_of E_one nothing_pending)
             (world_of E_one nothing_pending))) = [].
Proof.
  assert (Ht : is_tracing_ (tracer_of E_one nothing_pending) = true)
    by (vm_compute; reflexivity).
  assert (Hs : StopTrace E_one true (tracer_of E_one nothing_pending)
                 (world_of E_one nothing_pending)
               = Val OkStatus
                   (res_tracer tracer0
                      (StopTrace E_one true (tracer_of E_one nothing_pending)
                         (world_of E_one nothing_pending)))
                   (res_world (world0 nothing_pending)
                      (StopTrace E_one true (tracer_of E_one nothing_pending)
                         (world_of E_one nothing_pending))))
    by (vm_compute; reflexivity).
  split; [exact Ht|].
  pose proof (StopTrace_ok_closes_streams_and_guard E_one true _ _ _ _ _ Ht Hs eq_refl)
    as (H1 & H2 & _).
  split; assumption.
Defined.

Lemma StopTrace_failure_keeps_streams_open_witness :
  is_tracing_ (tracer_of E_one cpu0_fails) = true /\
  is_tracing_ (res_tracer tracer0
                 (StopTrace E_one true (tracer_of E_one cpu0_fails)
                    (world_of E_one cpu0_fails))) = false /\
  fds_ (res_tracer tracer0
          (StopTrace E_one true (tracer_of E_one cpu0_fails)
             (world_of E_one cpu0_fails)))
  = fds_ (tracer_of E_one cpu0_fails).
Proof.
  assert (Ht : is_tracing_ (tracer_of E_one cpu0_fails) = true)
    by (vm_compute; reflexivity).
  assert (Hs : StopTrace E_one true (tracer_of E_one cpu0_fails)
                 (world_of E_one cpu0_fails)
               = Val (InternalError "Unable to read cpu file 4")
                   (res_tracer tracer0
                      (StopTrace E_one true (tracer_of E_one cpu0_fails)
                         (world_of E_one cpu0_fails)))
                   (res_world (world0 cpu0_fails)
                      (StopTrace E_one true (tracer_of E_one cpu0_fails)
                         (world_of E_one cpu0_fails))))
    by (vm_compute; reflexivity).
  split; [exact Ht|].
  pose proof (StopTrace_failure_keeps_streams_open E_one true _ _ _ _ _ Ht Hs eq_refl)
    as (H1 & H2 & _).
  split; assumption.
Defined.

Lemma dtor_stops_without_draining_witness :
  is_tracing_ (tracer_of E_one cpu0_has_data) = true /\
  exists t' w' new,
    FTraceTracer_dtor E_one (tracer_of E_one cpu0_has_data) (world_of E_one cpu0_has_data)
    = Val tt t' w'
    /\ is_tracing_ t' = false
    /\ log w' = (new ++ log (world_of E_one cpu0_has_data))%list
    /\ existsb drain_event new = false
    /\ fd_lookup (fdtab w') (free_fd_ (tracer_of E_one cpu0_has_data)) = None
    /\ (forall p, p <> kernel_trace_root_ (tracer_of E_one cpu0_has_data) // "tracing_on" ->
                  files w' p = files (world_of E_one cpu0_has_data) p).
Proof.
  assert (Ht : is_tracing_ (tracer_of E_one cpu0_has_data) = true)
    by (vm_compute; reflexivity).
  split; [exact Ht|].
  exact (dtor_stops_without_draining E_one (tracer_of E_one cpu0_has_data)
           (world_of E_one cpu0_has_data) Ht).
Defined.

Lemma EnableEvents_writes_events_in_order_witness :
  is_tracing_ tracer0 = false /\
  exists w',
    EnableEvents E_one tracer0 (world0 nothing_pending) = Val OkStatus tracer0 w'
    /\ files w' (kernel_trace_root_ tracer0 // "set_event") = concat_all (events_ tracer0)
    /\ (forall q, q <> kernel_trace_root_ tracer0 // "set_event" ->
                  files w' q = files (world0 nothing_pending) q).
Proof.
  assert (Hl : Forall (fun event => (Z.of_nat (String.length event) < 2 ^ 32)%Z)
                      (events_ tracer0)).
  { repeat constructor. }
  split; [reflexivity|].
  exact (EnableEvents_writes_events_in_order E_one tracer0 (world0 nothing_pending)
           eq_refl eq_refl (fun _ _ => eq_refl) Hl).
Defined.

Lemma streams_are_indexed_by_cpu_witness :
  is_tracing_ tracer0 = false /\
  fds_ (res_tracer tracer0 (CollectTrace_start E_two tracer0 (world0 nothing_pending)))
  = [(3, 4); (5, 6)]%Z /\
  NoDup (stream_fds
           (fds_ (res_tracer tracer0
                    (CollectTrace_start E_two tracer0 (world0 nothing_pending))))).
Proof.
  assert (Hs : CollectTrace_start E_two tracer0 (world0 nothing_pending)
               = Val (inr 0%Z)
                   (res_tracer tracer0
                      (CollectTrace_start E_two tracer0 (world0 nothing_pending)))
                   (res_world (world0 nothing_pending)
                      (CollectTrace_start E_two tracer0 (world0 nothing_pending))))
    by (vm_compute; reflexivity).
  split; [reflexivity | split; [vm_compute; reflexivity|]].
  exact (proj1 (proj2 (streams_are_indexed_by_cpu E_two tracer0 (world0 nothing_pending)
                         0%Z _ _ eq_refl Hs))).
Defined.

Lemma CollectTrace_ends_not_tracing_witness :
  is_tracing_ tracer0 = false /\
  is_tracing_ (res_tracer tracer0 (CollectTrace E_one 1 tracer0 (world0 cpu0_fails))) = false /\
  free_fd_ (res_tracer tracer0 (CollectTrace E_one 1 tracer0 (world0 cpu0_fails)))
  = free_fd_ tracer0.
Proof.
  assert (Hc : CollectTrace E_one 1 tracer0 (world0 cpu0_fails)
               = Val (InternalError
                        ("Unable to read cpu file 3" ++ String "010" (String "010" "")))
                   (res_tracer tracer0 (CollectTrace E_one 1 tracer0 (world0 cpu0_fails)))
                   (res_world (world0 cpu0_fails)
                      (CollectTrace E_one 1 tracer0 (world0 cpu0_fails))))
    by (vm_compute; reflexivity).
  split; [reflexivity|].
  exact (CollectTrace_ends_not_tracing E_one 1 tracer0 (world0 cpu0_fails) _ _ _ eq_refl Hc).
Defined.

Lemma successful_capture_leaks_no_descriptor_witness :
  is_tracing_ tracer0 = false /\ fds_ tracer0 = [] /\
  fdtab (res_world (world0 nothing_pending)
           (CollectTrace E_one 1
              (res_tracer tracer0 (ConfigureFTrace E_one tracer0 (world0 nothing_pending)))
              (res_world (world0 nothing_pending)
                 (ConfigureFTrace E_one tracer0 (world0 nothing_pending)))))
  = fdtab (world0 nothing_pending).
Proof.
  assert (H1 : ConfigureFTrace E_one tracer0 (world0 nothing_pending)
               = Val OkStatus
                   (res_tracer tracer0 (ConfigureFTrace E_one tracer0 (world0 nothing_pending)))
                   (res_world (world0 nothing_pending)
                      (ConfigureFTrace E_one tracer0 (world0 nothing_pending))))
    by (vm_compute; reflexivity).
  assert (H2 : CollectTrace E_one 1
                 (res_tracer tracer0 (ConfigureFTrace E_one tracer0 (world0 nothing_pending)))
                 (res_world (world0 nothing_pending)
                    (ConfigureFTrace E_one tracer0 (world0 nothing_pending)))
               = Val OkStatus
                   (res_tracer tracer0
                      (CollectTrace E_one 1
                         (res_tracer tracer0
                            (ConfigureFTrace E_one tracer0 (world0 nothing_pending)))
                         (res_world (world0 nothing_pending)
                            (ConfigureFTrace E_one tracer0 (world0 nothing_pending)))))
                   (res_world (world0 nothing_pending)
                      (CollectTrace E_one 1
                         (res_tracer tracer0
                            (ConfigureFTrace E_one tracer0 (world0 nothing_pending)))
                         (res_world (world0 nothing_pending)
                            (ConfigureFTrace E_one tracer0 (world0 nothing_pending))))))
    by (vm_compute; reflexivity).
  split; [reflexivity | split; [reflexivity|]].
  exact (proj1 (successful_capture_leaks_no_descriptor E_one 1 tracer0
                  (world0 nothing_pending) _ _ _ _ _ _ eq_refl eq_refl H1 eq_refl H2 eq_refl)).
Defined.

Lemma CollectTrace_ok_lasts_the_duration_witness :
  is_tracing_ tracer0 = false /\
  (0 + 1000 * 1
   < clock (res_world (world0 nothing_pending)
              (CollectTrace E_one 1 tracer0 (world0 nothing_pending))))%Z.
Proof.
  assert (Hs : CollectTrace_start E_one tracer0 (world0 nothing_pending)
               = Val (inr 0%Z)
                   (res_tracer tracer0
                      (CollectTrace_start E_one tracer0 (world0 nothing_pending)))
                   (res_world (world0 nothing_pending)
                      (CollectTrace_start E_one tracer0 (world0 nothing_pending))))
    by (vm_compute; reflexivity).
  assert (Hc : CollectTrace E_one 1 tracer0 (world0 nothing_pending)
               = Val OkStatus
                   (res_tracer tracer0 (CollectTrace E_one 1 tracer0 (world0 nothing_pending)))
                   (res_world (world0 nothing_pending)
                      (CollectTrace E_one 1 tracer0 (world0 nothing_pending))))
    by (vm_compute; reflexivity).
  split; [reflexivity|].
  exact (CollectTrace_ok_lasts_the_duration E_one 1 tracer0 (world0 nothing_pending)
           0%Z _ _ _ _ _ eq_refl Hs Hc eq_refl).
Defined.

Lemma WriteString_replaces_content_witness :
  exists w',
    WriteString E_one "/sys/kernel/debug/tracing/buffer_size_kb" "4096" tracer0
                (world0 nothing_pending)
    = Val OkStatus tracer0 w'
    /\ files w' "/sys/kernel/debug/tracing/buffer_size_kb" = "4096"
    /\ (forall p, p <> "/sys/kernel/debug/tracing/buffer_size_kb" ->
                  files w' p = files (world0 nothing_pending) p)
    /\ fdtab w' = fdtab (world0 nothing_pending) /\ pipes w' = pipes (world0 nothing_pending).
Proof.
  assert (Hp : (String.length "4096"
                <= env_ofs_sputn E_one (log (world0 nothing_pending))
                     "/sys/kernel/debug/tracing/buffer_size_kb" "4096")%nat)
    by (vm_compute; lia).
  exact (WriteString_replaces_content E_one "/sys/kernel/debug/tracing/buffer_size_kb" "4096"
           tracer0 (world0 nothing_pending) eq_refl Hp eq_refl).
Defined.


Lemma CopyFakeFile_leaves_a_prefix_witness :
  exists w' k,
    CopyFakeFile E_one (readable header_page_missing) header_page
                 "/tmp/trace/formats/header_page" tracer0 world_formats
    = Val OkStatus tracer0 w'
    /\ files w' "/tmp/trace/formats/header_page"
       = substring 0 k (files world_formats header_page)
    /\ (env_ifs_open (readable header_page_missing) (log world_formats) header_page = false ->
        files w' "/tmp/trace/formats/header_page" = "").
Proof.
  assert (Hne : header_page <> "/tmp/trace/formats/header_page") by discriminate.
  exact (CopyFakeFile_leaves_a_prefix E_one (readable header_page_missing) header_page
           "/tmp/trace/formats/header_page" tracer0 world_formats Hne eq_refl).
Defined.

Lemma event_format_path_of_parts_witness :
  event_format_path "sched:sched_switch" = "sched/sched_switch".
Proof.
  exact (event_format_path_of_parts ["sched"; "sched_switch"] eq_refl).
Defined.

Lemma CopyFormats_stops_at_first_directory_failure_witness :
  is_tracing_ tracer_twice = false /\
  match CopyFormats E_dirs (readable no_path) tracer_twice world_formats with
  | Val st t' w' =>
      t' = tracer_twice
      /\ exists new,
           log w' = (new ++ log world_formats)%list
           /\ ((ok st = true
                /\ filter is_mkdirs new
                   = rev (map (made_dir tracer_twice) (events_ tracer_twice)))
               \/
               exists done e rest,
                 events_ tracer_twice = (done ++ e :: rest)%list
                 /\ filter is_mkdirs new
                    = EvMkdirs (format_dir tracer_twice e) false
                      :: rev (map (made_dir tracer_twice) done)
                 /\ st = InternalError ("Unable to create directories for path: "
                                        ++ format_dir tracer_twice e))
  | Stuck f =>
      exists done e rest,
        events_ tracer_twice = (done ++ e :: rest)%list
        /\ f = FilesystemError (format_dir tracer_twice e)
        /\ env_mkdirs E_dirs
             (rev (map (made_dir tracer_twice) done) ++ log world_formats)%list
             (format_dir tracer_twice e) = None
  end.
Proof.
  split; [reflexivity|].
  exact (CopyFormats_stops_at_first_directory_failure E_dirs (readable no_path)
           tracer_twice world_formats eq_refl).
Defined.

Lemma E_dirs_makes_no_directory_twice (h : list Event) (p : string) :
  In (EvMkdirs p true) h -> env_mkdirs E_dirs h p = Some false.
Proof.
  intros Hin. unfold E_dirs. cbn [env_mkdirs]. f_equal.
  apply negb_false_iff, existsb_exists.
  exists (EvMkdirs p true). split; [exact Hin|].
  cbn [is_mkdir_of]. apply String.eqb_refl.
Qed.

Lemma CopyFormats_repeated_event_fails_witness :
  is_tracing_ tracer_twice = false /\
  events_ tracer_twice
  = ([] ++ "sched:sched_switch" :: ["sched:sched_wakeup"] ++ "sched:sched_switch" :: [])%list /\
  exists st w',
    CopyFormats E_dirs (readable no_path) tracer_twice world_formats
    = Val st tracer_twice w'
    /\ ok st = false.
Proof.
  assert (Hnever : forall h p, env_mkdirs E_dirs h p <> None) by discriminate.
  split; [reflexivity | split; [reflexivity|]].
  exact (proj2 (CopyFormats_repeated_event_fails E_dirs (readable no_path) tracer_twice
                  world_formats [] ["sched:sched_wakeup"] []
                  "sched:sched_switch" "sched:sched_switch"
                  eq_refl E_dirs_makes_no_directory_twice eq_refl eq_refl) Hnever).
Defined.

Lemma ConfigureFTrace_sets_control_files_witness :
  is_tracing_ tracer0 = false /\
  exists guard_fd w',
    ConfigureFTrace E_one tracer0 (world0 nothing_pending)
    = Val OkStatus (set_free_fd guard_fd tracer0) w'
    /\ files w' (kernel_trace_root_ tracer0 // "tracing_on") = "0"
    /\ files w' (kernel_trace_root_ tracer0 // "current_tracer") = "nop"
    /\ files w' (kernel_trace_root_ tracer0 // "trace_options") = "disable_on_free"
    /\ files w' (kernel_trace_root_ tracer0 // "buffer_size_kb")
       = to_string (buffer_size_ tracer0)
    /\ files w' (kernel_trace_root_ tracer0 // "set_event") = concat_all (events_ tracer0)
    /\ fd_lookup (fdtab w') guard_fd = Some (kernel_trace_root_ tracer0 // "free_buffer").
Proof.
  assert (Hl : Forall (fun event => (Z.of_nat (String.length event) < 2 ^ 32)%Z)
                      (events_ tracer0)).
  { repeat constructor. }
  split; [reflexivity|].
  exact (ConfigureFTrace_sets_control_files E_one tracer0 (world0 nothing_pending)
           eq_refl (fun _ _ => eq_refl) (fun _ _ d => le_n (String.length d))
           (fun _ _ => eq_refl) (fun _ _ _ => eq_refl) (fun _ _ _ => eq_refl) Hl).
Defined.

Lemma CopyCPUBuffer_ignores_failed_writes_witness :
  is_tracing_ (tracer_of E_disk_full cpu0_has_data) = true /\
  fd_lookup (fdtab (world_of E_disk_full cpu0_has_data)) 4 = Some cpu0_pipe /\
  fd_lookup (fdtab (world_of E_disk_full cpu0_has_data)) 5 = Some "/tmp/trace/traces/cpu0" /\
  exists st w',
    CopyCPUBuffer E_disk_full 4 5 (tracer_of E_disk_full cpu0_has_data)
                  (world_of E_disk_full cpu0_has_data)
    = Val st (tracer_of E_disk_full cpu0_has_data) w'
    /\ files w' = files (world_of E_disk_full cpu0_has_data)
    /\ pipes w' cpu0_pipe = after_stop (pipes (world_of E_disk_full cpu0_has_data) cpu0_pipe)
    /\ ok st = negb (stop_is_failure (pipes (world_of E_disk_full cpu0_has_data) cpu0_pipe)).
Proof.
  assert (Ht : is_tracing_ (tracer_of E_disk_full cpu0_has_data) = true)
    by (vm_compute; reflexivity).
  assert (Hb : (0 < buffer_size_ (tracer_of E_disk_full cpu0_has_data))%Z)
    by (vm_compute; reflexivity).
  assert (Hi : fd_lookup (fdtab (world_of E_disk_full cpu0_has_data)) 4 = Some cpu0_pipe)
    by (vm_compute; reflexivity).
  assert (Ho : fd_lookup (fdtab (world_of E_disk_full cpu0_has_data)) 5
               = Some "/tmp/trace/traces/cpu0")
    by (vm_compute; reflexivity).
  split; [exact Ht | split; [exact Hi | split; [exact Ho|]]].
  exact (CopyCPUBuffer_ignores_failed_writes E_disk_full 4 5 cpu0_pipe
           "/tmp/trace/traces/cpu0" (tracer_of E_disk_full cpu0_has_data)
           (world_of E_disk_full cpu0_has_data) Ht Hb Hi Ho (fun _ _ => eq_refl)).
Defined.

Lemma CopyCPUBuffers_copies_every_stream_witness :
  is_tracing_ (tracer_of E_two both_have_data) = true /\
  exists w',
    CopyCPUBuffers E_two (tracer_of E_two both_have_data) (world_of E_two both_have_data)
    = Val OkStatus (tracer_of E_two both_have_data) w'
    /\ (forall k, (k < env_nprocs E_two (log (world_of E_two both_have_data)))%nat ->
          files w' (cpu_file_path "/tmp/trace/traces" k)
          = files (world_of E_two both_have_data) (cpu_file_path "/tmp/trace/traces" k)
            ++ pending_data (pipes (world_of E_two both_have_data) (cpu_pipe_path root0 k))
          /\ pipes w' (cpu_pipe_path root0 k)
             = after_stop (pipes (world_of E_two both_have_data) (cpu_pipe_path root0 k)))
    /\ (forall q,
          (forall k, (k < env_nprocs E_two (log (world_of E_two both_have_data)))%nat ->
                     q <> cpu_file_path "/tmp/trace/traces" k) ->
          files w' q = files (world_of E_two both_have_data) q).
Proof.
  assert (Ht : is_tracing_ (tracer_of E_two both_have_data) = true)
    by (vm_compute; reflexivity).
  assert (Hb : (0 < buffer_size_ (tracer_of E_two both_have_data))%Z)
    by (vm_compute; reflexivity).
  assert (Hn : env_nprocs E_two (log (world_of E_two both_have_data)) = 2%nat)
    by (vm_compute; reflexivity).
  assert (Hf : fds_ (tracer_of E_two both_have_data) = [(4, 5); (6, 7)]%Z)
    by (vm_compute; reflexivity).
  assert (H4 : fd_lookup (fdtab (world_of E_two both_have_data)) 4
               = Some (cpu_pipe_path root0 0)) by (vm_compute; reflexivity).
  assert (H5 : fd_lookup (fdtab (world_of E_two both_have_data)) 5
               = Some (cpu_file_path "/tmp/trace/traces" 0)) by (vm_compute; reflexivity).
  assert (H6 : fd_lookup (fdtab (world_of E_two both_have_data)) 6
               = Some (cpu_pipe_path root0 1)) by (vm_compute; reflexivity).
  assert (H7 : fd_lookup (fdtab (world_of E_two both_have_data)) 7
               = Some (cpu_file_path "/tmp/trace/traces" 1)) by (vm_compute; reflexivity).
  assert (P0 : stop_is_failure (pipes (world_of E_two both_have_data) (cpu_pipe_path root0 0))
               = false) by (vm_compute; reflexivity).
  assert (P1 : stop_is_failure (pipes (world_of E_two both_have_data) (cpu_pipe_path root0 1))
               = false) by (vm_compute; reflexivity).
  assert (D1 : cpu_pipe_path root0 0 <> cpu_pipe_path root0 1)
    by (vm_compute; discriminate).
  assert (D2 : cpu_file_path "/tmp/trace/traces" 0 <> cpu_file_path "/tmp/trace/traces" 1)
    by (vm_compute; discriminate).
  split; [exact Ht|].
  apply (CopyCPUBuffers_copies_every_stream E_two (cpu_pipe_path root0)
           (cpu_file_path "/tmp/trace/traces") (tracer_of E_two both_have_data)
           (world_of E_two both_have_data) Ht Hb (fun _ _ _ => eq_refl)).
  - rewrite Hn, Hf. cbn [List.length]. lia.
  - rewrite Hn, Hf. intros [|[|k]] a b Hk Hnth; [| |lia];
      cbn [nth_error] in Hnth; inversion Hnth; subst; split; assumption.
  - rewrite Hn. intros [|[|j]] [|[|k]] Hj Hk [H|H]; try lia; try reflexivity;
      exfalso; auto.
  - rewrite Hn. intros [|[|k]] Hk; [exact P0 | exact P1 | lia].
Defined.
